(** * Country holiday tables of [prophet/hdays.py]: a shallow embedding

    The Python module defines one class per country, each with a
    [_populate(self, year)] method that fills the instance (a dictionary
    from dates to holiday names) with that year's holidays.  Movable
    holidays are found by the "try year-1, year, year+1 and keep what lands
    in [year]" loops written out per holiday.

    The embedding follows the code statement by statement.
    - Python integers are [Z]; [datetime.date] is a record of year, month
      and day with CPython's ordinal arithmetic.
    - [_populate] only writes: it assigns items of [self] and calls
      [warnings.warn].  Its effect is therefore the ordered list of these
      events, together with the outcome (normal return or a raised
      exception).  Item assignment is then replayed on the dictionary.
    - The Easter routine and the calendar converters are imported from
      other packages; they are variables of the development.
    - The methods are given a second time as state transformers on the
      instance (module [Stateful]); they are shown to do what replaying
      the events does. *)

From stdpp Require Import base countable gmap list.
From Stdlib Require Import ZArith Lia String.

Open Scope string_scope.
Open Scope list_scope.
Open Scope Z_scope.

(** ** Exceptions and results *)

Inductive exn : Set :=
| ValueError      (* datetime.date(...) with a field out of range *)
| OverflowError   (* date arithmetic leaving 0001-01-01 .. 9999-12-31 *)
| DateNotExist.   (* raised by the lunar converter outside its tables *)

Inductive result (A : Type) : Type :=
| Ok (a : A)
| Raise (e : exn).

Arguments Ok {A} a.
Arguments Raise {A} e.

(** ** [datetime.date] *)

Definition MINYEAR : Z := 1.
Definition MAXYEAR : Z := 9999.
Definition MAXORDINAL : Z := 3652059.

Definition is_leap (y : Z) : bool :=
  (y mod 4 =? 0) && (negb (y mod 100 =? 0) || (y mod 400 =? 0)).

Definition DAYS_IN_MONTH (m : Z) : Z :=
  match m with
  | 1 => 31 | 2 => 28 | 3 => 31 | 4 => 30 | 5 => 31 | 6 => 30
  | 7 => 31 | 8 => 31 | 9 => 30 | 10 => 31 | 11 => 30 | 12 => 31
  | _ => -1
  end.

Definition DAYS_BEFORE_MONTH (m : Z) : Z :=
  match m with
  | 1 => 0 | 2 => 31 | 3 => 59 | 4 => 90 | 5 => 120 | 6 => 151
  | 7 => 181 | 8 => 212 | 9 => 243 | 10 => 273 | 11 => 304 | 12 => 334
  | _ => -1
  end.

Definition days_before_year (y : Z) : Z :=
  let y' := y - 1 in y' * 365 + y' / 4 - y' / 100 + y' / 400.

Definition days_in_month (y m : Z) : Z :=
  if (m =? 2) && is_leap y then 29 else DAYS_IN_MONTH m.

Definition days_before_month (y m : Z) : Z :=
  DAYS_BEFORE_MONTH m + (if (2 <? m) && is_leap y then 1 else 0).

Definition ymd2ord (y m d : Z) : Z :=
  days_before_year y + days_before_month y m + d.

Definition DI400Y : Z := 146097.
Definition DI100Y : Z := 36524.
Definition DI4Y : Z := 1461.

Definition ord2ymd (n : Z) : Z * Z * Z :=
  let n := n - 1 in
  let n400 := n / DI400Y in
  let n := n mod DI400Y in
  let y := n400 * 400 + 1 in
  let n100 := n / DI100Y in
  let n := n mod DI100Y in
  let n4 := n / DI4Y in
  let n := n mod DI4Y in
  let n1 := n / 365 in
  let n := n mod 365 in
  let y := y + n100 * 100 + n4 * 4 + n1 in
  if (n1 =? 4) || (n100 =? 4) then (y - 1, 12, 31)
  else
    let leapyear := (n1 =? 3) && (negb (n4 =? 24) || (n100 =? 3)) in
    let m := Z.shiftr (n + 50) 5 in
    let preceding := DAYS_BEFORE_MONTH m + (if (2 <? m) && leapyear then 1 else 0) in
    if n <? preceding then
      let m := m - 1 in
      let preceding :=
        preceding - (DAYS_IN_MONTH m + (if (m =? 2) && leapyear then 1 else 0)) in
      (y, m, n - preceding + 1)
    else (y, m, n - preceding + 1).

Record date : Set := mkDate { year : Z; month : Z; day : Z }.

(** The checks of the constructor [date(y, m, d)]. *)
Definition valid_ymd (y m d : Z) : bool :=
  (MINYEAR <=? y) && (y <=? MAXYEAR) && (1 <=? m) && (m <=? 12)
  && (1 <=? d) && (d <=? days_in_month y m).

Definition valid_date (dt : date) : bool :=
  valid_ymd (year dt) (month dt) (day dt).

Definition date_new (y m d : Z) : result date :=
  if valid_ymd y m d then Ok (mkDate y m d) else Raise ValueError.

Definition toordinal (dt : date) : Z := ymd2ord (year dt) (month dt) (day dt).

Definition fromordinal (n : Z) : date :=
  let '(y, m, d) := ord2ymd n in mkDate y m d.

(** [dt + timedelta(days=n)]; [dt - relativedelta(days=k)] and
    [dt + relativedelta(days=k)] reduce to it with [n = -k] and [n = k]. *)
Definition date_add_days (dt : date) (n : Z) : result date :=
  let o := toordinal dt + n in
  if (0 <? o) && (o <=? MAXORDINAL) then Ok (fromordinal o) else Raise OverflowError.

(** [dt.weekday()]: Monday is 0, Saturday 5, Sunday 6. *)
Definition weekday (dt : date) : Z := (toordinal dt + 6) mod 7.

Global Instance date_eq_dec : EqDecision date.
Proof. solve_decision. Defined.

Global Instance date_countable : Countable date.
Proof.
  refine (inj_countable' (fun dt => (year dt, month dt, day dt))
            (fun t => mkDate t.1.1 t.1.2 t.2) _).
  intros []; reflexivity.
Defined.

(** ** Effects of [_populate]

    [self[key] = name] and [warnings.warn(msg, Warning)] are the only effects.
    A computation yields the events it performed, in order, and either a
    value or the exception that stopped it; events performed before an
    exception stay performed, as in Python. *)

Inductive event : Set :=
| SetItem (key : date) (name : string)
| Warn (msg : string).

Definition M (A : Type) : Type := list event * result A.

Definition ret {A} (a : A) : M A := ([], Ok a).

Definition bind {A B} (c : M A) (f : A -> M B) : M B :=
  match c with
  | (t, Ok a) => let '(t', r) := f a in (t ++ t', r)
  | (t, Raise e) => (t, Raise e)
  end.

Definition lift {A} (r : result A) : M A := ([], r).

Definition setitem (key : date) (name : string) : M unit := ([SetItem key name], Ok tt).

Definition warn (msg : string) : M unit := ([Warn msg], Ok tt).

Definition pass : M unit := ret tt.

Definition events {A} (c : M A) : list event := fst c.
Definition outcome {A} (c : M A) : result A := snd c.

Declare Scope py_scope.
Delimit Scope py_scope with py.
Bind Scope py_scope with M.

Notation "x <- c1 ;; c2" := (bind c1 (fun x => c2))
  (at level 100, c1 at next level, right associativity) : py_scope.
Notation "c1 ;; c2" := (bind c1 (fun _ => c2))
  (at level 100, right associativity) : py_scope.

Open Scope py_scope.

(** [range(start, stop, 1)] and the [for] statement. *)
Definition range (start stop : Z) : list Z :=
  List.map (fun i => start + Z.of_nat i) (seq 0 (Z.to_nat (stop - start))).

Fixpoint for_ {A} (l : list A) (body : A -> M unit) : M unit :=
  match l with
  | [] => ret tt
  | x :: l' => body x ;; for_ l' body
  end.

(** [self[date(y, m, d)] = name]: the key is built first. *)
Definition setitem_ymd (y m d : Z) (name : string) : M unit :=
  key <- lift (date_new y m d) ;; setitem key name.

(** ** The instance

    [HolidayBase], of the [holidays] package, is a dictionary subclass with
    an [observed] attribute. *)

Record HolidayBase : Type := mkHolidayBase {
  observed : bool;
  items : gmap date string
}.

(** Modelled from the spec: the class [HolidayBase] is imported, not defined
    in this module.  Assigning an item is the spec's merge of its section
    4.4, keyed by date: a later assignment to the same date replaces the
    earlier name. *)
Definition apply_event (m : gmap date string) (e : event) : gmap date string :=
  match e with
  | SetItem key name => <[key := name]> m
  | Warn _ => m
  end.

Definition apply_events (m : gmap date string) (t : list event) : gmap date string :=
  fold_left apply_event t m.

(** The dates assigned under a name, and the messages warned, in order. *)
Definition dates_named (name : string) (t : list event) : list date :=
  flat_map (fun e => match e with
                     | SetItem key n => if String.eqb n name then [key] else []
                     | Warn _ => []
                     end) t.

Definition warnings_of (t : list event) : list string :=
  flat_map (fun e => match e with SetItem _ _ => [] | Warn msg => [msg] end) t.

(** Modelled from the spec: [WEEKEND] is imported from the [holidays]
    package, not defined in this module.  It is the pair (Saturday,
    Sunday), numbered 5 and 6 as by [date.weekday()], where Monday is 0. *)
Definition WEEKEND : list Z := [5; 6].

Definition in_ (x : Z) (l : list Z) : bool := existsb (Z.eqb x) l.

(** [dateutil.easter] methods. *)
Inductive easter_method : Set := EASTER_JULIAN | EASTER_ORTHODOX | EASTER_WESTERN.

(** ** Hard-coded year tables

    These blocks of the [_populate] methods use no imported routine.  Each
    is the [if year == ...: ... elif ...: ... else: pass] chain of the
    source, preceded by the [warnings.warn] call where the source has one. *)

(** Indonesia, "Day of Silence / Nyepi" (source lines 51-83). *)
Definition Indonesia_Nyepi (yr : Z) : M unit :=
  let warning_msg := "We only support Nyepi holiday from 2009 to 2019" in
  warn warning_msg ;;
  let name := "Day of Silence/ Nyepi" in
  if yr =? 2009 then setitem_ymd yr 3 26 name
  else if yr =? 2010 then setitem_ymd yr 3 16 name
  else if yr =? 2011 then setitem_ymd yr 3 5 name
  else if yr =? 2012 then setitem_ymd yr 3 23 name
  else if yr =? 2013 then setitem_ymd yr 3 12 name
  else if yr =? 2014 then setitem_ymd yr 3 31 name
  else if yr =? 2015 then setitem_ymd yr 3 21 name
  else if yr =? 2016 then setitem_ymd yr 3 9 name
  else if yr =? 2017 then setitem_ymd yr 3 28 name
  else if yr =? 2018 then setitem_ymd yr 3 17 name
  else if yr =? 2019 then setitem_ymd yr 3 7 name
  else pass.

(** India, "Diwali" and "Holi" (source lines 203-276). *)
Definition India_Diwali_Holi (yr : Z) : M unit :=
  let warning_msg := "We only support Diwali and Holi holidays from 2010 to 2030" in
  warn warning_msg ;;
  let name1 := "Diwali" in
  let name2 := "Holi" in
  if yr =? 2010 then setitem_ymd yr 12 5 name1 ;; setitem_ymd yr 2 28 name2
  else if yr =? 2011 then setitem_ymd yr 10 26 name1 ;; setitem_ymd yr 3 19 name2
  else if yr =? 2012 then setitem_ymd yr 11 13 name1 ;; setitem_ymd yr 3 8 name2
  else if yr =? 2013 then setitem_ymd yr 11 3 name1 ;; setitem_ymd yr 3 26 name2
  else if yr =? 2014 then setitem_ymd yr 10 23 name1 ;; setitem_ymd yr 3 17 name2
  else if yr =? 2015 then setitem_ymd yr 11 11 name1 ;; setitem_ymd yr 3 6 name2
  else if yr =? 2016 then setitem_ymd yr 10 30 name1 ;; setitem_ymd yr 3 24 name2
  else if yr =? 2017 then setitem_ymd yr 10 19 name1 ;; setitem_ymd yr 3 13 name2
  else if yr =? 2018 then setitem_ymd yr 11 7 name1 ;; setitem_ymd yr 3 2 name2
  else if yr =? 2019 then setitem_ymd yr 10 27 name1 ;; setitem_ymd yr 3 21 name2
  else if yr =? 2020 then setitem_ymd yr 11 14 name1 ;; setitem_ymd yr 3 9 name2
  else if yr =? 2021 then setitem_ymd yr 11 4 name1 ;; setitem_ymd yr 3 28 name2
  else if yr =? 2022 then setitem_ymd yr 10 24 name1 ;; setitem_ymd yr 3 18 name2
  else if yr =? 2023 then setitem_ymd yr 10 12 name1 ;; setitem_ymd yr 3 7 name2
  else if yr =? 2024 then setitem_ymd yr 11 1 name1 ;; setitem_ymd yr 3 25 name2
  else if yr =? 2025 then setitem_ymd yr 10 21 name1 ;; setitem_ymd yr 3 14 name2
  else if yr =? 2026 then setitem_ymd yr 11 8 name1 ;; setitem_ymd yr 3 3 name2
  else if yr =? 2027 then setitem_ymd yr 10 29 name1 ;; setitem_ymd yr 3 22 name2
  else if yr =? 2028 then setitem_ymd yr 10 17 name1 ;; setitem_ymd yr 3 11 name2
  else if yr =? 2029 then setitem_ymd yr 11 5 name1 ;; setitem_ymd yr 2 28 name2
  else if yr =? 2030 then setitem_ymd yr 10 26 name1 ;; setitem_ymd yr 3 19 name2
  else pass.

(** Thailand, "Magha Pujab/Makha Bucha" (source lines 506-522); no warning. *)
Definition Thailand_Magha_Pujab (yr : Z) : M unit :=
  let name := "Magha Pujab/Makha Bucha" in
  if yr =? 2016 then setitem_ymd yr 2 22 name
  else if yr =? 2017 then setitem_ymd yr 2 11 name
  else if yr =? 2018 then setitem_ymd yr 3 1 name
  else if yr =? 2019 then setitem_ymd yr 2 19 name
  else pass.

(** Thailand, "Asalha Puja" (source lines 557-606). *)
Definition Thailand_Asalha_Puja (yr : Z) : M unit :=
  let warning_msg := "We only support Asalha Puja holiday from 2006 to 2025" in
  warn warning_msg ;;
  let name := "Asalha Puja" in
  if yr =? 2006 then setitem_ymd yr 7 11 name
  else if yr =? 2007 then setitem_ymd yr 6 30 name
  else if yr =? 2008 then setitem_ymd yr 7 18 name
  else if yr =? 2009 then setitem_ymd yr 7 7 name
  else if yr =? 2010 then setitem_ymd yr 7 25 name
  else if yr =? 2011 then setitem_ymd yr 7 15 name
  else if yr =? 2012 then setitem_ymd yr 8 2 name
  else if yr =? 2013 then setitem_ymd yr 7 30 name
  else if yr =? 2014 then setitem_ymd yr 7 13 name
  else if yr =? 2015 then setitem_ymd yr 7 30 name
  else if yr =? 2016 then setitem_ymd yr 7 15 name
  else if yr =? 2017 then setitem_ymd yr 7 9 name
  else if yr =? 2018 then setitem_ymd yr 7 29 name
  else if yr =? 2019 then setitem_ymd yr 7 16 name
  else if yr =? 2020 then setitem_ymd yr 7 5 name
  else if yr =? 2021 then setitem_ymd yr 7 24 name
  else if yr =? 2022 then setitem_ymd yr 7 13 name
  else if yr =? 2023 then setitem_ymd yr 7 3 name
  else if yr =? 2024 then setitem_ymd yr 7 21 name
  else if yr =? 2025 then setitem_ymd yr 7 10 name
  else pass.

(** Thailand, "Beginning of Vassa" (source lines 608-643). *)
Definition Thailand_Vassa (yr : Z) : M unit :=
  let warning_msg := "We only support Vassa holiday from 2006 to 2020" in
  warn warning_msg ;;
  let name := "Beginning of Vassa" in
  if yr =? 2006 then setitem_ymd yr 7 12 name
  else if yr =? 2007 then setitem_ymd yr 7 31 name
  else if yr =? 2008 then setitem_ymd yr 7 19 name
  else if yr =? 2009 then setitem_ymd yr 7 8 name
  else if yr =? 2010 then setitem_ymd yr 7 27 name
  else if yr =? 2011 then setitem_ymd yr 7 16 name
  else if yr =? 2012 then setitem_ymd yr 8 3 name
  else if yr =? 2013 then setitem_ymd yr 7 23 name
  else if yr =? 2014 then setitem_ymd yr 7 13 name
  else if yr =? 2015 then setitem_ymd yr 8 1 name
  else if yr =? 2016 then setitem_ymd yr 7 20 name
  else if yr =? 2017 then setitem_ymd yr 7 9 name
  else if yr =? 2018 then setitem_ymd yr 7 28 name
  else if yr =? 2019 then setitem_ymd yr 7 17 name
  else if yr =? 2020 then setitem_ymd yr 7 6 name
  else pass.

(** ** The [_populate] methods *)

Section Countries.

(** The imported routines.  Each may raise.
    - [easter y method] is [dateutil.easter.easter(y, method)], whose
      default method is [EASTER_WESTERN];
    - [from_gregorian] and [to_gregorian] are those of
      [convertdate.islamic], on (year, month, day) triples;
    - [Lunar2Solar y m d] is
      [Converter.Lunar2Solar(Lunar(y, m, d)).to_date()]. *)
Variable easter : Z -> easter_method -> result date.
Variable from_gregorian : Z -> Z -> Z -> result (Z * Z * Z).
Variable to_gregorian : Z -> Z -> Z -> result (Z * Z * Z).
Variable Lunar2Solar : Z -> Z -> Z -> result date.

(** *** Indonesia (source lines 37-156) *)
Definition Indonesia_populate (self_observed : bool) (yr : Z) : M unit :=
  (* New Year's Day *)
  skip <- (if negb self_observed
           then d <- lift (date_new yr 1 1) ;; ret (in_ (weekday d) WEEKEND)
           else ret false) ;;
  (if skip : bool then pass else setitem_ymd yr 1 1 "New Year's Day") ;;
  (* Chinese New Year / Spring Festival *)
  (let name := "Chinese New Year" in
   for_ (range (-1) 2) (fun offset =>
     ds <- lift (Lunar2Solar (yr + offset) 1 1) ;;
     if year ds =? yr then setitem ds name else pass)) ;;
  (* Day of Silence / Nyepi *)
  Indonesia_Nyepi yr ;;
  (* Ascension of the Prophet *)
  (let name := "Ascension of the Prophet" in
   for_ (range (-1) 2) (fun offset =>
     g <- lift (from_gregorian (yr + offset) 3 17) ;;
     let islam_year := g.1.1 in
     t <- lift (to_gregorian islam_year 7 27) ;;
     let '(y, m, d) := t in
     if y =? yr then setitem_ymd y m d name else pass)) ;;
  (* Labor Day *)
  setitem_ymd yr 5 1 "Labor Day" ;;
  (* Ascension of Jesus Christ *)
  (let name := "Ascension of Jesus" in
   for_ (range (-1) 2) (fun offset =>
     e <- lift (easter (yr + offset) EASTER_WESTERN) ;;
     ds <- lift (date_add_days e 39) ;;
     if year ds =? yr then setitem ds name else pass)) ;;
  (* Buddha's Birthday *)
  (let name := "Buddha's Birthday" in
   for_ (range (-1) 2) (fun offset =>
     ds <- lift (Lunar2Solar (yr + offset) 4 15) ;;
     if year ds =? yr then setitem ds name else pass)) ;;
  (* Pancasila Day, since 2017 *)
  (if yr >=? 2017 then setitem_ymd yr 6 1 "Pancasila Day" else pass) ;;
  (* Eid al-Fitr *)
  (let name := "Eid al-Fitr" in
   for_ (range (-1) 2) (fun offset =>
     g <- lift (from_gregorian (yr + offset) 6 15) ;;
     let islam_year := g.1.1 in
     t1 <- lift (to_gregorian islam_year 10 1) ;;
     let '(y1, m1, d1) := t1 in
     t2 <- lift (to_gregorian islam_year 10 2) ;;
     let '(y2, m2, d2) := t2 in
     (if y1 =? yr then setitem_ymd y1 m2 d2 name else pass) ;;
     (if y2 =? yr then setitem_ymd y2 m2 d2 name else pass))) ;;
  (* Independence Day *)
  setitem_ymd yr 8 17 "Independence Day" ;;
  (* Feast of the Sacrifice *)
  (let name := "Feast of the Sacrifice" in
   for_ (range (-1) 2) (fun offset =>
     g <- lift (from_gregorian (yr + offset) 8 22) ;;
     let islam_year := g.1.1 in
     t <- lift (to_gregorian islam_year 12 10) ;;
     let '(y, m, d) := t in
     if y =? yr then setitem_ymd y m d name else pass)) ;;
  (* Islamic New Year *)
  (let name := "Islamic New Year" in
   for_ (range (-1) 2) (fun offset =>
     g <- lift (from_gregorian (yr + offset) 9 11) ;;
     let islam_year := g.1.1 in
     t <- lift (to_gregorian (islam_year + 1) 1 1) ;;
     let '(y, m, d) := t in
     if y =? yr then setitem_ymd y m d name else pass)) ;;
  (* Birth of the Prophet *)
  (let name := "Birth of the Prophet" in
   for_ (range (-1) 2) (fun offset =>
     g <- lift (from_gregorian (yr + offset) 11 20) ;;
     let islam_year := g.1.1 in
     t <- lift (to_gregorian (islam_year + 1) 3 12) ;;
     let '(y, m, d) := t in
     if y =? yr then setitem_ymd y m d name else pass)) ;;
  (* Christmas *)
  setitem_ymd yr 12 25 "Christmas".

(** *** India (source lines 179-403) *)
Definition India_populate (self_observed : bool) (yr : Z) : M unit :=
  (* Republic Day, Independence Day, Gandhi Jayanti *)
  setitem_ymd yr 1 26 "Republic Day" ;;
  setitem_ymd yr 8 15 "Independence Day" ;;
  setitem_ymd yr 10 2 "Gandhi Jayanti" ;;
  (* Diwali, Holi *)
  India_Diwali_Holi yr ;;
  (* Day of Ashura: 10th day of 1st Islamic month *)
  (let name := "Day of Ashura" in
   for_ (range (-1) 2) (fun offset =>
     g <- lift (from_gregorian (yr + offset) 10 1) ;;
     let islam_year := g.1.1 in
     t <- lift (to_gregorian islam_year 1 10) ;;
     let '(y, m, d) := t in
     if y =? yr then setitem_ymd y m d name else pass)) ;;
  (* Mawlid: 12th day of 3rd Islamic month *)
  (let name := "Mawlid" in
   for_ (range (-1) 2) (fun offset =>
     g <- lift (from_gregorian (yr + offset) 11 20) ;;
     let islam_year := g.1.1 in
     t <- lift (to_gregorian islam_year 3 12) ;;
     let '(y, m, d) := t in
     if y =? yr then setitem_ymd y m d name else pass)) ;;
  (* Eid ul-Fitr: 1st and 2nd day of 10th Islamic month *)
  (let name := "Eid al-Fitr" in
   for_ (range (-1) 2) (fun offset =>
     g <- lift (from_gregorian (yr + offset) 6 15) ;;
     let islam_year := g.1.1 in
     t1 <- lift (to_gregorian islam_year 10 1) ;;
     let '(y1, m1, d1) := t1 in
     t2 <- lift (to_gregorian islam_year 10 2) ;;
     let '(y2, m2, d2) := t2 in
     (if y1 =? yr then setitem_ymd y1 m1 d1 name else pass) ;;
     (if y2 =? yr then setitem_ymd y2 m2 d2 name else pass))) ;;
  (* Eid al-Adha, i.e., Feast of the Sacrifice *)
  (let name := "Feast of the Sacrifice" in
   for_ (range (-1) 2) (fun offset =>
     g <- lift (from_gregorian (yr + offset) 8 22) ;;
     let islam_year := g.1.1 in
     t <- lift (to_gregorian islam_year 12 10) ;;
     let '(y, m, d) := t in
     if y =? yr then setitem_ymd y m d name else pass)) ;;
  (* New Year's Day *)
  setitem_ymd yr 1 1 "New Year's Day" ;;
  (* Palm Sunday *)
  (let name := "Palm Sunday" in
   for_ (range (-1) 2) (fun offset =>
     e <- lift (easter (yr + offset) EASTER_WESTERN) ;;
     ds <- lift (date_add_days e (-7)) ;;
     if year ds =? yr then setitem ds name else pass)) ;;
  (* Maundy Thursday *)
  (let name := "Maundy Thursday" in
   for_ (range (-1) 2) (fun offset =>
     e <- lift (easter (yr + offset) EASTER_WESTERN) ;;
     ds <- lift (date_add_days e (-3)) ;;
     if year ds =? yr then setitem ds name else pass)) ;;
  (* Good Friday *)
  (let name := "Good Friday" in
   for_ (range (-1) 2) (fun offset =>
     e <- lift (easter (yr + offset) EASTER_WESTERN) ;;
     ds <- lift (date_add_days e (-2)) ;;
     if year ds =? yr then setitem ds name else pass)) ;;
  (* Easter Sunday *)
  (let name := "Easter Sunday" in
   for_ (range (-1) 2) (fun offset =>
     ds <- lift (easter (yr + offset) EASTER_WESTERN) ;;
     if year ds =? yr then setitem ds name else pass)) ;;
  (* Feast of Pentecost *)
  (let name := "Feast of Pentecost" in
   for_ (range (-1) 2) (fun offset =>
     e <- lift (easter (yr + offset) EASTER_WESTERN) ;;
     ds <- lift (date_add_days e 49) ;;
     if year ds =? yr then setitem ds name else pass)) ;;
  setitem_ymd yr 9 5 "Fest of St. Theresa of Calcutta" ;;
  setitem_ymd yr 9 8 "Feast of the Blessed Virgin" ;;
  setitem_ymd yr 11 1 "All Saints Day" ;;
  setitem_ymd yr 11 2 "All Souls Day" ;;
  setitem_ymd yr 12 25 "Christmas Day" ;;
  setitem_ymd yr 12 26 "Boxing Day" ;;
  setitem_ymd yr 12 30 "Feast of Holy Family".

(** *** Kyrgyzstan (source lines 423-482) *)
Definition Kyrgyzstan_populate (self_observed : bool) (yr : Z) : M unit :=
  setitem_ymd yr 1 1 "New Year's Day" ;;
  setitem_ymd yr 1 7 "Orthodox Christmas Day" ;;
  setitem_ymd yr 2 23 "Fatherland Defender's Day" ;;
  setitem_ymd yr 3 8 "International Women's Day" ;;
  setitem_ymd yr 3 21 "Nooruz Mairamy" ;;
  setitem_ymd yr 4 7 "Day of the People's April Revolution" ;;
  setitem_ymd yr 5 1 "Spring and Labour Day" ;;
  setitem_ymd yr 5 1 "Spring and Labour Day" ;;
  setitem_ymd yr 5 5 "Constitution Day" ;;
  setitem_ymd yr 5 9 "Victory Day" ;;
  setitem_ymd yr 6 1 "Russia Day" ;;
  setitem_ymd yr 8 31 "Independence Day" ;;
  setitem_ymd yr 11 7 "Day 1 of History and Commemoration of Ancestors" ;;
  setitem_ymd yr 11 8 "Day 2 of History and Commemoration of Ancestors" ;;
  setitem_ymd yr 12 31 "New Year's Eve".

(** *** Thailand (source lines 501-667) *)
Definition Thailand_populate (self_observed : bool) (yr : Z) : M unit :=
  setitem_ymd yr 1 1 "New Year's Day" ;;
  (* Magha Pujab *)
  Thailand_Magha_Pujab yr ;;
  (* Chakri Memorial Day *)
  (let name := "Chakri Memorial Day" in
   d <- lift (date_new yr 4 6) ;;
   let april_6 := weekday d in
   if april_6 =? 5 then setitem_ymd yr 4 (6 + 2) name
   else if april_6 =? 6 then setitem_ymd yr 4 (6 + 1) name
   else setitem_ymd yr 4 6 name) ;;
  setitem_ymd yr 4 14 "Songkran Festival" ;;
  (* Buddha's Birthday *)
  (let name := "Buddha's Birthday" in
   for_ (range (-1) 2) (fun offset =>
     ds <- lift (Lunar2Solar (yr + offset) 4 15) ;;
     if year ds =? yr then setitem ds name else pass)) ;;
  (* Coronation Day, removed in 2017 *)
  (if yr <? 2017 then setitem_ymd yr 5 5 "Coronation Day" else pass) ;;
  setitem_ymd yr 7 28 "King Maha Vajiralongkorn's Birthday" ;;
  (* Asalha Puja *)
  Thailand_Asalha_Puja yr ;;
  (* Beginning of Vassa *)
  Thailand_Vassa yr ;;
  setitem_ymd yr 8 12 "The Queen Sirikit's Birthday" ;;
  setitem_ymd yr 10 13 "Anniversary for the Death of King Bhumibol Adulyadej" ;;
  setitem_ymd yr 10 23 "King Chulalongkorn Day" ;;
  setitem_ymd yr 12 5 "King Bhumibol Adulyadej's Birthday Anniversary" ;;
  setitem_ymd yr 12 10 "Constitution Day" ;;
  setitem_ymd yr 12 31 "New Year's Eve".

(** *** Philippines (source lines 687-749) *)
Definition Philippines_populate (self_observed : bool) (yr : Z) : M unit :=
  setitem_ymd yr 1 1 "New Year's Day" ;;
  (* Maundy Thursday *)
  (let name := "Maundy Thursday" in
   for_ (range (-1) 2) (fun offset =>
     e <- lift (easter (yr + offset) EASTER_WESTERN) ;;
     ds <- lift (date_add_days e (-3)) ;;
     if year ds =? yr then setitem ds name else pass)) ;;
  (* Good Friday *)
  (let name := "Good Friday" in
   for_ (range (-1) 2) (fun offset =>
     e <- lift (easter (yr + offset) EASTER_WESTERN) ;;
     ds <- lift (date_add_days e (-2)) ;;
     if year ds =? yr then setitem ds name else pass)) ;;
  setitem_ymd yr 4 9 "Day of Valor" ;;
  setitem_ymd yr 5 1 "Labor Day" ;;
  setitem_ymd yr 6 12 "Independence Day" ;;
  (* Eid al-Fitr *)
  (let name := "Eid al-Fitr" in
   for_ (range (-1) 2) (fun offset =>
     g <- lift (from_gregorian (yr + offset) 6 15) ;;
     let islam_year := g.1.1 in
     t <- lift (to_gregorian islam_year 10 1) ;;
     let '(y, m, d) := t in
     d0 <- lift (date_new y m d) ;;
     ds <- lift (date_add_days d0 (-1)) ;;
     if year ds =? yr then setitem ds name else pass)) ;;
  (* Eid al-Adha, i.e., Feast of the Sacrifice *)
  (let name := "Feast of the Sacrifice" in
   for_ (range (-1) 2) (fun offset =>
     g <- lift (from_gregorian (yr + offset) 8 22) ;;
     let islam_year := g.1.1 in
     t <- lift (to_gregorian islam_year 12 10) ;;
     let '(y, m, d) := t in
     if y =? yr then setitem_ymd y m d name else pass)) ;;
  setitem_ymd yr 8 27 "National Heroes' Day" ;;
  setitem_ymd yr 11 30 "Bonifacio Day" ;;
  setitem_ymd yr 12 25 "Christmas Day" ;;
  setitem_ymd yr 12 30 "Rizal Day".

(** *** Pakistan (source lines 778-868) *)
Definition Pakistan_populate (self_observed : bool) (yr : Z) : M unit :=
  setitem_ymd yr 2 5 "Kashmir Solidarity Day" ;;
  setitem_ymd yr 3 23 "Pakistan Day" ;;
  setitem_ymd yr 5 1 "Labor Day" ;;
  setitem_ymd yr 8 14 "Independence Day" ;;
  setitem_ymd yr 11 9 "Iqbal Day" ;;
  setitem_ymd yr 12 25 "Christmas Day" ;;
  (* Eid al-Adha, i.e., Feast of the Sacrifice *)
  (let name := "Feast of the Sacrifice" in
   for_ (range (-1) 2) (fun offset =>
     g <- lift (from_gregorian (yr + offset) 8 22) ;;
     let islam_year := g.1.1 in
     t1 <- lift (to_gregorian islam_year 12 10) ;;
     let '(y1, m1, d1) := t1 in
     t2 <- lift (to_gregorian islam_year 12 11) ;;
     let '(y2, m2, d2) := t2 in
     t3 <- lift (to_gregorian islam_year 12 12) ;;
     let '(y3, m3, d3) := t3 in
     (if y1 =? yr then setitem_ymd y1 m1 d1 name else pass) ;;
     (if y2 =? yr then setitem_ymd y2 m2 d2 name else pass) ;;
     (if y3 =? yr then setitem_ymd y3 m3 d3 name else pass))) ;;
  (* Eid al-Fitr *)
  (let name := "Eid al-Fitr" in
   for_ (range (-1) 2) (fun offset =>
     g <- lift (from_gregorian (yr + offset) 6 15) ;;
     let islam_year := g.1.1 in
     t1 <- lift (to_gregorian islam_year 10 1) ;;
     let '(y1, m1, d1) := t1 in
     t2 <- lift (to_gregorian islam_year 10 2) ;;
     let '(y2, m2, d2) := t2 in
     t3 <- lift (to_gregorian islam_year 10 3) ;;
     let '(y3, m3, d3) := t3 in
     (if y1 =? yr then setitem_ymd y1 m1 d1 name else pass) ;;
     (if y2 =? yr then setitem_ymd y2 m2 d2 name else pass) ;;
     (if y3 =? yr then setitem_ymd y3 m3 d3 name else pass))) ;;
  (* Mawlid: 12th day of 3rd Islamic month *)
  (let name := "Mawlid" in
   for_ (range (-1) 2) (fun offset =>
     g <- lift (from_gregorian (yr + offset) 11 20) ;;
     let islam_year := g.1.1 in
     t <- lift (to_gregorian islam_year 3 12) ;;
     let '(y, m, d) := t in
     if y =? yr then setitem_ymd y m d name else pass)) ;;
  (* Day of Ashura: 10th and 11th days of 1st Islamic month *)
  (let name := "Day of Ashura" in
   for_ (range (-1) 2) (fun offset =>
     g <- lift (from_gregorian (yr + offset) 10 1) ;;
     let islam_year := g.1.1 in
     t1 <- lift (to_gregorian islam_year 1 10) ;;
     let '(y1, m1, d1) := t1 in
     t2 <- lift (to_gregorian islam_year 1 11) ;;
     let '(y2, m2, d2) := t2 in
     (if y1 =? yr then setitem_ymd y1 m1 d1 name else pass) ;;
     (if y2 =? yr then setitem_ymd y2 m2 d2 name else pass))) ;;
  (* Shab e Mairaj *)
  (let name := "Shab e Mairaj" in
   for_ (range (-1) 2) (fun offset =>
     g <- lift (from_gregorian (yr + offset) 4 13) ;;
     let islam_year := g.1.1 in
     t <- lift (to_gregorian islam_year 7 27) ;;
     let '(y, m, d) := t in
     if y =? yr then setitem_ymd y m d name else pass)) ;;
  setitem_ymd yr 9 6 "Defence Day" ;;
  setitem_ymd yr 9 11 "Death Anniversary of Quaid-e-Azam".

(** *** Russia (source lines 890-929) *)
Definition Russia_populate (self_observed : bool) (yr : Z) : M unit :=
  setitem_ymd yr 1 1 "New Year's Day" ;;
  setitem_ymd yr 1 7 "Orthodox Christmas Day" ;;
  setitem_ymd yr 12 25 "Christmas Day" ;;
  setitem_ymd yr 2 23 "Defender of the Fatherland Day" ;;
  setitem_ymd yr 3 8 "International Women's Day" ;;
  setitem_ymd yr 8 22 "National Flag Day" ;;
  setitem_ymd yr 5 1 "Spring and Labour Day" ;;
  setitem_ymd yr 5 9 "Victory Day" ;;
  setitem_ymd yr 6 12 "Russia Day" ;;
  setitem_ymd yr 11 4 "Unity Day".

(** [self[easter(year, EASTER_ORTHODOX) + timedelta(days=n)] = name] *)
Definition setitem_orthodox (yr n : Z) (name : string) : M unit :=
  e <- lift (easter yr EASTER_ORTHODOX) ;;
  key <- lift (date_add_days e n) ;;
  setitem key name.

(** *** Belarus (source lines 953-988) *)
Definition Belarus_populate (self_observed : bool) (yr : Z) : M unit :=
  setitem_ymd yr 1 1 "New Year's Day" ;;
  setitem_ymd yr 1 7 "Orthodox Christmas Day" ;;
  setitem_ymd yr 3 8 "International Women's Day" ;;
  (* Commemoration Day *)
  setitem_orthodox yr 9 "Commemoration Day" ;;
  setitem_ymd yr 5 1 "Spring and Labour Day" ;;
  setitem_ymd yr 5 9 "Victory Day" ;;
  setitem_ymd yr 7 3 "Independence Day" ;;
  setitem_ymd yr 11 7 "October Revolution Day" ;;
  setitem_ymd yr 12 25 "Christmas Day".

(** *** Georgia (source lines 1007-1074) *)
Definition Georgia_populate (self_observed : bool) (yr : Z) : M unit :=
  setitem_ymd yr 1 1 "New Year's Day" ;;
  setitem_ymd yr 1 2 "Second day of the New Year" ;;
  setitem_ymd yr 1 7 "Orthodox Christmas" ;;
  setitem_ymd yr 1 19 "Baptism Day of our Lord Jesus Christ" ;;
  setitem_ymd yr 3 3 "Mother's Day" ;;
  setitem_ymd yr 3 8 "International Women's Day" ;;
  (* Orthodox Good Friday, Holy Saturday, Easter Sunday, Easter Monday *)
  setitem_orthodox yr (-2) "Good Friday" ;;
  setitem_orthodox yr (-1) "Great Saturday" ;;
  (key <- lift (easter yr EASTER_ORTHODOX) ;; setitem key "Easter Sunday") ;;
  setitem_orthodox yr 1 "Easter Monday" ;;
  setitem_ymd yr 4 9 "National Unity Day" ;;
  setitem_ymd yr 5 9 "Victory Day" ;;
  setitem_ymd yr 5 12 "Saint Andrew the First-Called Day" ;;
  setitem_ymd yr 5 26 "Independence Day" ;;
  setitem_ymd yr 8 28 "Saint Mary's Day" ;;
  setitem_ymd yr 10 14 "Day of Svetitskhoveli Cathedral" ;;
  setitem_ymd yr 12 23 "Saint George's Day".

(** *** Dispatch on the class

    [ID], [IN], [KG], [TH], [PH], [PK], [RU], [BY] and [GE] are subclasses
    with an empty body: they run the method of the class they alias.
    [TU] aliases [Turkey] of the [holidays] package, whose [_populate] is
    not part of this module. *)
Inductive country : Set :=
| Indonesia | India | Kyrgyzstan | Thailand | Philippines
| Pakistan | Russia | Belarus | Georgia.

Definition populate (c : country) : bool -> Z -> M unit :=
  match c with
  | Indonesia => Indonesia_populate
  | India => India_populate
  | Kyrgyzstan => Kyrgyzstan_populate
  | Thailand => Thailand_populate
  | Philippines => Philippines_populate
  | Pakistan => Pakistan_populate
  | Russia => Russia_populate
  | Belarus => Belarus_populate
  | Georgia => Georgia_populate
  end.

(** Running [self._populate(year)] on an instance: the events are replayed
    on its dictionary; the outcome says whether the call returned. *)
Definition run_populate (c : country) (self : HolidayBase) (yr : Z)
  : HolidayBase * result unit :=
  let r := populate c (observed self) yr in
  (mkHolidayBase (observed self) (apply_events (items self) (events r)), outcome r).

End Countries.

(** ** The methods as state transformers

    The same methods once more, statement by statement, now as functions of
    the instance: [self[key] = name] updates the dictionary of [self] in
    place, [self.observed] is read from [self], and a call yields the
    instance as it left it, the messages it warned with and how it ended.
    In this form a method could read or remove what an earlier call stored;
    the properties of repeated calls are stated on it. *)

Module Stateful.

Definition St (A : Type) : Type := HolidayBase -> HolidayBase * list string * result A.

Definition ret {A} (a : A) : St A := fun self => (self, [], Ok a).

Definition bind {A B} (c : St A) (f : A -> St B) : St B := fun self =>
  match c self with
  | (self1, w, Ok a) => let '(self2, w', r) := f a self1 in (self2, w ++ w', r)
  | (self1, w, Raise e) => (self1, w, Raise e)
  end.

Definition lift {A} (r : result A) : St A := fun self => (self, [], r).

(** Modelled from the spec: [HolidayBase.__setitem__] is imported.  As in
    [apply_event], a later assignment to a date replaces the earlier name
    (section 4.4 of the spec). *)
Definition setitem (key : date) (name : string) : St unit := fun self =>
  (mkHolidayBase (observed self) (<[key := name]> (items self)), [], Ok tt).

Definition warn (msg : string) : St unit := fun self => (self, [msg], Ok tt).

(** [self.observed] *)
Definition get_observed : St bool := fun self => (self, [], Ok (observed self)).

Definition pass : St unit := ret tt.

Declare Scope st_scope.
Delimit Scope st_scope with st.
Bind Scope st_scope with St.

Notation "x <- c1 ;; c2" := (bind c1 (fun x => c2))
  (at level 100, c1 at next level, right associativity) : st_scope.
Notation "c1 ;; c2" := (bind c1 (fun _ => c2))
  (at level 100, right associativity) : st_scope.

Local Open Scope st_scope.

Fixpoint for_ {A} (l : list A) (body : A -> St unit) : St unit :=
  match l with
  | [] => ret tt
  | x :: l' => body x ;; for_ l' body
  end.

Definition setitem_ymd (y m d : Z) (name : string) : St unit :=
  key <- lift (date_new y m d) ;; setitem key name.

(** *** The hard-coded year tables *)

(** Indonesia, "Day of Silence / Nyepi" (source lines 51-83). *)
Definition Indonesia_Nyepi (yr : Z) : St unit :=
  let warning_msg := "We only support Nyepi holiday from 2009 to 2019" in
  warn warning_msg ;;
  let name := "Day of Silence/ Nyepi" in
  if yr =? 2009 then setitem_ymd yr 3 26 name
  else if yr =? 2010 then setitem_ymd yr 3 16 name
  else if yr =? 2011 then setitem_ymd yr 3 5 name
  else if yr =? 2012 then setitem_ymd yr 3 23 name
  else if yr =? 2013 then setitem_ymd yr 3 12 name
  else if yr =? 2014 then setitem_ymd yr 3 31 name
  else if yr =? 2015 then setitem_ymd yr 3 21 name
  else if yr =? 2016 then setitem_ymd yr 3 9 name
  else if yr =? 2017 then setitem_ymd yr 3 28 name
  else if yr =? 2018 then setitem_ymd yr 3 17 name
  else if yr =? 2019 then setitem_ymd yr 3 7 name
  else pass.

(** India, "Diwali" and "Holi" (source lines 203-276). *)
Definition India_Diwali_Holi (yr : Z) : St unit :=
  let warning_msg := "We only support Diwali and Holi holidays from 2010 to 2030" in
  warn warning_msg ;;
  let name1 := "Diwali" in
  let name2 := "Holi" in
  if yr =? 2010 then setitem_ymd yr 12 5 name1 ;; setitem_ymd yr 2 28 name2
  else if yr =? 2011 then setitem_ymd yr 10 26 name1 ;; setitem_ymd yr 3 19 name2
  else if yr =? 2012 then setitem_ymd yr 11 13 name1 ;; setitem_ymd yr 3 8 name2
  else if yr =? 2013 then setitem_ymd yr 11 3 name1 ;; setitem_ymd yr 3 26 name2
  else if yr =? 2014 then setitem_ymd yr 10 23 name1 ;; setitem_ymd yr 3 17 name2
  else if yr =? 2015 then setitem_ymd yr 11 11 name1 ;; setitem_ymd yr 3 6 name2
  else if yr =? 2016 then setitem_ymd yr 10 30 name1 ;; setitem_ymd yr 3 24 name2
  else if yr =? 2017 then setitem_ymd yr 10 19 name1 ;; setitem_ymd yr 3 13 name2
  else if yr =? 2018 then setitem_ymd yr 11 7 name1 ;; setitem_ymd yr 3 2 name2
  else if yr =? 2019 then setitem_ymd yr 10 27 name1 ;; setitem_ymd yr 3 21 name2
  else if yr =? 2020 then setitem_ymd yr 11 14 name1 ;; setitem_ymd yr 3 9 name2
  else if yr =? 2021 then setitem_ymd yr 11 4 name1 ;; setitem_ymd yr 3 28 name2
  else if yr =? 2022 then setitem_ymd yr 10 24 name1 ;; setitem_ymd yr 3 18 name2
  else if yr =? 2023 then setitem_ymd yr 10 12 name1 ;; setitem_ymd yr 3 7 name2
  else if yr =? 2024 then setitem_ymd yr 11 1 name1 ;; setitem_ymd yr 3 25 name2
  else if yr =? 2025 then setitem_ymd yr 10 21 name1 ;; setitem_ymd yr 3 14 name2
  else if yr =? 2026 then setitem_ymd yr 11 8 name1 ;; setitem_ymd yr 3 3 name2
  else if yr =? 2027 then setitem_ymd yr 10 29 name1 ;; setitem_ymd yr 3 22 name2
  else if yr =? 2028 then setitem_ymd yr 10 17 name1 ;; setitem_ymd yr 3 11 name2
  else if yr =? 2029 then setitem_ymd yr 11 5 name1 ;; setitem_ymd yr 2 28 name2
  else if yr =? 2030 then setitem_ymd yr 10 26 name1 ;; setitem_ymd yr 3 19 name2
  else pass.

(** Thailand, "Magha Pujab/Makha Bucha" (source lines 506-522); no warning. *)
Definition Thailand_Magha_Pujab (yr : Z) : St unit :=
  let name := "Magha Pujab/Makha Bucha" in
  if yr =? 2016 then setitem_ymd yr 2 22 name
  else if yr =? 2017 then setitem_ymd yr 2 11 name
  else if yr =? 2018 then setitem_ymd yr 3 1 name
  else if yr =? 2019 then setitem_ymd yr 2 19 name
  else pass.

(** Thailand, "Asalha Puja" (source lines 557-606). *)
Definition Thailand_Asalha_Puja (yr : Z) : St unit :=
  let warning_msg := "We only support Asalha Puja holiday from 2006 to 2025" in
  warn warning_msg ;;
  let name := "Asalha Puja" in
  if yr =? 2006 then setitem_ymd yr 7 11 name
  else if yr =? 2007 then setitem_ymd yr 6 30 name
  else if yr =? 2008 then setitem_ymd yr 7 18 name
  else if yr =? 2009 then setitem_ymd yr 7 7 name
  else if yr =? 2010 then setitem_ymd yr 7 25 name
  else if yr =? 2011 then setitem_ymd yr 7 15 name
  else if yr =? 2012 then setitem_ymd yr 8 2 name
  else if yr =? 2013 then setitem_ymd yr 7 30 name
  else if yr =? 2014 then setitem_ymd yr 7 13 name
  else if yr =? 2015 then setitem_ymd yr 7 30 name
  else if yr =? 2016 then setitem_ymd yr 7 15 name
  else if yr =? 2017 then setitem_ymd yr 7 9 name
  else if yr =? 2018 then setitem_ymd yr 7 29 name
  else if yr =? 2019 then setitem_ymd yr 7 16 name
  else if yr =? 2020 then setitem_ymd yr 7 5 name
  else if yr =? 2021 then setitem_ymd yr 7 24 name
  else if yr =? 2022 then setitem_ymd yr 7 13 name
  else if yr =? 2023 then setitem_ymd yr 7 3 name
  else if yr =? 2024 then setitem_ymd yr 7 21 name
  else if yr =? 2025 then setitem_ymd yr 7 10 name
  else pass.

(** Thailand, "Beginning of Vassa" (source lines 608-643). *)
Definition Thailand_Vassa (yr : Z) : St unit :=
  let warning_msg := "We only support Vassa holiday from 2006 to 2020" in
  warn warning_msg ;;
  let name := "Beginning of Vassa" in
  if yr =? 2006 then setitem_ymd yr 7 12 name
  else if yr =? 2007 then setitem_ymd yr 7 31 name
  else if yr =? 2008 then setitem_ymd yr 7 19 name
  else if yr =? 2009 then setitem_ymd yr 7 8 name
  else if yr =? 2010 then setitem_ymd yr 7 27 name
  else if yr =? 2011 then setitem_ymd yr 7 16 name
  else if yr =? 2012 then setitem_ymd yr 8 3 name
  else if yr =? 2013 then setitem_ymd yr 7 23 name
  else if yr =? 2014 then setitem_ymd yr 7 13 name
  else if yr =? 2015 then setitem_ymd yr 8 1 name
  else if yr =? 2016 then setitem_ymd yr 7 20 name
  else if yr =? 2017 then setitem_ymd yr 7 9 name
  else if yr =? 2018 then setitem_ymd yr 7 28 name
  else if yr =? 2019 then setitem_ymd yr 7 17 name
  else if yr =? 2020 then setitem_ymd yr 7 6 name
  else pass.

Section Countries.

Variable easter : Z -> easter_method -> result date.
Variable from_gregorian : Z -> Z -> Z -> result (Z * Z * Z).
Variable to_gregorian : Z -> Z -> Z -> result (Z * Z * Z).
Variable Lunar2Solar : Z -> Z -> Z -> result date.

(** *** Indonesia (source lines 37-156) *)
Definition Indonesia_populate (yr : Z) : St unit :=
  (* New Year's Day *)
  self_observed <- get_observed ;;
  skip <- (if negb self_observed
           then d <- lift (date_new yr 1 1) ;; ret (in_ (weekday d) WEEKEND)
           else ret false) ;;
  (if skip : bool then pass else setitem_ymd yr 1 1 "New Year's Day") ;;
  (* Chinese New Year / Spring Festival *)
  (let name := "Chinese New Year" in
   for_ (range (-1) 2) (fun offset =>
     ds <- lift (Lunar2Solar (yr + offset) 1 1) ;;
     if year ds =? yr then setitem ds name else pass)) ;;
  (* Day of Silence / Nyepi *)
  Indonesia_Nyepi yr ;;
  (* Ascension of the Prophet *)
  (let name := "Ascension of the Prophet" in
   for_ (range (-1) 2) (fun offset =>
     g <- lift (from_gregorian (yr + offset) 3 17) ;;
     let islam_year := g.1.1 in
     t <- lift (to_gregorian islam_year 7 27) ;;
     let '(y, m, d) := t in
     if y =? yr then setitem_ymd y m d name else pass)) ;;
  (* Labor Day *)
  setitem_ymd yr 5 1 "Labor Day" ;;
  (* Ascension of Jesus Christ *)
  (let name := "Ascension of Jesus" in
   for_ (range (-1) 2) (fun offset =>
     e <- lift (easter (yr + offset) EASTER_WESTERN) ;;
     ds <- lift (date_add_days e 39) ;;
     if year ds =? yr then setitem ds name else pass)) ;;
  (* Buddha's Birthday *)
  (let name := "Buddha's Birthday" in
   for_ (range (-1) 2) (fun offset =>
     ds <- lift (Lunar2Solar (yr + offset) 4 15) ;;
     if year ds =? yr then setitem ds name else pass)) ;;
  (* Pancasila Day, since 2017 *)
  (if yr >=? 2017 then setitem_ymd yr 6 1 "Pancasila Day" else pass) ;;
  (* Eid al-Fitr *)
  (let name := "Eid al-Fitr" in
   for_ (range (-1) 2) (fun offset =>
     g <- lift (from_gregorian (yr + offset) 6 15) ;;
     let islam_year := g.1.1 in
     t1 <- lift (to_gregorian islam_year 10 1) ;;
     let '(y1, m1, d1) := t1 in
     t2 <- lift (to_gregorian islam_year 10 2) ;;
     let '(y2, m2, d2) := t2 in
     (if y1 =? yr then setitem_ymd y1 m2 d2 name else pass) ;;
     (if y2 =? yr then setitem_ymd y2 m2 d2 name else pass))) ;;
  (* Independence Day *)
  setitem_ymd yr 8 17 "Independence Day" ;;
  (* Feast of the Sacrifice *)
  (let name := "Feast of the Sacrifice" in
   for_ (range (-1) 2) (fun offset =>
     g <- lift (from_gregorian (yr + offset) 8 22) ;;
     let islam_year := g.1.1 in
     t <- lift (to_gregorian islam_year 12 10) ;;
     let '(y, m, d) := t in
     if y =? yr then setitem_ymd y m d name else pass)) ;;
  (* Islamic New Year *)
  (let name := "Islamic New Year" in
   for_ (range (-1) 2) (fun offset =>
     g <- lift (from_gregorian (yr + offset) 9 11) ;;
     let islam_year := g.1.1 in
     t <- lift (to_gregorian (islam_year + 1) 1 1) ;;
     let '(y, m, d) := t in
     if y =? yr then setitem_ymd y m d name else pass)) ;;
  (* Birth of the Prophet *)
  (let name := "Birth of the Prophet" in
   for_ (range (-1) 2) (fun offset =>
     g <- lift (from_gregorian (yr + offset) 11 20) ;;
     let islam_year := g.1.1 in
     t <- lift (to_gregorian (islam_year + 1) 3 12) ;;
     let '(y, m, d) := t in
     if y =? yr then setitem_ymd y m d name else pass)) ;;
  (* Christmas *)
  setitem_ymd yr 12 25 "Christmas".

(** *** India (source lines 179-403) *)
Definition India_populate (yr : Z) : St unit :=
  (* Republic Day, Independence Day, Gandhi Jayanti *)
  setitem_ymd yr 1 26 "Republic Day" ;;
  setitem_ymd yr 8 15 "Independence Day" ;;
  setitem_ymd yr 10 2 "Gandhi Jayanti" ;;
  (* Diwali, Holi *)
  India_Diwali_Holi yr ;;
  (* Day of Ashura: 10th day of 1st Islamic month *)
  (let name := "Day of Ashura" in
   for_ (range (-1) 2) (fun offset =>
     g <- lift (from_gregorian (yr + offset) 10 1) ;;
     let islam_year := g.1.1 in
     t <- lift (to_gregorian islam_year 1 10) ;;
     let '(y, m, d) := t in
     if y =? yr then setitem_ymd y m d name else pass)) ;;
  (* Mawlid: 12th day of 3rd Islamic month *)
  (let name := "Mawlid" in
   for_ (range (-1) 2) (fun offset =>
     g <- lift (from_gregorian (yr + offset) 11 20) ;;
     let islam_year := g.1.1 in
     t <- lift (to_gregorian islam_year 3 12) ;;
     let '(y, m, d) := t in
     if y =? yr then setitem_ymd y m d name else pass)) ;;
  (* Eid ul-Fitr: 1st and 2nd day of 10th Islamic month *)
  (let name := "Eid al-Fitr" in
   for_ (range (-1) 2) (fun offset =>
     g <- lift (from_gregorian (yr + offset) 6 15) ;;
     let islam_year := g.1.1 in
     t1 <- lift (to_gregorian islam_year 10 1) ;;
     let '(y1, m1, d1) := t1 in
     t2 <- lift (to_gregorian islam_year 10 2) ;;
     let '(y2, m2, d2) := t2 in
     (if y1 =? yr then setitem_ymd y1 m1 d1 name else pass) ;;
     (if y2 =? yr then setitem_ymd y2 m2 d2 name else pass))) ;;
  (* Eid al-Adha, i.e., Feast of the Sacrifice *)
  (let name := "Feast of the Sacrifice" in
   for_ (range (-1) 2) (fun offset =>
     g <- lift (from_gregorian (yr + offset) 8 22) ;;
     let islam_year := g.1.1 in
     t <- lift (to_gregorian islam_year 12 10) ;;
     let '(y, m, d) := t in
     if y =? yr then setitem_ymd y m d name else pass)) ;;
  (* New Year's Day *)
  setitem_ymd yr 1 1 "New Year's Day" ;;
  (* Palm Sunday *)
  (let name := "Palm Sunday" in
   for_ (range (-1) 2) (fun offset =>
     e <- lift (easter (yr + offset) EASTER_WESTERN) ;;
     ds <- lift (date_add_days e (-7)) ;;
     if year ds =? yr then setitem ds name else pass)) ;;
  (* Maundy Thursday *)
  (let name := "Maundy Thursday" in
   for_ (range (-1) 2) (fun offset =>
     e <- lift (easter (yr + offset) EASTER_WESTERN) ;;
     ds <- lift (date_add_days e (-3)) ;;
     if year ds =? yr then setitem ds name else pass)) ;;
  (* Good Friday *)
  (let name := "Good Friday" in
   for_ (range (-1) 2) (fun offset =>
     e <- lift (easter (yr + offset) EASTER_WESTERN) ;;
     ds <- lift (date_add_days e (-2)) ;;
     if year ds =? yr then setitem ds name else pass)) ;;
  (* Easter Sunday *)
  (let name := "Easter Sunday" in
   for_ (range (-1) 2) (fun offset =>
     ds <- lift (easter (yr + offset) EASTER_WESTERN) ;;
     if year ds =? yr then setitem ds name else pass)) ;;
  (* Feast of Pentecost *)
  (let name := "Feast of Pentecost" in
   for_ (range (-1) 2) (fun offset =>
     e <- lift (easter (yr + offset) EASTER_WESTERN) ;;
     ds <- lift (date_add_days e 49) ;;
     if year ds =? yr then setitem ds name else pass)) ;;
  setitem_ymd yr 9 5 "Fest of St. Theresa of Calcutta" ;;
  setitem_ymd yr 9 8 "Feast of the Blessed Virgin" ;;
  setitem_ymd yr 11 1 "All Saints Day" ;;
  setitem_ymd yr 11 2 "All Souls Day" ;;
  setitem_ymd yr 12 25 "Christmas Day" ;;
  setitem_ymd yr 12 26 "Boxing Day" ;;
  setitem_ymd yr 12 30 "Feast of Holy Family".

(** *** Kyrgyzstan (source lines 423-482) *)
Definition Kyrgyzstan_populate (yr : Z) : St unit :=
  setitem_ymd yr 1 1 "New Year's Day" ;;
  setitem_ymd yr 1 7 "Orthodox Christmas Day" ;;
  setitem_ymd yr 2 23 "Fatherland Defender's Day" ;;
  setitem_ymd yr 3 8 "International Women's Day" ;;
  setitem_ymd yr 3 21 "Nooruz Mairamy" ;;
  setitem_ymd yr 4 7 "Day of the People's April Revolution" ;;
  setitem_ymd yr 5 1 "Spring and Labour Day" ;;
  setitem_ymd yr 5 1 "Spring and Labour Day" ;;
  setitem_ymd yr 5 5 "Constitution Day" ;;
  setitem_ymd yr 5 9 "Victory Day" ;;
  setitem_ymd yr 6 1 "Russia Day" ;;
  setitem_ymd yr 8 31 "Independence Day" ;;
  setitem_ymd yr 11 7 "Day 1 of History and Commemoration of Ancestors" ;;
  setitem_ymd yr 11 8 "Day 2 of History and Commemoration of Ancestors" ;;
  setitem_ymd yr 12 31 "New Year's Eve".

(** *** Thailand (source lines 501-667) *)
Definition Thailand_populate (yr : Z) : St unit :=
  setitem_ymd yr 1 1 "New Year's Day" ;;
  (* Magha Pujab *)
  Thailand_Magha_Pujab yr ;;
  (* Chakri Memorial Day *)
  (let name := "Chakri Memorial Day" in
   d <- lift (date_new yr 4 6) ;;
   let april_6 := weekday d in
   if april_6 =? 5 then setitem_ymd yr 4 (6 + 2) name
   else if april_6 =? 6 then setitem_ymd yr 4 (6 + 1) name
   else setitem_ymd yr 4 6 name) ;;
  setitem_ymd yr 4 14 "Songkran Festival" ;;
  (* Buddha's Birthday *)
  (let name := "Buddha's Birthday" in
   for_ (range (-1) 2) (fun offset =>
     ds <- lift (Lunar2Solar (yr + offset) 4 15) ;;
     if year ds =? yr then setitem ds name else pass)) ;;
  (* Coronation Day, removed in 2017 *)
  (if yr <? 2017 then setitem_ymd yr 5 5 "Coronation Day" else pass) ;;
  setitem_ymd yr 7 28 "King Maha Vajiralongkorn's Birthday" ;;
  (* Asalha Puja *)
  Thailand_Asalha_Puja yr ;;
  (* Beginning of Vassa *)
  Thailand_Vassa yr ;;
  setitem_ymd yr 8 12 "The Queen Sirikit's Birthday" ;;
  setitem_ymd yr 10 13 "Anniversary for the Death of King Bhumibol Adulyadej" ;;
  setitem_ymd yr 10 23 "King Chulalongkorn Day" ;;
  setitem_ymd yr 12 5 "King Bhumibol Adulyadej's Birthday Anniversary" ;;
  setitem_ymd yr 12 10 "Constitution Day" ;;
  setitem_ymd yr 12 31 "New Year's Eve".

(** *** Philippines (source lines 687-749) *)
Definition Philippines_populate (yr : Z) : St unit :=
  setitem_ymd yr 1 1 "New Year's Day" ;;
  (* Maundy Thursday *)
  (let name := "Maundy Thursday" in
   for_ (range (-1) 2) (fun offset =>
     e <- lift (easter (yr + offset) EASTER_WESTERN) ;;
     ds <- lift (date_add_days e (-3)) ;;
     if year ds =? yr then setitem ds name else pass)) ;;
  (* Good Friday *)
  (let name := "Good Friday" in
   for_ (range (-1) 2) (fun offset =>
     e <- lift (easter (yr + offset) EASTER_WESTERN) ;;
     ds <- lift (date_add_days e (-2)) ;;
     if year ds =? yr then setitem ds name else pass)) ;;
  setitem_ymd yr 4 9 "Day of Valor" ;;
  setitem_ymd yr 5 1 "Labor Day" ;;
  setitem_ymd yr 6 12 "Independence Day" ;;
  (* Eid al-Fitr *)
  (let name := "Eid al-Fitr" in
   for_ (range (-1) 2) (fun offset =>
     g <- lift (from_gregorian (yr + offset) 6 15) ;;
     let islam_year := g.1.1 in
     t <- lift (to_gregorian islam_year 10 1) ;;
     let '(y, m, d) := t in
     d0 <- lift (date_new y m d) ;;
     ds <- lift (date_add_days d0 (-1)) ;;
     if year ds =? yr then setitem ds name else pass)) ;;
  (* Eid al-Adha, i.e., Feast of the Sacrifice *)
  (let name := "Feast of the Sacrifice" in
   for_ (range (-1) 2) (fun offset =>
     g <- lift (from_gregorian (yr + offset) 8 22) ;;
     let islam_year := g.1.1 in
     t <- lift (to_gregorian islam_year 12 10) ;;
     let '(y, m, d) := t in
     if y =? yr then setitem_ymd y m d name else pass)) ;;
  setitem_ymd yr 8 27 "National Heroes' Day" ;;
  setitem_ymd yr 11 30 "Bonifacio Day" ;;
  setitem_ymd yr 12 25 "Christmas Day" ;;
  setitem_ymd yr 12 30 "Rizal Day".

(** *** Pakistan (source lines 778-868) *)
Definition Pakistan_populate (yr : Z) : St unit :=
  setitem_ymd yr 2 5 "Kashmir Solidarity Day" ;;
  setitem_ymd yr 3 23 "Pakistan Day" ;;
  setitem_ymd yr 5 1 "Labor Day" ;;
  setitem_ymd yr 8 14 "Independence Day" ;;
  setitem_ymd yr 11 9 "Iqbal Day" ;;
  setitem_ymd yr 12 25 "Christmas Day" ;;
  (* Eid al-Adha, i.e., Feast of the Sacrifice *)
  (let name := "Feast of the Sacrifice" in
   for_ (range (-1) 2) (fun offset =>
     g <- lift (from_gregorian (yr + offset) 8 22) ;;
     let islam_year := g.1.1 in
     t1 <- lift (to_gregorian islam_year 12 10) ;;
     let '(y1, m1, d1) := t1 in
     t2 <- lift (to_gregorian islam_year 12 11) ;;
     let '(y2, m2, d2) := t2 in
     t3 <- lift (to_gregorian islam_year 12 12) ;;
     let '(y3, m3, d3) := t3 in
     (if y1 =? yr then setitem_ymd y1 m1 d1 name else pass) ;;
     (if y2 =? yr then setitem_ymd y2 m2 d2 name else pass) ;;
     (if y3 =? yr then setitem_ymd y3 m3 d3 name else pass))) ;;
  (* Eid al-Fitr *)
  (let name := "Eid al-Fitr" in
   for_ (range (-1) 2) (fun offset =>
     g <- lift (from_gregorian (yr + offset) 6 15) ;;
     let islam_year := g.1.1 in
     t1 <- lift (to_gregorian islam_year 10 1) ;;
     let '(y1, m1, d1) := t1 in
     t2 <- lift (to_gregorian islam_year 10 2) ;;
     let '(y2, m2, d2) := t2 in
     t3 <- lift (to_gregorian islam_year 10 3) ;;
     let '(y3, m3, d3) := t3 in
     (if y1 =? yr then setitem_ymd y1 m1 d1 name else pass) ;;
     (if y2 =? yr then setitem_ymd y2 m2 d2 name else pass) ;;
     (if y3 =? yr then setitem_ymd y3 m3 d3 name else pass))) ;;
  (* Mawlid: 12th day of 3rd Islamic month *)
  (let name := "Mawlid" in
   for_ (range (-1) 2) (fun offset =>
     g <- lift (from_gregorian (yr + offset) 11 20) ;;
     let islam_year := g.1.1 in
     t <- lift (to_gregorian islam_year 3 12) ;;
     let '(y, m, d) := t in
     if y =? yr then setitem_ymd y m d name else pass)) ;;
  (* Day of Ashura: 10th and 11th days of 1st Islamic month *)
  (let name := "Day of Ashura" in
   for_ (range (-1) 2) (fun offset =>
     g <- lift (from_gregorian (yr + offset) 10 1) ;;
     let islam_year := g.1.1 in
     t1 <- lift (to_gregorian islam_year 1 10) ;;
     let '(y1, m1, d1) := t1 in
     t2 <- lift (to_gregorian islam_year 1 11) ;;
     let '(y2, m2, d2) := t2 in
     (if y1 =? yr then setitem_ymd y1 m1 d1 name else pass) ;;
     (if y2 =? yr then setitem_ymd y2 m2 d2 name else pass))) ;;
  (* Shab e Mairaj *)
  (let name := "Shab e Mairaj" in
   for_ (range (-1) 2) (fun offset =>
     g <- lift (from_gregorian (yr + offset) 4 13) ;;
     let islam_year := g.1.1 in
     t <- lift (to_gregorian islam_year 7 27) ;;
     let '(y, m, d) := t in
     if y =? yr then setitem_ymd y m d name else pass)) ;;
  setitem_ymd yr 9 6 "Defence Day" ;;
  setitem_ymd yr 9 11 "Death Anniversary of Quaid-e-Azam".

(** *** Russia (source lines 890-929) *)
Definition Russia_populate (yr : Z) : St unit :=
  setitem_ymd yr 1 1 "New Year's Day" ;;
  setitem_ymd yr 1 7 "Orthodox Christmas Day" ;;
  setitem_ymd yr 12 25 "Christmas Day" ;;
  setitem_ymd yr 2 23 "Defender of the Fatherland Day" ;;
  setitem_ymd yr 3 8 "International Women's Day" ;;
  setitem_ymd yr 8 22 "National Flag Day" ;;
  setitem_ymd yr 5 1 "Spring and Labour Day" ;;
  setitem_ymd yr 5 9 "Victory Day" ;;
  setitem_ymd yr 6 12 "Russia Day" ;;
  setitem_ymd yr 11 4 "Unity Day".

(** [self[easter(year, EASTER_ORTHODOX) + timedelta(days=n)] = name] *)
Definition setitem_orthodox (yr n : Z) (name : string) : St unit :=
  e <- lift (easter yr EASTER_ORTHODOX) ;;
  key <- lift (date_add_days e n) ;;
  setitem key name.

(** *** Belarus (source lines 953-988) *)
Definition Belarus_populate (yr : Z) : St unit :=
  setitem_ymd yr 1 1 "New Year's Day" ;;
  setitem_ymd yr 1 7 "Orthodox Christmas Day" ;;
  setitem_ymd yr 3 8 "International Women's Day" ;;
  (* Commemoration Day *)
  setitem_orthodox yr 9 "Commemoration Day" ;;
  setitem_ymd yr 5 1 "Spring and Labour Day" ;;
  setitem_ymd yr 5 9 "Victory Day" ;;
  setitem_ymd yr 7 3 "Independence Day" ;;
  setitem_ymd yr 11 7 "October Revolution Day" ;;
  setitem_ymd yr 12 25 "Christmas Day".

(** *** Georgia (source lines 1007-1074) *)
Definition Georgia_populate (yr : Z) : St unit :=
  setitem_ymd yr 1 1 "New Year's Day" ;;
  setitem_ymd yr 1 2 "Second day of the New Year" ;;
  setitem_ymd yr 1 7 "Orthodox Christmas" ;;
  setitem_ymd yr 1 19 "Baptism Day of our Lord Jesus Christ" ;;
  setitem_ymd yr 3 3 "Mother's Day" ;;
  setitem_ymd yr 3 8 "International Women's Day" ;;
  (* Orthodox Good Friday, Holy Saturday, Easter Sunday, Easter Monday *)
  setitem_orthodox yr (-2) "Good Friday" ;;
  setitem_orthodox yr (-1) "Great Saturday" ;;
  (key <- lift (easter yr EASTER_ORTHODOX) ;; setitem key "Easter Sunday") ;;
  setitem_orthodox yr 1 "Easter Monday" ;;
  setitem_ymd yr 4 9 "National Unity Day" ;;
  setitem_ymd yr 5 9 "Victory Day" ;;
  setitem_ymd yr 5 12 "Saint Andrew the First-Called Day" ;;
  setitem_ymd yr 5 26 "Independence Day" ;;
  setitem_ymd yr 8 28 "Saint Mary's Day" ;;
  setitem_ymd yr 10 14 "Day of Svetitskhoveli Cathedral" ;;
  setitem_ymd yr 12 23 "Saint George's Day".

(** *** Dispatch on the class *)
Definition populate (c : country) : Z -> St unit :=
  match c with
  | Indonesia => Indonesia_populate
  | India => India_populate
  | Kyrgyzstan => Kyrgyzstan_populate
  | Thailand => Thailand_populate
  | Philippines => Philippines_populate
  | Pakistan => Pakistan_populate
  | Russia => Russia_populate
  | Belarus => Belarus_populate
  | Georgia => Georgia_populate
  end.

End Countries.

End Stateful.

(** The instance a call leaves, the messages it warned with, and how it
    ended. *)
Definition instance_after {A} (r : HolidayBase * list string * result A) : HolidayBase :=
  r.1.1.
Definition warned {A} (r : HolidayBase * list string * result A) : list string :=
  r.1.2.
Definition ended {A} (r : HolidayBase * list string * result A) : result A :=
  r.2.

(** ** Reference routines

    Executable stand-ins for the imported routines, used to run the methods
    on concrete years.  No general theorem below depends on them: those
    quantify over arbitrary routines.
    - [easter] follows the arithmetic of [dateutil.easter];
    - the Hijri converters follow the tabular (arithmetical) Islamic
      calendar, 1 Muharram 1 AH being Gregorian ordinal 227015; they
      convert the dates of [datetime.date] only (years 1 to 9999) and raise
      elsewhere, where [convertdate] goes on;
    - the lunar converter is a finite excerpt (years 2016 to 2022 and 2059
      to 2061) of the two lunar dates the module asks for, and raises
      elsewhere. *)

Module Reference.

Definition easter (y : Z) (method : easter_method) : result date :=
  let g := y mod 19 in
  let '(i, j, e) :=
    match method with
    | EASTER_WESTERN =>
        let c := y / 100 in
        let h := (c - c / 4 - (8 * c + 13) / 25 + 19 * g + 15) mod 30 in
        let i := h - (h / 28) * (1 - (h / 28) * (29 / (h + 1)) * ((21 - g) / 11)) in
        let j := (y + y / 4 + i + 2 - c + c / 4) mod 7 in
        (i, j, 0)
    | EASTER_ORTHODOX =>
        let i := (19 * g + 15) mod 30 in
        let j := (y + y / 4 + i) mod 7 in
        let e := if 1600 <? y then 10 + y / 100 - 16 - (y / 100 - 16) / 4 else 10 in
        (i, j, e)
    | EASTER_JULIAN =>
        let i := (19 * g + 15) mod 30 in
        let j := (y + y / 4 + i) mod 7 in
        (i, j, 0)
    end in
  let p := i - j + e in
  let d := 1 + (p + 27 + (p + 6) / 40) mod 31 in
  let m := 3 + (p + 26) / 30 in
  date_new y m d.

Definition HIJRI_EPOCH : Z := 227014.

(** Gregorian ordinal of a Hijri date. *)
Definition hijri2ord (y m d : Z) : Z :=
  d + (59 * (m - 1) + 1) / 2 + (y - 1) * 354 + (3 + 11 * y) / 30 + HIJRI_EPOCH.

Definition to_gregorian (y m d : Z) : result (Z * Z * Z) :=
  let n := hijri2ord y m d in
  if (0 <? n) && (n <=? MAXORDINAL) then Ok (ord2ymd n) else Raise ValueError.

Definition from_gregorian (y m d : Z) : result (Z * Z * Z) :=
  match date_new y m d with
  | Raise e => Raise e
  | Ok dt =>
      let n := toordinal dt in
      let hy := (30 * (n - HIJRI_EPOCH - 1) + 10646) / 10631 in
      let hm := Z.min 12 ((2 * (n - 29 - hijri2ord hy 1 1) + 58) / 59 + 1) in
      let hd := n - hijri2ord hy hm 1 + 1 in
      Ok (hy, hm, hd)
  end.

Definition Lunar2Solar (y m d : Z) : result date :=
  match y, m, d with
  | 2016, 1, 1 => date_new 2016 2 8
  | 2017, 1, 1 => date_new 2017 1 28
  | 2018, 1, 1 => date_new 2018 2 16
  | 2019, 1, 1 => date_new 2019 2 5
  | 2020, 1, 1 => date_new 2020 1 25
  | 2021, 1, 1 => date_new 2021 2 12
  | 2022, 1, 1 => date_new 2022 2 1
  | 2059, 1, 1 => date_new 2059 2 12
  | 2060, 1, 1 => date_new 2060 2 2
  | 2061, 1, 1 => date_new 2061 1 21
  | 2016, 4, 15 => date_new 2016 5 21
  | 2017, 4, 15 => date_new 2017 5 10
  | 2018, 4, 15 => date_new 2018 5 29
  | 2019, 4, 15 => date_new 2019 5 19
  | 2020, 4, 15 => date_new 2020 5 7
  | 2021, 4, 15 => date_new 2021 5 26
  | 2022, 4, 15 => date_new 2022 5 15
  | 2059, 4, 15 => date_new 2059 5 26
  | 2060, 4, 15 => date_new 2060 5 14
  | 2061, 4, 15 => date_new 2061 6 2
  | _, _, _ => Raise DateNotExist
  end.

Definition populate : country -> bool -> Z -> M unit :=
  populate easter from_gregorian to_gregorian Lunar2Solar.

End Reference.

(** ** Vocabulary of the properties *)

(** Every event of a computation satisfies [P]. *)
Definition all_events {A} (P : event -> Prop) (c : M A) : Prop :=
  Forall P (events c).

(** The event assigns a date of year [yr] (warnings are not assignments). *)
Definition in_year (yr : Z) (e : event) : Prop :=
  match e with
  | SetItem key _ => year key = yr
  | Warn _ => True
  end.

(** If the event assigns under [name], the date satisfies [Q]. *)
Definition named (name : string) (Q : date -> Prop) (e : event) : Prop :=
  match e with
  | SetItem key n => n = name -> Q key
  | Warn _ => True
  end.

Definition not_warn (e : event) : Prop :=
  match e with
  | SetItem _ _ => True
  | Warn _ => False
  end.

(** The holidays resolved through the lunar or the Hijri calendar, by class
    and name. *)
Definition foreign_calendar_holidays : list (country * string) :=
  [ (Indonesia, "Chinese New Year"); (Indonesia, "Ascension of the Prophet");
    (Indonesia, "Buddha's Birthday"); (Indonesia, "Eid al-Fitr");
    (Indonesia, "Feast of the Sacrifice"); (Indonesia, "Islamic New Year");
    (Indonesia, "Birth of the Prophet");
    (India, "Day of Ashura"); (India, "Mawlid"); (India, "Eid al-Fitr");
    (India, "Feast of the Sacrifice");
    (Thailand, "Buddha's Birthday");
    (Philippines, "Eid al-Fitr"); (Philippines, "Feast of the Sacrifice");
    (Pakistan, "Feast of the Sacrifice"); (Pakistan, "Eid al-Fitr");
    (Pakistan, "Mawlid"); (Pakistan, "Day of Ashura");
    (Pakistan, "Shab e Mairaj") ].

(** The holidays at a signed number of days from Western Easter. *)
Definition western_easter_holidays : list (country * string * Z) :=
  [ (India, "Palm Sunday", -7); (India, "Maundy Thursday", -3);
    (India, "Good Friday", -2); (India, "Easter Sunday", 0);
    (India, "Feast of Pentecost", 49);
    (Indonesia, "Ascension of Jesus", 39);
    (Philippines, "Maundy Thursday", -3); (Philippines, "Good Friday", -2) ].

(** The date [o] days from the anchor [e], as the loops compute it: the
    anchor itself for "Easter Sunday", a date addition otherwise. *)
Definition offset_date (e : date) (o : Z) : result date :=
  if o =? 0 then Ok e else date_add_days e o.

(** A date assigned in year [yr] for a holiday at [o] days from Western
    Easter: it lies in [yr], it is Easter of a neighbouring year moved by
    [o] days, and moving it back by [o] days gives that Easter date. *)
Definition easter_anchored (easter : Z -> easter_method -> result date)
    (yr o : Z) (key : date) : Prop :=
  year key = yr /\
  exists k e,
    In k [-1; 0; 1] /\
    easter (yr + k) EASTER_WESTERN = Ok e /\
    offset_date e o = Ok key /\
    (valid_date e = true -> offset_date key (- o) = Ok e).

(** The holidays that span several consecutive Hijri days and whose loop
    assigns each day from its own conversion: class, name, the Gregorian
    month and day used to find the Hijri year, the Hijri month and first
    day, and the number of days.  (Indonesia's "Eid al-Fitr" loop is the
    remaining two-day holiday; it is treated apart.) *)
Definition multi_day_holidays : list (country * string * (Z * Z) * (Z * Z) * Z) :=
  [ (India, "Eid al-Fitr", (6, 15), (10, 1), 2);
    (Pakistan, "Feast of the Sacrifice", (8, 22), (12, 10), 3);
    (Pakistan, "Eid al-Fitr", (6, 15), (10, 1), 3);
    (Pakistan, "Day of Ashura", (10, 1), (1, 10), 2) ].

(** [key] is the conversion of Hijri month [hm], day [hd], of the Hijri
    year found from year [yr - 1], [yr] or [yr + 1] at the anchor date. *)
Definition hijri_day (from_gregorian to_gregorian : Z -> Z -> Z -> result (Z * Z * Z))
    (yr : Z) (anchor : Z * Z) (hm hd : Z) (key : date) : Prop :=
  exists k g,
    In k [-1; 0; 1] /\
    from_gregorian (yr + k) (fst anchor) (snd anchor) = Ok g /\
    to_gregorian g.1.1 hm hd = Ok (year key, month key, day key).

(** [key] lies in [yr] and is the conversion of one of the [n] consecutive
    Hijri days starting at day [hd] of month [hm]. *)
Definition consecutive_hijri_day
    (from_gregorian to_gregorian : Z -> Z -> Z -> result (Z * Z * Z))
    (yr : Z) (anchor : Z * Z) (hm hd n : Z) (key : date) : Prop :=
  year key = yr /\
  exists i, 0 <= i < n /\
            hijri_day from_gregorian to_gregorian yr anchor hm (hd + i) key.

(** What Indonesia's "Eid al-Fitr" loop assigns in year [yr]: for a Hijri
    year found at June 15 of [yr - 1], [yr] or [yr + 1], with 1 Shawwal
    converted to [(y1, m1, d1)] and 2 Shawwal to [(y2, m2, d2)], and one of
    the two in [yr], the date of year [yr] with the month and day of
    2 Shawwal. *)
Definition Indonesia_Eid_entry
    (from_gregorian to_gregorian : Z -> Z -> Z -> result (Z * Z * Z))
    (yr : Z) (key : date) : Prop :=
  exists k g y1 m1 d1 y2 m2 d2,
    In k [-1; 0; 1] /\
    from_gregorian (yr + k) 6 15 = Ok g /\
    to_gregorian g.1.1 10 1 = Ok (y1, m1, d1) /\
    to_gregorian g.1.1 10 2 = Ok (y2, m2, d2) /\
    (y1 = yr \/ y2 = yr) /\
    key = mkDate yr m2 d2.

(** The messages a class warns with, in the order of its method. *)
Definition country_warnings (c : country) : list string :=
  match c with
  | Indonesia => ["We only support Nyepi holiday from 2009 to 2019"]
  | India => ["We only support Diwali and Holi holidays from 2010 to 2030"]
  | Thailand => ["We only support Asalha Puja holiday from 2006 to 2025";
                 "We only support Vassa holiday from 2006 to 2020"]
  | _ => []
  end.

(** The tables as data: for each hard-coded holiday, the year-to-date
    mapping and the range of years the source announces (in its warning
    message, or its comment for Magha Pujab).  [resolve_table] is the table
    lookup; the blocks above are compared with it. *)
Record HardcodedYearTable : Set := mkTable {
  holiday : string;
  mapping : list (Z * (Z * Z));
  supportedRange : Z * Z
}.

Definition in_range (T : HardcodedYearTable) (yr : Z) : bool :=
  (fst (supportedRange T) <=? yr) && (yr <=? snd (supportedRange T)).

Fixpoint assoc (yr : Z) (l : list (Z * (Z * Z))) : option (Z * Z) :=
  match l with
  | [] => None
  | (y, md) :: l' => if yr =? y then Some md else assoc yr l'
  end.

Definition resolve_table (T : HardcodedYearTable) (yr : Z) : option date :=
  if in_range T yr then
    match assoc yr (mapping T) with
    | Some (m, d) => Some (mkDate yr m d)
    | None => None
    end
  else None.

Definition Nyepi_table : HardcodedYearTable :=
  mkTable "Day of Silence/ Nyepi"
    [ (2009, (3, 26)); (2010, (3, 16)); (2011, (3, 5)); (2012, (3, 23));
      (2013, (3, 12)); (2014, (3, 31)); (2015, (3, 21)); (2016, (3, 9));
      (2017, (3, 28)); (2018, (3, 17)); (2019, (3, 7)) ]
    (2009, 2019).

Definition Diwali_table : HardcodedYearTable :=
  mkTable "Diwali"
    [ (2010, (12, 5)); (2011, (10, 26)); (2012, (11, 13)); (2013, (11, 3));
      (2014, (10, 23)); (2015, (11, 11)); (2016, (10, 30)); (2017, (10, 19));
      (2018, (11, 7)); (2019, (10, 27)); (2020, (11, 14)); (2021, (11, 4));
      (2022, (10, 24)); (2023, (10, 12)); (2024, (11, 1)); (2025, (10, 21));
      (2026, (11, 8)); (2027, (10, 29)); (2028, (10, 17)); (2029, (11, 5));
      (2030, (10, 26)) ]
    (2010, 2030).

Definition Holi_table : HardcodedYearTable :=
  mkTable "Holi"
    [ (2010, (2, 28)); (2011, (3, 19)); (2012, (3, 8)); (2013, (3, 26));
      (2014, (3, 17)); (2015, (3, 6)); (2016, (3, 24)); (2017, (3, 13));
      (2018, (3, 2)); (2019, (3, 21)); (2020, (3, 9)); (2021, (3, 28));
      (2022, (3, 18)); (2023, (3, 7)); (2024, (3, 25)); (2025, (3, 14));
      (2026, (3, 3)); (2027, (3, 22)); (2028, (3, 11)); (2029, (2, 28));
      (2030, (3, 19)) ]
    (2010, 2030).

Definition Magha_Pujab_table : HardcodedYearTable :=
  mkTable "Magha Pujab/Makha Bucha"
    [ (2016, (2, 22)); (2017, (2, 11)); (2018, (3, 1)); (2019, (2, 19)) ]
    (2016, 2019).

Definition Asalha_Puja_table : HardcodedYearTable :=
  mkTable "Asalha Puja"
    [ (2006, (7, 11)); (2007, (6, 30)); (2008, (7, 18)); (2009, (7, 7));
      (2010, (7, 25)); (2011, (7, 15)); (2012, (8, 2)); (2013, (7, 30));
      (2014, (7, 13)); (2015, (7, 30)); (2016, (7, 15)); (2017, (7, 9));
      (2018, (7, 29)); (2019, (7, 16)); (2020, (7, 5)); (2021, (7, 24));
      (2022, (7, 13)); (2023, (7, 3)); (2024, (7, 21)); (2025, (7, 10)) ]
    (2006, 2025).

Definition Vassa_table : HardcodedYearTable :=
  mkTable "Beginning of Vassa"
    [ (2006, (7, 12)); (2007, (7, 31)); (2008, (7, 19)); (2009, (7, 8));
      (2010, (7, 27)); (2011, (7, 16)); (2012, (8, 3)); (2013, (7, 23));
      (2014, (7, 13)); (2015, (8, 1)); (2016, (7, 20)); (2017, (7, 9));
      (2018, (7, 28)); (2019, (7, 17)); (2020, (7, 6)) ]
    (2006, 2020).

(** Class, block of its method, and table, for every hard-coded holiday. *)
Definition hardcoded_tables : list (country * (Z -> M unit) * HardcodedYearTable) :=
  [ (Indonesia, Indonesia_Nyepi, Nyepi_table);
    (India, India_Diwali_Holi, Diwali_table);
    (India, India_Diwali_Holi, Holi_table);
    (Thailand, Thailand_Magha_Pujab, Magha_Pujab_table);
    (Thailand, Thailand_Asalha_Puja, Asalha_Puja_table);
    (Thailand, Thailand_Vassa, Vassa_table) ].

(** A block agrees with a table at year [yr]: it returns normally, it
    assigns under the holiday's name what the table resolves to, and the
    table resolves to nothing exactly outside the announced range. *)
Definition block_is_table (B : Z -> M unit) (T : HardcodedYearTable) (yr : Z) : Prop :=
  outcome (B yr) = Ok tt /\
  dates_named (holiday T) (events (B yr)) =
    match resolve_table T yr with Some d => [d] | None => [] end /\
  (resolve_table T yr = None <-> in_range T yr = false).

(** ** Vocabulary of the further properties *)

(** The classes that only have fixed dates, with month, day and name in
    the order of the method. *)
Definition fixed_dates (c : country) : list (Z * Z * string) :=
  match c with
  | Kyrgyzstan =>
      [ (1, 1, "New Year's Day"); (1, 7, "Orthodox Christmas Day");
        (2, 23, "Fatherland Defender's Day");
        (3, 8, "International Women's Day"); (3, 21, "Nooruz Mairamy");
        (4, 7, "Day of the People's April Revolution");
        (5, 1, "Spring and Labour Day"); (5, 1, "Spring and Labour Day");
        (5, 5, "Constitution Day"); (5, 9, "Victory Day");
        (6, 1, "Russia Day"); (8, 31, "Independence Day");
        (11, 7, "Day 1 of History and Commemoration of Ancestors");
        (11, 8, "Day 2 of History and Commemoration of Ancestors");
        (12, 31, "New Year's Eve") ]
  | Russia =>
      [ (1, 1, "New Year's Day"); (1, 7, "Orthodox Christmas Day");
        (12, 25, "Christmas Day"); (2, 23, "Defender of the Fatherland Day");
        (3, 8, "International Women's Day"); (8, 22, "National Flag Day");
        (5, 1, "Spring and Labour Day"); (5, 9, "Victory Day");
        (6, 12, "Russia Day"); (11, 4, "Unity Day") ]
  | _ => []
  end.

Definition assign_fixed (yr : Z) (f : Z * Z * string) : event :=
  SetItem (mkDate yr f.1.1 f.1.2) f.2.

(** The fixed dates Belarus assigns after "Commemoration Day". *)
Definition Belarus_later_dates : list (Z * Z * string) :=
  [ (5, 1, "Spring and Labour Day"); (5, 9, "Victory Day");
    (7, 3, "Independence Day"); (11, 7, "October Revolution Day");
    (12, 25, "Christmas Day") ].

(** The holidays of one Hijri day whose loop assigns the converted triple:
    class, name, the Gregorian month and day used to find the Hijri year,
    what is added to that year, and the Hijri month and day. *)
Definition single_day_holidays : list (country * string * (Z * Z) * Z * (Z * Z)) :=
  [ (Indonesia, "Ascension of the Prophet", (3, 17), 0, (7, 27));
    (Indonesia, "Feast of the Sacrifice", (8, 22), 0, (12, 10));
    (Indonesia, "Islamic New Year", (9, 11), 1, (1, 1));
    (Indonesia, "Birth of the Prophet", (11, 20), 1, (3, 12));
    (India, "Day of Ashura", (10, 1), 0, (1, 10));
    (India, "Mawlid", (11, 20), 0, (3, 12));
    (India, "Feast of the Sacrifice", (8, 22), 0, (12, 10));
    (Philippines, "Feast of the Sacrifice", (8, 22), 0, (12, 10));
    (Pakistan, "Mawlid", (11, 20), 0, (3, 12));
    (Pakistan, "Shab e Mairaj", (4, 13), 0, (7, 27)) ].

(** The holidays resolved through the lunar calendar: class, name, lunar
    month and day. *)
Definition lunar_holidays : list (country * string * (Z * Z)) :=
  [ (Indonesia, "Chinese New Year", (1, 1));
    (Indonesia, "Buddha's Birthday", (4, 15));
    (Thailand, "Buddha's Birthday", (4, 15)) ].

(** The shapes of the resolution loops.  Each loop of the methods is one
    of these at its own routine, dates and name. *)
Definition direct_loop (f : Z -> result date) (name : string) (yr : Z) : M unit :=
  for_ (range (-1) 2) (fun offset =>
    ds <- lift (f (yr + offset)) ;;
    if year ds =? yr then setitem ds name else pass).

Definition shifted_loop (f : Z -> result date) (o : Z) (name : string) (yr : Z)
  : M unit :=
  for_ (range (-1) 2) (fun offset =>
    e <- lift (f (yr + offset)) ;;
    ds <- lift (date_add_days e o) ;;
    if year ds =? yr then setitem ds name else pass).

Definition hijri_loop (fg tg : Z -> Z -> Z -> result (Z * Z * Z))
    (anchor : Z * Z) (hy : Z -> Z) (hd : Z * Z) (name : string) (yr : Z) : M unit :=
  for_ (range (-1) 2) (fun offset =>
    g <- lift (fg (yr + offset) (fst anchor) (snd anchor)) ;;
    t <- lift (tg (hy g.1.1) (fst hd) (snd hd)) ;;
    let '(y, m, d) := t in
    if y =? yr then setitem_ymd y m d name else pass).

Definition two_day_loop (fg tg : Z -> Z -> Z -> result (Z * Z * Z))
    (anchor : Z * Z) (hm hd1 hd2 : Z) (name : string) (yr : Z) : M unit :=
  for_ (range (-1) 2) (fun offset =>
    g <- lift (fg (yr + offset) (fst anchor) (snd anchor)) ;;
    let islam_year := g.1.1 in
    t1 <- lift (tg islam_year hm hd1) ;;
    let '(y1, m1, d1) := t1 in
    t2 <- lift (tg islam_year hm hd2) ;;
    let '(y2, m2, d2) := t2 in
    (if y1 =? yr then setitem_ymd y1 m1 d1 name else pass) ;;
    (if y2 =? yr then setitem_ymd y2 m2 d2 name else pass)).

Definition three_day_loop (fg tg : Z -> Z -> Z -> result (Z * Z * Z))
    (anchor : Z * Z) (hm hd1 hd2 hd3 : Z) (name : string) (yr : Z) : M unit :=
  for_ (range (-1) 2) (fun offset =>
    g <- lift (fg (yr + offset) (fst anchor) (snd anchor)) ;;
    let islam_year := g.1.1 in
    t1 <- lift (tg islam_year hm hd1) ;;
    let '(y1, m1, d1) := t1 in
    t2 <- lift (tg islam_year hm hd2) ;;
    let '(y2, m2, d2) := t2 in
    t3 <- lift (tg islam_year hm hd3) ;;
    let '(y3, m3, d3) := t3 in
    (if y1 =? yr then setitem_ymd y1 m1 d1 name else pass) ;;
    (if y2 =? yr then setitem_ymd y2 m2 d2 name else pass) ;;
    (if y3 =? yr then setitem_ymd y3 m3 d3 name else pass)).

(** What a returning loop has done with a converted day [(y, m, d)]: if it
    lies in [yr], it is a date and it has been assigned under [name]. *)
Definition day_assigned (yr y m d : Z) (name : string) (t : list event) : Prop :=
  y = yr -> valid_ymd y m d = true /\ In (SetItem (mkDate y m d) name) t.

(** [c] is a statement of [p]: when [p] returns, [c] has returned and its
    events are events of [p]. *)
Definition part_of {A B} (c : M A) (p : M B) : Prop :=
  forall b, outcome p = Ok b ->
            (exists a, outcome c = Ok a) /\
            forall e, In e (events c) -> In e (events p).

(** [key] lies in [yr] and is the day before the conversion of 1 Shawwal of
    the Hijri year found at June 15 of [yr - 1], [yr] or [yr + 1]. *)
Definition day_before_Shawwal
    (from_gregorian to_gregorian : Z -> Z -> Z -> result (Z * Z * Z))
    (yr : Z) (key : date) : Prop :=
  year key = yr /\
  exists k g y m d,
    In k [-1; 0; 1] /\
    from_gregorian (yr + k) 6 15 = Ok g /\
    to_gregorian g.1.1 10 1 = Ok (y, m, d) /\
    valid_ymd y m d = true /\
    toordinal key = ymd2ord y m d - 1 /\
    date_add_days key 1 = Ok (mkDate y m d).

(** [key] is a date of [yr] and the conversion of the Hijri day [hd] of the
    year [delta] after the one found at the anchor. *)
Definition hijri_single
    (from_gregorian to_gregorian : Z -> Z -> Z -> result (Z * Z * Z))
    (yr : Z) (anchor : Z * Z) (delta : Z) (hd : Z * Z) (key : date) : Prop :=
  year key = yr /\ valid_date key = true /\
  exists k g,
    In k [-1; 0; 1] /\
    from_gregorian (yr + k) (fst anchor) (snd anchor) = Ok g /\
    to_gregorian (g.1.1 + delta) (fst hd) (snd hd)
    = Ok (year key, month key, day key).

(** [key] lies in [yr] and is the conversion of the lunar day [ld] of year
    [yr - 1], [yr] or [yr + 1]. *)
Definition lunar_day (Lunar2Solar : Z -> Z -> Z -> result date)
    (yr : Z) (ld : Z * Z) (key : date) : Prop :=
  year key = yr /\
  exists k, In k [-1; 0; 1] /\ Lunar2Solar (yr + k) (fst ld) (snd ld) = Ok key.

(** ** Vocabulary of repeated calls and of calls that return *)

(** On an instance whose flag is [obs], the state transformer [s] does what
    replaying the events of [c] does: the assignments of [c] are made on
    the dictionary in order, the warnings of [c] are given, and the call
    ends as [c] does. *)
Definition replays {A} (obs : bool) (s : Stateful.St A) (c : M A) : Prop :=
  forall self : HolidayBase,
    observed self = obs ->
    s self = (mkHolidayBase obs (apply_events (items self) (events c)),
              warnings_of (events c), outcome c).

(** The holidays at a signed number of days from Orthodox Easter of the
    year itself. *)
Definition orthodox_easter_holidays : list (country * string * Z) :=
  [ (Belarus, "Commemoration Day", 9);
    (Georgia, "Good Friday", -2); (Georgia, "Great Saturday", -1);
    (Georgia, "Easter Sunday", 0); (Georgia, "Easter Monday", 1) ].

(** The calendar conversions a call of class [c] makes for year [yr] all
    succeed.  For each of the three years searched: the Easter routine and
    the date addition of every Western Easter holiday; the lunar converter
    of every lunar holiday; both Hijri conversions of every Hijri holiday,
    with a converted day that is a date when it lies in [yr]; the two
    conversions of Indonesia's "Eid al-Fitr", whose key [date(y1, m2, d2)]
    or [date(y2, m2, d2)] is in both cases built from [yr] and the month
    and day of 2 Shawwal; the conversion of 1 Shawwal, a date with a day
    before it, for "Eid al-Fitr" in the Philippines.  And for the year
    itself the Orthodox Easter routine and the date addition of every
    Orthodox Easter holiday. *)
Definition conversions_return
    (easter : Z -> easter_method -> result date)
    (from_gregorian to_gregorian : Z -> Z -> Z -> result (Z * Z * Z))
    (Lunar2Solar : Z -> Z -> Z -> result date)
    (c : country) (yr : Z) : Prop :=
  (forall k, In k [-1; 0; 1] ->
    (forall name o, In (c, name, o) western_easter_holidays ->
       exists e ds,
         easter (yr + k) EASTER_WESTERN = Ok e /\ offset_date e o = Ok ds) /\
    (forall name ld, In (c, name, ld) lunar_holidays ->
       exists ds, Lunar2Solar (yr + k) (fst ld) (snd ld) = Ok ds) /\
    (forall name anchor delta hd,
       In (c, name, anchor, delta, hd) single_day_holidays ->
       exists g y m d,
         from_gregorian (yr + k) (fst anchor) (snd anchor) = Ok g /\
         to_gregorian (g.1.1 + delta) (fst hd) (snd hd) = Ok (y, m, d) /\
         (y = yr -> valid_ymd y m d = true)) /\
    (forall name anchor hm hd n i,
       In (c, name, anchor, (hm, hd), n) multi_day_holidays -> 0 <= i < n ->
       exists g y m d,
         from_gregorian (yr + k) (fst anchor) (snd anchor) = Ok g /\
         to_gregorian g.1.1 hm (hd + i) = Ok (y, m, d) /\
         (y = yr -> valid_ymd y m d = true)) /\
    (c = Indonesia ->
       exists g y1 m1 d1 y2 m2 d2,
         from_gregorian (yr + k) 6 15 = Ok g /\
         to_gregorian g.1.1 10 1 = Ok (y1, m1, d1) /\
         to_gregorian g.1.1 10 2 = Ok (y2, m2, d2) /\
         (y1 = yr \/ y2 = yr -> valid_ymd yr m2 d2 = true)) /\
    (c = Philippines ->
       exists g y m d ds,
         from_gregorian (yr + k) 6 15 = Ok g /\
         to_gregorian g.1.1 10 1 = Ok (y, m, d) /\
         valid_ymd y m d = true /\
         date_add_days (mkDate y m d) (-1) = Ok ds)) /\
  (forall name n, In (c, name, n) orthodox_easter_holidays ->
     exists e key,
       easter yr EASTER_ORTHODOX = Ok e /\ offset_date e n = Ok key).

(** The holiday of the last statement of a method: month, day and name. *)
Definition last_holiday (c : country) : Z * Z * string :=
  match c with
  | Indonesia => (12, 25, "Christmas")
  | India => (12, 30, "Feast of Holy Family")
  | Kyrgyzstan => (12, 31, "New Year's Eve")
  | Thailand => (12, 31, "New Year's Eve")
  | Philippines => (12, 30, "Rizal Day")
  | Pakistan => (9, 11, "Death Anniversary of Quaid-e-Azam")
  | Russia => (11, 4, "Unity Day")
  | Belarus => (12, 25, "Christmas Day")
  | Georgia => (12, 23, "Saint George's Day")
  end.

(** * Properties *)

(** ** Dates and ordinals

    [ord2ymd] inverts [ymd2ord]: the two directions of the round trip
    between a date and its day number. *)

Ltac calm :=
  cbn [DAYS_BEFORE_MONTH DAYS_IN_MONTH Z.ltb Z.eqb Z.leb Z.compare Pos.compare
       Pos.compare_cont Pos.eqb andb orb negb].

Ltac pred_closed :=
  repeat match goal with
         | |- context [Z.sub (Zpos ?p) 1] =>
             let v := eval compute in (Z.sub (Zpos p) 1) in
             change (Z.sub (Zpos p) 1) with v
         end.

Ltac split_months Hm m :=
  repeat (destruct Hm as [->|Hm]); try subst m.

Lemma year_decomp a b c e :
  0 <= b <= 3 -> 0 <= c <= 24 -> 0 <= e <= 3 ->
  let y := 400 * a + 100 * b + 4 * c + e + 1 in
  days_before_year y = 146097 * a + 36524 * b + 1461 * c + 365 * e /\
  is_leap y = ((e =? 3) && (negb (c =? 24) || (b =? 3))).
Proof.
  intros Hb Hc He y. subst y. split.
  - unfold days_before_year. cbv zeta.
    replace (400 * a + 100 * b + 4 * c + e + 1 - 1)
      with (400 * a + 100 * b + 4 * c + e) by lia.
    Z.div_mod_to_equations. lia.
  - unfold is_leap.
    repeat match goal with
           | |- context [?x =? ?y] => destruct (Z.eqb_spec x y)
           end;
      simpl; try reflexivity; exfalso; Z.div_mod_to_equations; lia.
Qed.

Lemma month_cases m :
  1 <= m <= 12 ->
  m = 1 \/ m = 2 \/ m = 3 \/ m = 4 \/ m = 5 \/ m = 6 \/ m = 7 \/ m = 8
  \/ m = 9 \/ m = 10 \/ m = 11 \/ m = 12.
Proof. lia. Qed.

Lemma ord2ymd_correct n :
  let '(y, m, d) := ord2ymd n in
  ymd2ord y m d = n /\ 1 <= m <= 12 /\ 1 <= d <= days_in_month y m /\
  (1 <= n -> 1 <= y) /\ (n <= MAXORDINAL -> y <= MAXYEAR).
Proof.
  unfold ord2ymd, DI400Y, DI100Y, DI4Y, MAXORDINAL, MAXYEAR. cbv zeta.
  set (n0 := n - 1).
  pose proof (Z.div_mod n0 146097 ltac:(lia)) as E1.
  pose proof (Z.mod_pos_bound n0 146097 ltac:(lia)) as B1.
  set (a := n0 / 146097) in *. set (r := n0 mod 146097) in *.
  pose proof (Z.div_mod r 36524 ltac:(lia)) as E2.
  pose proof (Z.mod_pos_bound r 36524 ltac:(lia)) as B2.
  set (b := r / 36524) in *. set (r1 := r mod 36524) in *.
  pose proof (Z.div_mod r1 1461 ltac:(lia)) as E3.
  pose proof (Z.mod_pos_bound r1 1461 ltac:(lia)) as B3.
  set (c := r1 / 1461) in *. set (r2 := r1 mod 1461) in *.
  pose proof (Z.div_mod r2 365 ltac:(lia)) as E4.
  pose proof (Z.mod_pos_bound r2 365 ltac:(lia)) as B4.
  set (e := r2 / 365) in *. set (f := r2 mod 365) in *.
  assert (En : n = n0 + 1) by (subst n0; lia).
  clearbody n0 a r b r1 c r2 e f.
  assert (Hb : 0 <= b <= 4) by lia.
  assert (Hc : 0 <= c <= 24) by lia.
  assert (He : 0 <= e <= 4) by lia.
  destruct (Z.eqb_spec e 4) as [He4|He4];
    [|destruct (Z.eqb_spec b 4) as [Hb4|Hb4]]; simpl orb; cbv iota.
  - (* last day of a leap year within a century *)
    assert (b <= 3) by lia. assert (c <= 23) by lia.
    destruct (year_decomp a b c 3 ltac:(lia) ltac:(lia) ltac:(lia)) as [Hd Hl].
    cbv zeta in Hd, Hl.
    replace (a * 400 + 1 + b * 100 + c * 4 + e - 1)
      with (400 * a + 100 * b + 4 * c + 3 + 1) by lia.
    unfold ymd2ord, days_before_month, days_in_month. rewrite Hd, Hl.
    replace (c =? 24) with false by (symmetry; apply Z.eqb_neq; lia).
    calm. lia.
  - (* last day of a 400-year cycle *)
    destruct (year_decomp a 3 24 3 ltac:(lia) ltac:(lia) ltac:(lia)) as [Hd Hl].
    cbv zeta in Hd, Hl.
    replace (a * 400 + 1 + b * 100 + c * 4 + e - 1)
      with (400 * a + 100 * 3 + 4 * 24 + 3 + 1) by lia.
    unfold ymd2ord, days_before_month, days_in_month. rewrite Hd, Hl.
    calm. lia.
  - destruct (year_decomp a b c e ltac:(lia) ltac:(lia) ltac:(lia)) as [Hd Hl].
    cbv zeta in Hd, Hl.
    replace (a * 400 + 1 + b * 100 + c * 4 + e)
      with (400 * a + 100 * b + 4 * c + e + 1) by lia.
    set (y := 400 * a + 100 * b + 4 * c + e + 1) in *.
    set (L := (e =? 3) && (negb (c =? 24) || (b =? 3))) in *.
    rewrite Z.shiftr_div_pow2 by lia. change (2 ^ 5) with 32.
    pose proof (Z.div_mod (f + 50) 32 ltac:(lia)) as E5.
    pose proof (Z.mod_pos_bound (f + 50) 32 ltac:(lia)) as B5.
    set (m := (f + 50) / 32) in *.
    assert (Hy : (1 <= n -> 1 <= y) /\ (n <= 3652059 -> y <= 9999))
      by (subst y; lia).
    assert (Hm : 1 <= m <= 12) by lia.
    apply month_cases in Hm.
    clearbody L y m.
    split_months Hm m; destruct L; pred_closed; calm;
      match goal with
      | |- context [?x <? ?y] => destruct (Z.ltb_spec x y)
      end;
      unfold ymd2ord, days_before_month, days_in_month; rewrite Hl; calm; lia.
Qed.

Lemma days_before_year_succ y :
  days_before_year (y + 1) = days_before_year y + 365 + (if is_leap y then 1 else 0).
Proof.
  unfold days_before_year, is_leap. cbv zeta.
  replace (y + 1 - 1) with y by lia.
  repeat match goal with
         | |- context [?x =? ?z] => destruct (Z.eqb_spec x z)
         end;
    simpl; Z.div_mod_to_equations; lia.
Qed.

Lemma days_before_year_mono y y' :
  y <= y' -> days_before_year y <= days_before_year y'.
Proof.
  unfold days_before_year. cbv zeta. intros H.
  Z.div_mod_to_equations. lia.
Qed.

Lemma day_of_year_bounds y m d :
  1 <= m <= 12 -> 1 <= d <= days_in_month y m ->
  1 <= days_before_month y m + d <= 365 + (if is_leap y then 1 else 0).
Proof.
  intros Hm Hd. apply month_cases in Hm.
  unfold days_before_month, days_in_month in *.
  split_months Hm m; destruct (is_leap y); calm; revert Hd; calm; lia.
Qed.

Lemma day_of_year_inj y m d m' d' :
  1 <= m <= 12 -> 1 <= d <= days_in_month y m ->
  1 <= m' <= 12 -> 1 <= d' <= days_in_month y m' ->
  days_before_month y m + d = days_before_month y m' + d' ->
  m = m' /\ d = d'.
Proof.
  intros Hm Hd Hm' Hd'. apply month_cases in Hm. apply month_cases in Hm'.
  unfold days_before_month, days_in_month in *.
  split_months Hm m; split_months Hm' m'; destruct (is_leap y);
    revert Hd Hd'; calm; lia.
Qed.

Lemma ymd2ord_year_lt y m d y' m' d' :
  1 <= m <= 12 -> 1 <= d <= days_in_month y m ->
  1 <= m' <= 12 -> 1 <= d' <= days_in_month y' m' ->
  y < y' -> ymd2ord y m d < ymd2ord y' m' d'.
Proof.
  intros Hm Hd Hm' Hd' Hlt. unfold ymd2ord.
  pose proof (day_of_year_bounds y m d Hm Hd).
  pose proof (day_of_year_bounds y' m' d' Hm' Hd').
  pose proof (days_before_year_succ y).
  pose proof (days_before_year_mono (y + 1) y' ltac:(lia)).
  lia.
Qed.

Lemma ymd2ord_inj y m d y' m' d' :
  1 <= m <= 12 -> 1 <= d <= days_in_month y m ->
  1 <= m' <= 12 -> 1 <= d' <= days_in_month y' m' ->
  ymd2ord y m d = ymd2ord y' m' d' ->
  y = y' /\ m = m' /\ d = d'.
Proof.
  intros Hm Hd Hm' Hd' E.
  assert (y = y') as <-.
  { destruct (Z.lt_trichotomy y y') as [Hlt|[Heq|Hgt]]; [|exact Heq|].
    - pose proof (ymd2ord_year_lt y m d y' m' d' Hm Hd Hm' Hd' Hlt). lia.
    - pose proof (ymd2ord_year_lt y' m' d' y m d Hm' Hd' Hm Hd ltac:(lia)). lia. }
  split; [reflexivity|].
  apply (day_of_year_inj y); auto. unfold ymd2ord in E. lia.
Qed.

Lemma valid_ymd_spec y m d :
  valid_ymd y m d = true <->
  MINYEAR <= y <= MAXYEAR /\ 1 <= m <= 12 /\ 1 <= d <= days_in_month y m.
Proof.
  unfold valid_ymd. rewrite !andb_true_iff, !Z.leb_le. tauto.
Qed.

(** A month and a day up to the 28th exist in every year. *)
Lemma valid_ymd_fixed y m d :
  MINYEAR <= y <= MAXYEAR -> 1 <= m <= 12 -> 1 <= d <= 28 ->
  valid_ymd y m d = true.
Proof.
  intros Hy Hm Hd. apply valid_ymd_spec. repeat split; try lia.
  apply month_cases in Hm. unfold days_in_month.
  split_months Hm m; destruct (is_leap y); calm; lia.
Qed.

Lemma toordinal_fromordinal n : toordinal (fromordinal n) = n.
Proof.
  unfold toordinal, fromordinal.
  pose proof (ord2ymd_correct n) as H.
  destruct (ord2ymd n) as [[y m] d]. simpl. tauto.
Qed.

Lemma fromordinal_valid n :
  1 <= n <= MAXORDINAL -> valid_date (fromordinal n) = true.
Proof.
  intros Hn. unfold valid_date, fromordinal.
  pose proof (ord2ymd_correct n) as H.
  destruct (ord2ymd n) as [[y m] d]. simpl.
  apply valid_ymd_spec. unfold MINYEAR. intuition lia.
Qed.

Lemma fromordinal_toordinal dt :
  valid_date dt = true -> fromordinal (toordinal dt) = dt.
Proof.
  destruct dt as [y m d]. unfold valid_date, toordinal, fromordinal. simpl.
  intros Hv. apply valid_ymd_spec in Hv as (Hy & Hm & Hd).
  pose proof (ord2ymd_correct (ymd2ord y m d)) as H.
  destruct (ord2ymd (ymd2ord y m d)) as [[y' m'] d'].
  destruct H as (E & Hm' & Hd' & _).
  apply ymd2ord_inj in E as (-> & -> & ->); auto.
Qed.

Lemma toordinal_bounds dt :
  valid_date dt = true -> 1 <= toordinal dt <= MAXORDINAL.
Proof.
  destruct dt as [y m d]. unfold valid_date, toordinal, ymd2ord. simpl.
  intros Hv. apply valid_ymd_spec in Hv as (Hy & Hm & Hd).
  pose proof (day_of_year_bounds y m d Hm Hd).
  pose proof (days_before_year_succ y).
  unfold MINYEAR, MAXYEAR in Hy.
  pose proof (days_before_year_mono 1 y ltac:(lia)).
  pose proof (days_before_year_mono (y + 1) 10000 ltac:(lia)).
  change (days_before_year 1) with 0 in *.
  change (days_before_year 10000) with 3652059 in *.
  unfold MAXORDINAL. lia.
Qed.

(** Adding [n] days and then [-n] days gives the date back. *)
Lemma date_add_days_inverse dt n dt' :
  valid_date dt = true ->
  date_add_days dt n = Ok dt' ->
  date_add_days dt' (- n) = Ok dt /\ toordinal dt' = toordinal dt + n.
Proof.
  intros Hv. unfold date_add_days. cbv zeta.
  destruct ((0 <? toordinal dt + n) && (toordinal dt + n <=? MAXORDINAL)) eqn:E;
    intros H; inversion H; subst dt'; clear H.
  rewrite toordinal_fromordinal.
  replace (toordinal dt + n + - n) with (toordinal dt) by lia.
  pose proof (toordinal_bounds dt Hv) as Hb.
  replace ((0 <? toordinal dt) && (toordinal dt <=? MAXORDINAL)) with true.
  - rewrite fromordinal_toordinal by exact Hv. auto.
  - symmetry. apply andb_true_iff. rewrite Z.ltb_lt, Z.leb_le. lia.
Qed.

Lemma date_add_days_valid dt n dt' :
  date_add_days dt n = Ok dt' -> valid_date dt' = true.
Proof.
  unfold date_add_days. cbv zeta.
  destruct ((0 <? toordinal dt + n) && (toordinal dt + n <=? MAXORDINAL)) eqn:E;
    intros H; inversion H; subst dt'; clear H.
  apply andb_true_iff in E as [E1 E2]. apply Z.ltb_lt in E1. apply Z.leb_le in E2.
  apply fromordinal_valid. lia.
Qed.

(** ** Laws of the effect type *)

Lemma events_bind {A B} (c : M A) (f : A -> M B) :
  events (bind c f) =
  events c ++ match outcome c with Ok a => events (f a) | Raise _ => [] end.
Proof.
  destruct c as [t [a|e]]; simpl.
  - destruct (f a); reflexivity.
  - symmetry; apply app_nil_r.
Qed.

Lemma outcome_bind {A B} (c : M A) (f : A -> M B) :
  outcome (bind c f) =
  match outcome c with Ok a => outcome (f a) | Raise e => Raise e end.
Proof.
  destruct c as [t [a|e]]; simpl; [destruct (f a)|]; reflexivity.
Qed.

(** A sequence that returns has run both of its parts to their end. *)
Lemma bind_returns {A B} (c : M A) (f : A -> M B) (b : B) :
  outcome (bind c f) = Ok b ->
  exists a, outcome c = Ok a /\ outcome (f a) = Ok b /\
            events (bind c f) = events c ++ events (f a).
Proof.
  rewrite events_bind, outcome_bind.
  destruct (outcome c) as [a|e]; [|discriminate].
  intros H. exists a. auto.
Qed.

Lemma date_new_ok y m d key :
  date_new y m d = Ok key -> key = mkDate y m d /\ valid_ymd y m d = true.
Proof.
  unfold date_new. destruct (valid_ymd y m d); intros H; inversion H; auto.
Qed.

Lemma date_new_valid y m d :
  valid_ymd y m d = true -> date_new y m d = Ok (mkDate y m d).
Proof. unfold date_new. intros ->. reflexivity. Qed.

Lemma setitem_ymd_valid y m d name :
  valid_ymd y m d = true ->
  setitem_ymd y m d name = ([SetItem (mkDate y m d) name], Ok tt).
Proof. intros H. unfold setitem_ymd. rewrite date_new_valid by exact H. reflexivity. Qed.

Lemma bind_lift_ok {A B} (a : A) (f : A -> M B) : bind (lift (Ok a)) f = f a.
Proof. unfold bind, lift. destruct (f a); reflexivity. Qed.

Lemma bind_ret {A B} (a : A) (f : A -> M B) : bind (ret a) f = f a.
Proof. unfold bind, ret. destruct (f a); reflexivity. Qed.

Lemma bind_single {B} e (f : unit -> M B) :
  bind ([e], Ok tt) f = (e :: events (f tt), outcome (f tt)).
Proof. unfold bind. destruct (f tt); reflexivity. Qed.

Lemma in_WEEKEND w : in_ w WEEKEND = ((w =? 5) || (w =? 6)).
Proof. unfold in_, WEEKEND. cbn [existsb]. rewrite orb_false_r. reflexivity. Qed.

(** ** A property of every event of a computation *)

Section AllEvents.
Context (P : event -> Prop).

Lemma all_ret {A} (a : A) : all_events P (ret a).
Proof. constructor. Qed.

Lemma all_lift {A} (r : result A) : all_events P (lift r).
Proof. constructor. Qed.

Lemma all_setitem key name : P (SetItem key name) -> all_events P (setitem key name).
Proof. intros H. repeat constructor. exact H. Qed.

Lemma all_warn msg : P (Warn msg) -> all_events P (warn msg).
Proof. intros H. repeat constructor. exact H. Qed.

Lemma all_bind {A B} (c : M A) (f : A -> M B) :
  all_events P c ->
  (forall a, outcome c = Ok a -> all_events P (f a)) ->
  all_events P (bind c f).
Proof.
  unfold all_events. intros Hc Hf. rewrite events_bind.
  apply Forall_app. split; [exact Hc|].
  destruct (outcome c) as [a|e]; [apply Hf; reflexivity | constructor].
Qed.

Lemma all_for {A} (l : list A) (body : A -> M unit) :
  (forall x, In x l -> all_events P (body x)) ->
  all_events P (for_ l body).
Proof.
  induction l as [|x l IH]; intros H; simpl.
  - apply all_ret.
  - apply all_bind.
    + apply H. left; reflexivity.
    + intros _ _. apply IH. intros z Hz. apply H. right; exact Hz.
Qed.

Lemma all_setitem_ymd y m d name :
  (valid_ymd y m d = true -> P (SetItem (mkDate y m d) name)) ->
  all_events P (setitem_ymd y m d name).
Proof.
  intros H. unfold setitem_ymd. apply all_bind; [apply all_lift|].
  intros key Hk. apply date_new_ok in Hk as [-> Hv].
  apply all_setitem. auto.
Qed.

Lemma all_events_In {A} (c : M A) e :
  all_events P c -> In e (events c) -> P e.
Proof.
  unfold all_events. rewrite Forall_forall. intros H Hin.
  apply H. apply list_elem_of_In. exact Hin.
Qed.
End AllEvents.

(** One step of a walk through a method body: the goal [all_events P c]
    is reduced to the events [c] can perform, with the guards that lead to
    them as hypotheses. *)
Ltac all_step :=
  lazymatch goal with
  | |- all_events _ (bind _ _) => apply all_bind; [ | intros ? ? ]
  | |- all_events _ (for_ _ _) => apply all_for; intros ? ?
  | |- all_events _ (lift _) => apply all_lift
  | |- all_events _ (ret _) => apply all_ret
  | |- all_events _ pass => apply all_ret
  | |- all_events _ (setitem_ymd _ _ _ _) => apply all_setitem_ymd; intros ?
  | |- all_events _ (setitem _ _) => apply all_setitem
  | |- all_events _ (warn _) => apply all_warn
  | |- all_events _ (if ?b then _ else _) => destruct b eqn:?
  | |- all_events _ (match ?t with (_, _) => _ end) => destruct t
  | |- all_events _ (let _ := _ in _) => cbv zeta
  end.

Ltac all_walk := repeat all_step.

Ltac unfold_blocks :=
  unfold Indonesia_Nyepi, India_Diwali_Holi, Thailand_Magha_Pujab,
    Thailand_Asalha_Puja, Thailand_Vassa.

(** ** Events under a name, and warnings *)

Lemma dates_named_app name t1 t2 :
  dates_named name (t1 ++ t2) = dates_named name t1 ++ dates_named name t2.
Proof. unfold dates_named. apply flat_map_app. Qed.

Lemma warnings_of_app t1 t2 :
  warnings_of (t1 ++ t2) = warnings_of t1 ++ warnings_of t2.
Proof. unfold warnings_of. apply flat_map_app. Qed.

Lemma dates_named_In name t key :
  In key (dates_named name t) <-> In (SetItem key name) t.
Proof.
  unfold dates_named. rewrite in_flat_map. split.
  - intros (e & He & Hk). destruct e as [k n|msg]; [|destruct Hk].
    destruct (String.eqb_spec n name) as [->|]; [|destruct Hk].
    destruct Hk as [->|[]]. exact He.
  - intros H. exists (SetItem key name). split; [exact H|].
    rewrite String.eqb_refl. left; reflexivity.
Qed.

Lemma dates_named_none {A} name (c : M A) :
  all_events (named name (fun _ => False)) c ->
  dates_named name (events c) = [].
Proof.
  unfold all_events. induction (events c) as [|e t IH]; intros H; [reflexivity|].
  apply Forall_cons in H as [He Ht]. simpl. rewrite IH by exact Ht.
  destruct e as [k n|msg]; [|reflexivity]. simpl in He.
  destruct (String.eqb_spec n name) as [E|]; [destruct (He E)|reflexivity].
Qed.

Lemma dates_named_bind {A B} name (c : M A) (f : A -> M B) :
  dates_named name (events (bind c f)) =
  dates_named name (events c) ++
  match outcome c with Ok a => dates_named name (events (f a)) | Raise _ => [] end.
Proof.
  rewrite events_bind, dates_named_app. destruct (outcome c); reflexivity.
Qed.

Ltac other_name_leaf :=
  lazymatch goal with
  | |- named _ _ (Warn _) => exact I
  | |- named _ _ (SetItem _ _) => simpl; intros Hname; discriminate Hname
  end.

Lemma warnings_of_none {A} (c : M A) :
  all_events not_warn c -> warnings_of (events c) = [].
Proof.
  unfold all_events. induction (events c) as [|e t IH]; intros H; [reflexivity|].
  apply Forall_cons in H as [He Ht]. simpl. rewrite IH by exact Ht.
  destruct e as [k n|msg]; [reflexivity|destruct He].
Qed.

Lemma in_events_bind_l {A B} (c : M A) (f : A -> M B) e :
  In e (events c) -> In e (events (bind c f)).
Proof. intros H. rewrite events_bind. apply in_or_app. left. exact H. Qed.

Lemma in_events_bind_r {A B} (c : M A) (f : A -> M B) a e :
  outcome c = Ok a -> In e (events (f a)) -> In e (events (bind c f)).
Proof.
  intros Ha H. rewrite events_bind, Ha. apply in_or_app. right. exact H.
Qed.

(** With [H : outcome (c ;; rest) = Ok _] and a goal about an event of
    [c ;; rest], move both to [rest]. *)
Ltac peel H :=
  lazymatch type of H with
  | outcome (bind ?c _) = Ok _ =>
      let a := fresh "a" in
      let Ha := fresh "Ha" in
      apply bind_returns in H as (a & Ha & H & _);
      apply (in_events_bind_r _ _ _ _ Ha); cbv beta in H |- *
  end.

(** With [H : outcome c = Ok _], compute the warnings of [c] statement by
    statement; [blocks] rewrites those of the table blocks. *)
Ltac warnings_walk H blocks :=
  repeat lazymatch type of H with
         | outcome (bind ?c _) = Ok _ =>
             let a := fresh "a" in
             let Ha := fresh "Ha" in
             let E := fresh "E" in
             apply bind_returns in H as (a & Ha & H & E);
             rewrite E, warnings_of_app; clear E Ha;
             first [ blocks
                   | rewrite (warnings_of_none c) by (all_walk; exact I) ];
             cbv beta in H |- *
         end;
  lazymatch type of H with
  | outcome ?c = Ok _ =>
      first [ blocks | rewrite (warnings_of_none c) by (all_walk; exact I) ]
  end.

(** ** Replaying events on the dictionary *)

Lemma apply_events_union (m : gmap date string) t :
  apply_events m t = apply_events ∅ t ∪ m.
Proof.
  unfold apply_events. revert m.
  induction t as [|e t IH]; intros m; simpl.
  - symmetry. apply (left_id_L ∅ (∪)).
  - rewrite (IH (apply_event m e)), (IH (apply_event ∅ e)).
    rewrite <- (assoc_L (∪)). f_equal.
    destruct e as [key name|msg]; simpl.
    + rewrite insert_union_singleton_l, (insert_union_singleton_l ∅).
      rewrite (right_id_L ∅ (∪)). reflexivity.
    + symmetry. apply (left_id_L ∅ (∪)).
Qed.

Lemma apply_events_twice (m : gmap date string) t :
  apply_events (apply_events m t) t = apply_events m t.
Proof.
  rewrite (apply_events_union (apply_events m t)), (apply_events_union m).
  rewrite (assoc_L (∪)), (idemp_L (∪)). reflexivity.
Qed.

Lemma apply_events_app (m : gmap date string) t1 t2 :
  apply_events m (t1 ++ t2) = apply_events (apply_events m t1) t2.
Proof. unfold apply_events. apply fold_left_app. Qed.

(** The last assignment to a date decides its name. *)
Lemma apply_events_lookup (m : gmap date string) t key name :
  In (SetItem key name) t ->
  (forall n, In (SetItem key n) t -> n = name) ->
  apply_events m t !! key = Some name.
Proof.
  revert m. induction t as [|e t IH] using rev_ind; intros m Hin Hall.
  - destruct Hin.
  - rewrite apply_events_app. simpl.
    destruct e as [k n|msg]; simpl.
    + destruct (decide (k = key)) as [->|Hne].
      * rewrite lookup_insert_eq. f_equal. apply Hall.
        apply in_or_app. right. left. reflexivity.
      * rewrite lookup_insert_ne by exact Hne.
        apply IH.
        -- apply in_app_or in Hin as [Hin|[Hin|[]]]; [exact Hin|].
           inversion Hin; congruence.
        -- intros n' Hn'. apply Hall. apply in_or_app. left. exact Hn'.
    + apply IH.
      * apply in_app_or in Hin as [Hin|[Hin|[]]]; [exact Hin|discriminate].
      * intros n' Hn'. apply Hall. apply in_or_app. left. exact Hn'.
Qed.

(** A date that no event assigns keeps its entry. *)
Lemma apply_events_frame (m : gmap date string) t key :
  (forall k n, In (SetItem k n) t -> k <> key) ->
  apply_events m t !! key = m !! key.
Proof.
  revert m. induction t as [|e t IH]; intros m H; [reflexivity|].
  change (apply_events m (e :: t)) with (apply_events (apply_event m e) t).
  rewrite IH by (intros k n Hk; apply (H k n); right; exact Hk).
  destruct e as [k n|msg]; [|reflexivity].
  simpl. apply lookup_insert_ne. apply (H k n). left. reflexivity.
Qed.

(** A date that is assigned maps to the name of one of its assignments
    (the last one), whatever the dictionary held. *)
Lemma apply_events_last t key :
  (exists n, In (SetItem key n) t) ->
  exists n, In (SetItem key n) t /\
            forall m : gmap date string, apply_events m t !! key = Some n.
Proof.
  induction t as [|e t IH] using rev_ind; intros [n Hn]; [destruct Hn|].
  destruct e as [k n'|msg].
  - destruct (decide (k = key)) as [->|Hne].
    + exists n'. split; [apply in_or_app; right; left; reflexivity|].
      intros m. rewrite apply_events_app. simpl. apply lookup_insert_eq.
    + apply in_app_or in Hn as [Hn|[Hn|[]]]; [|inversion Hn; congruence].
      destruct (IH (ex_intro _ n Hn)) as (n0 & Hin & Hl).
      exists n0. split; [apply in_or_app; left; exact Hin|].
      intros m. rewrite apply_events_app. simpl.
      rewrite lookup_insert_ne by exact Hne. apply Hl.
  - apply in_app_or in Hn as [Hn|[Hn|[]]]; [|discriminate Hn].
    destruct (IH (ex_intro _ n Hn)) as (n0 & Hin & Hl).
    exists n0. split; [apply in_or_app; left; exact Hin|].
    intros m. rewrite apply_events_app. simpl. apply Hl.
Qed.

(** ** The hard-coded tables

    Each block is its table: it returns normally for every year, assigns
    the tabulated date for a year of the table and nothing otherwise, and
    the table has an entry exactly for the years of the announced range. *)

Ltac chain_cases yr :=
  repeat match goal with
         | |- context [yr =? ?k] => destruct (Z.eqb_spec yr k) as [->|?]
         end.

Ltac expose_table :=
  cbv [resolve_table assoc mapping holiday in_range supportedRange fst snd
       Nyepi_table Diwali_table Holi_table Magha_Pujab_table
       Asalha_Puja_table Vassa_table].

Ltac block_is_table_tac yr :=
  unfold block_is_table; unfold_blocks; expose_table; cbv zeta;
  chain_cases yr;
  [ repeat split; try reflexivity; intros; discriminate .. | ];
  repeat split; try reflexivity;
  [ destruct ((_ <=? yr) && (yr <=? _)); reflexivity
  | intros _; apply andb_false_iff; rewrite !Z.leb_gt; lia
  | intros _; destruct ((_ <=? yr) && (yr <=? _)); reflexivity ].

Lemma Nyepi_is_table yr : block_is_table Indonesia_Nyepi Nyepi_table yr.
Proof. block_is_table_tac yr. Qed.

Lemma Diwali_is_table yr : block_is_table India_Diwali_Holi Diwali_table yr.
Proof. block_is_table_tac yr. Qed.

Lemma Holi_is_table yr : block_is_table India_Diwali_Holi Holi_table yr.
Proof. block_is_table_tac yr. Qed.

Lemma Magha_Pujab_is_table yr : block_is_table Thailand_Magha_Pujab Magha_Pujab_table yr.
Proof. block_is_table_tac yr. Qed.

Lemma Asalha_Puja_is_table yr : block_is_table Thailand_Asalha_Puja Asalha_Puja_table yr.
Proof. block_is_table_tac yr. Qed.

Lemma Vassa_is_table yr : block_is_table Thailand_Vassa Vassa_table yr.
Proof. block_is_table_tac yr. Qed.

Lemma hardcoded_block_is_table c B T yr :
  In (c, B, T) hardcoded_tables -> block_is_table B T yr.
Proof.
  simpl. intros H.
  repeat (destruct H as [H|H]; [inversion H; subst c B T; clear H|]);
    [ apply Nyepi_is_table | apply Diwali_is_table | apply Holi_is_table
    | apply Magha_Pujab_is_table | apply Asalha_Puja_is_table
    | apply Vassa_is_table | destruct H ].
Qed.

(** * Properties of the methods *)

Section Methods.

Variable easter : Z -> easter_method -> result date.
Variable from_gregorian : Z -> Z -> Z -> result (Z * Z * Z).
Variable to_gregorian : Z -> Z -> Z -> result (Z * Z * Z).
Variable Lunar2Solar : Z -> Z -> Z -> result date.

Abbreviation Populate := (populate easter from_gregorian to_gregorian Lunar2Solar).

(** ** Dates stay in the requested year *)

Ltac in_year_leaf :=
  simpl; first [ exact I | reflexivity | apply Z.eqb_eq; assumption ].

(** Every assignment of a method whose movable holidays are all guarded by
    the year test is at a date of the requested year.  Belarus and Georgia
    assign Orthodox Easter dates without the test. *)
Lemma populate_in_year c obs yr :
  c <> Belarus -> c <> Georgia -> all_events (in_year yr) (Populate c obs yr).
Proof.
  intros Hb Hg.
  destruct c; try contradiction; unfold populate;
    [ unfold Indonesia_populate | unfold India_populate
    | unfold Kyrgyzstan_populate | unfold Thailand_populate
    | unfold Philippines_populate | unfold Pakistan_populate
    | unfold Russia_populate ];
    unfold_blocks; all_walk; in_year_leaf.
Qed.

(** C2. For every year [yr] and every holiday resolved through the lunar
    or the Hijri calendar, every date the method assigns under that
    holiday's name has year [yr]; and the call leaves the entry of every
    date of another year as it was: the resolution loops never add a date
    outside [yr] to the mapping. *)
Theorem foreign_calendar_dates_in_year c name obs yr :
  In (c, name) foreign_calendar_holidays ->
  (forall key,
      In (SetItem key name) (events (Populate c obs yr)) -> year key = yr) /\
  (forall (m : gmap date string) key,
      year key <> yr ->
      apply_events m (events (Populate c obs yr)) !! key = m !! key).
Proof.
  intros Hc.
  assert (c <> Belarus /\ c <> Georgia) as [Hb Hg].
  { simpl in Hc.
    repeat (destruct Hc as [Hc|Hc]; [inversion Hc; split; discriminate|]).
    destruct Hc. }
  pose proof (populate_in_year c obs yr Hb Hg) as Hall.
  split.
  - intros key Hin. exact (all_events_In _ _ _ Hall Hin).
  - intros m key Hy. apply apply_events_frame.
    intros k n Hin ->. apply Hy.
    exact (all_events_In _ _ _ Hall Hin).
Qed.

(** ** Holidays relative to Western Easter *)

Lemma easter_anchored_shift yr o k e key :
  o <> 0 ->
  In k (range (-1) 2) ->
  easter (yr + k) EASTER_WESTERN = Ok e ->
  date_add_days e o = Ok key ->
  (year key =? yr) = true ->
  easter_anchored easter yr o key.
Proof.
  intros Ho Hk He Hadd Hy. split; [apply Z.eqb_eq; exact Hy|].
  exists k, e. unfold offset_date.
  replace (o =? 0) with false by (symmetry; apply Z.eqb_neq; exact Ho).
  replace (- o =? 0) with false by (symmetry; apply Z.eqb_neq; lia).
  repeat split; auto.
  intros Hv. apply (date_add_days_inverse e o key Hv Hadd).
Qed.

Lemma easter_anchored_zero yr k key :
  In k (range (-1) 2) ->
  easter (yr + k) EASTER_WESTERN = Ok key ->
  (year key =? yr) = true ->
  easter_anchored easter yr 0 key.
Proof.
  intros Hk He Hy. split; [apply Z.eqb_eq; exact Hy|].
  exists k, key. repeat split; auto.
Qed.

Ltac easter_leaf :=
  lazymatch goal with
  | |- named _ _ (Warn _) => exact I
  | |- named _ _ (SetItem _ _) =>
      simpl; intros Hname;
      first [ discriminate Hname
            | eapply easter_anchored_shift; [ | eassumption | eassumption | eassumption | assumption ]; lia
            | eapply easter_anchored_zero; eassumption ]
  end.

(** C3. For every year [yr] and every holiday defined at [o] days from
    Western Easter (Palm Sunday -7, Maundy Thursday -3, Good Friday -2,
    Easter Sunday 0, Pentecost +49, Ascension +39), every date [key] the
    method assigns under that holiday's name lies in year [yr] and is
    Easter of year [yr - 1], [yr] or [yr + 1] moved by [o] days; taking
    the [o] days back from [key] gives that Easter date again. *)
Theorem western_easter_offsets c name o obs yr key :
  In (c, name, o) western_easter_holidays ->
  In (SetItem key name) (events (Populate c obs yr)) ->
  year key = yr /\
  exists k e,
    In k [-1; 0; 1] /\
    easter (yr + k) EASTER_WESTERN = Ok e /\
    offset_date e o = Ok key /\
    (valid_date e = true -> offset_date key (- o) = Ok e).
Proof.
  intros Hc Hin. change (easter_anchored easter yr o key).
  cut (all_events (named name (easter_anchored easter yr o)) (Populate c obs yr)).
  { intros H. exact (all_events_In _ _ _ H Hin eq_refl). }
  clear Hin. simpl in Hc.
  repeat (destruct Hc as [Hc|Hc];
          [inversion Hc; subst c name o; clear Hc|]); [..|destruct Hc];
    unfold populate, India_populate, Indonesia_populate, Philippines_populate;
    unfold_blocks; all_walk; unfold outcome, lift, snd in *; easter_leaf.
Qed.

(** ** Warnings of the hard-coded tables *)

Lemma block_warnings yr :
  warnings_of (events (Indonesia_Nyepi yr)) =
    ["We only support Nyepi holiday from 2009 to 2019"] /\
  warnings_of (events (India_Diwali_Holi yr)) =
    ["We only support Diwali and Holi holidays from 2010 to 2030"] /\
  warnings_of (events (Thailand_Asalha_Puja yr)) =
    ["We only support Asalha Puja holiday from 2006 to 2025"] /\
  warnings_of (events (Thailand_Vassa yr)) =
    ["We only support Vassa holiday from 2006 to 2020"] /\
  warnings_of (events (Thailand_Magha_Pujab yr)) = [].
Proof.
  repeat split; unfold_blocks; cbv zeta; chain_cases yr; reflexivity.
Qed.

Ltac block_warnings_rw :=
  first [ rewrite (proj1 (block_warnings _))
        | rewrite (proj1 (proj2 (block_warnings _)))
        | rewrite (proj1 (proj2 (proj2 (block_warnings _))))
        | rewrite (proj1 (proj2 (proj2 (proj2 (block_warnings _)))))
        | rewrite (proj2 (proj2 (proj2 (proj2 (block_warnings _))))) ].

Lemma populate_warnings c obs yr :
  outcome (Populate c obs yr) = Ok tt ->
  warnings_of (events (Populate c obs yr)) = country_warnings c.
Proof.
  intros H.
  destruct c; unfold populate in *;
    [ unfold Indonesia_populate in * | unfold India_populate in *
    | unfold Kyrgyzstan_populate in * | unfold Thailand_populate in *
    | unfold Philippines_populate in * | unfold Pakistan_populate in *
    | unfold Russia_populate in * | unfold Belarus_populate in *
    | unfold Georgia_populate in * ];
    unfold setitem_orthodox in *; cbv zeta in H |- *;
    warnings_walk H block_warnings_rw; reflexivity.
Qed.

(** C5 (as amended). Every lookup in a hard-coded table that has a
    warning (Nyepi, Diwali and Holi, Asalha Puja, Vassa) calls
    [warnings.warn] exactly once, whether the year is inside or outside
    the table's range; the Magha Pujab table never warns.  For the year
    one past the range no date is assigned and the one warning is given.
    A [_populate] call that returns has given exactly the warnings of its
    class's tables, once each, whatever the year. *)
Theorem table_warning_on_every_call :
  (forall yr,
      warnings_of (events (Indonesia_Nyepi yr)) =
        ["We only support Nyepi holiday from 2009 to 2019"] /\
      warnings_of (events (India_Diwali_Holi yr)) =
        ["We only support Diwali and Holi holidays from 2010 to 2030"] /\
      warnings_of (events (Thailand_Asalha_Puja yr)) =
        ["We only support Asalha Puja holiday from 2006 to 2025"] /\
      warnings_of (events (Thailand_Vassa yr)) =
        ["We only support Vassa holiday from 2006 to 2020"] /\
      warnings_of (events (Thailand_Magha_Pujab yr)) = []) /\
  (dates_named "Day of Silence/ Nyepi" (events (Indonesia_Nyepi 2020)) = [] /\
   dates_named "Diwali" (events (India_Diwali_Holi 2031)) = [] /\
   dates_named "Holi" (events (India_Diwali_Holi 2031)) = [] /\
   dates_named "Asalha Puja" (events (Thailand_Asalha_Puja 2026)) = [] /\
   dates_named "Beginning of Vassa" (events (Thailand_Vassa 2021)) = []) /\
  (forall c obs yr,
      outcome (Populate c obs yr) = Ok tt ->
      warnings_of (events (Populate c obs yr)) = country_warnings c).
Proof.
  split; [exact block_warnings|].
  split; [repeat split; reflexivity|].
  exact populate_warnings.
Qed.

(** ** Lookups in the hard-coded tables *)

Ltac out_of_range_leaf yr Hr :=
  lazymatch goal with
  | |- named _ _ (Warn _) => exact I
  | |- named _ _ (SetItem _ _) =>
      simpl; intros Hname;
      first [ discriminate Hname
            | exfalso;
              match goal with
              | H : (yr =? _) = true |- _ => apply Z.eqb_eq in H; subst yr
              end;
              vm_compute in Hr; discriminate Hr ]
  end.

Lemma out_of_range_omitted c B T obs yr :
  In (c, B, T) hardcoded_tables ->
  in_range T yr = false ->
  dates_named (holiday T) (events (Populate c obs yr)) = [].
Proof.
  intros Hin Hr. apply dates_named_none. simpl in Hin.
  repeat (destruct Hin as [Hin|Hin];
          [inversion Hin; subst c B T; clear Hin|]); [..|destruct Hin];
    unfold populate, Indonesia_populate, India_populate, Thailand_populate;
    unfold_blocks; all_walk; out_of_range_leaf yr Hr.
Qed.

Ltac in_table_leaf yr :=
  lazymatch goal with
  | |- named _ _ (Warn _) => exact I
  | |- named _ _ (SetItem _ _) =>
      simpl; intros Hname;
      first [ discriminate Hname
            | match goal with
              | H : (yr =? _) = true |- _ => apply Z.eqb_eq in H; subst yr
              end;
              reflexivity ]
  end.

Lemma assigned_is_tabulated c B T obs yr :
  In (c, B, T) hardcoded_tables ->
  all_events (named (holiday T) (fun key => resolve_table T yr = Some key))
    (Populate c obs yr).
Proof.
  intros Hin. simpl in Hin.
  repeat (destruct Hin as [Hin|Hin];
          [inversion Hin; subst c B T; clear Hin|]); [..|destruct Hin];
    unfold populate, Indonesia_populate, India_populate, Thailand_populate;
    unfold_blocks; all_walk; in_table_leaf yr.
Qed.

Lemma block_reached c B T obs yr e :
  In (c, B, T) hardcoded_tables ->
  outcome (Populate c obs yr) = Ok tt ->
  In e (events (B yr)) ->
  In e (events (Populate c obs yr)).
Proof.
  intros Hin H He. simpl in Hin.
  repeat (destruct Hin as [Hin|Hin];
          [inversion Hin; subst c B T; clear Hin|]); [..|destruct Hin];
    unfold populate, Indonesia_populate, India_populate, Thailand_populate in *;
    cbv zeta in H |- *;
    repeat first [ apply in_events_bind_l; exact He | peel H ].
Qed.

(** ** Orthodox Easter: Commemoration Day *)

(** C7. In Belarus, for year 2024, the dates assigned under
    "Commemoration Day" are exactly the one date nine days after
    [easter(2024, EASTER_ORTHODOX)]: the anchor is the Easter routine
    called with the Orthodox method, and no other date gets the name.
    (If the routine or the addition raises, nothing is assigned.) *)
Theorem Commemoration_Day_2024 obs :
  dates_named "Commemoration Day" (events (Populate Belarus obs 2024)) =
    match easter 2024 EASTER_ORTHODOX with
    | Ok e => match date_add_days e 9 with Ok key => [key] | Raise _ => [] end
    | Raise _ => []
    end.
Proof.
  unfold populate, Belarus_populate, setitem_orthodox.
  rewrite !setitem_ymd_valid by reflexivity.
  destruct (easter 2024 EASTER_ORTHODOX) as [e|x]; [|reflexivity].
  cbv beta iota delta [bind lift].
  destruct (date_add_days e 9) as [key|x]; reflexivity.
Qed.

(** ** Weekend rules *)

(** C9 (as amended). For every year [yr] of the calendar, Indonesia's
    method is the "New Year's Day" step followed by a rest that does not
    depend on the [observed] flag and never assigns under "New Year's Day".
    The step assigns nothing when [observed] is false and January 1 is a
    Saturday (5) or a Sunday (6), and assigns [date(yr, 1, 1)] in every
    other case.  After the call the dictionary maps [date(yr, 1, 1)] to
    "New Year's Day" if no later holiday of the rest is assigned to
    January 1 as well; if one is, the date maps to the name of such a
    later holiday, and not to "New Year's Day". *)
Theorem Indonesia_New_Years_Day yr :
  MINYEAR <= yr <= MAXYEAR ->
  exists rest : M unit,
    all_events (named "New Year's Day" (fun _ => False)) rest /\
    forall obs,
      let january_1 := weekday (mkDate yr 1 1) in
      let skipped := negb obs && ((january_1 =? 5) || (january_1 =? 6)) in
      events (Populate Indonesia obs yr) =
        (if skipped then [] else [SetItem (mkDate yr 1 1) "New Year's Day"])
        ++ events rest /\
      outcome (Populate Indonesia obs yr) = outcome rest /\
      dates_named "New Year's Day" (events (Populate Indonesia obs yr)) =
        (if skipped then [] else [mkDate yr 1 1]) /\
      (skipped = false ->
       (forall n, ~ In (SetItem (mkDate yr 1 1) n) (events rest)) ->
       forall m : gmap date string,
         apply_events m (events (Populate Indonesia obs yr)) !! mkDate yr 1 1
         = Some "New Year's Day") /\
      ((exists n, In (SetItem (mkDate yr 1 1) n) (events rest)) ->
       exists n,
         n <> "New Year's Day" /\
         In (SetItem (mkDate yr 1 1) n) (events rest) /\
         forall m : gmap date string,
           apply_events m (events (Populate Indonesia obs yr)) !! mkDate yr 1 1
           = Some n).
Proof.
  intros Hy.
  assert (Hv : valid_ymd yr 1 1 = true) by (apply valid_ymd_fixed; lia).
  pose (body := Indonesia_populate easter from_gregorian to_gregorian Lunar2Solar true yr).
  unfold Indonesia_populate in body. cbv zeta in body.
  lazymatch eval cbv delta [body] in body with
  | bind _ (fun skip => bind (@?c skip) (fun _ => ?R)) => exists R
  end.
  clear body.
  match goal with
  | |- all_events ?P ?R /\ _ =>
      assert (Hrest : all_events P R)
        by (all_walk; unfold_blocks; all_walk; other_name_leaf);
      set (rest := R) in *
  end.
  split; [exact Hrest|].
  intros obs january_1 skipped.
  assert (E : events (Populate Indonesia obs yr) =
              (if skipped then [] else [SetItem (mkDate yr 1 1) "New Year's Day"])
              ++ events rest /\
              outcome (Populate Indonesia obs yr) = outcome rest).
  { unfold populate, Indonesia_populate. cbv zeta. fold rest.
    rewrite (date_new_valid yr 1 1 Hv), (setitem_ymd_valid yr 1 1 _ Hv).
    subst skipped january_1.
    destruct obs; cbn [negb andb].
    - rewrite bind_ret, bind_single. split; reflexivity.
    - rewrite bind_lift_ok, bind_ret, in_WEEKEND.
      destruct ((weekday (mkDate yr 1 1) =? 5) || (weekday (mkDate yr 1 1) =? 6)).
      + unfold pass. rewrite bind_ret. split; reflexivity.
      + rewrite bind_single. split; reflexivity. }
  destruct E as [E1 E2]. split; [exact E1|]. split; [exact E2|].
  split; [|split].
  - rewrite E1, dates_named_app, (dates_named_none _ rest Hrest).
    destruct skipped; reflexivity.
  - intros Hs Hfree m. rewrite Hs in E1.
    apply apply_events_lookup.
    + rewrite E1. left. reflexivity.
    + intros n. rewrite E1. intros [Hn|Hn].
      * inversion Hn. reflexivity.
      * destruct (Hfree n Hn).
  - intros Hlater.
    destruct (apply_events_last (events rest) (mkDate yr 1 1) Hlater)
      as (n & Hin & Hl).
    exists n. split; [|split; [exact Hin|]].
    + intros ->. exact (all_events_In _ _ _ Hrest Hin eq_refl).
    + intros m. rewrite E1, apply_events_app. apply Hl.
Qed.

(** C10. For every year [yr] of the calendar, Thailand's method assigns
    exactly one date under "Chakri Memorial Day": April 8 when April 6
    is a Saturday (5), April 7 when it is a Sunday (6), April 6
    otherwise; and the method does not look at the [observed] flag. *)
Theorem Chakri_Memorial_Day obs yr :
  MINYEAR <= yr <= MAXYEAR ->
  dates_named "Chakri Memorial Day" (events (Populate Thailand obs yr)) =
    [ let april_6 := weekday (mkDate yr 4 6) in
      if april_6 =? 5 then mkDate yr 4 8
      else if april_6 =? 6 then mkDate yr 4 7
      else mkDate yr 4 6 ] /\
  Populate Thailand obs yr = Populate Thailand (negb obs) yr.
Proof.
  intros Hy. split; [|reflexivity].
  unfold populate, Thailand_populate. cbv zeta.
  rewrite dates_named_bind.
  rewrite (setitem_ymd_valid yr 1 1) by (apply valid_ymd_fixed; lia).
  simpl dates_named at 1. unfold outcome at 1. simpl snd.
  rewrite dates_named_bind.
  rewrite (dates_named_none _ (Thailand_Magha_Pujab yr))
    by (unfold_blocks; all_walk; other_name_leaf).
  destruct (Magha_Pujab_is_table yr) as (-> & _).
  rewrite dates_named_bind.
  rewrite (date_new_valid yr 4 6) by (apply valid_ymd_fixed; lia).
  rewrite bind_lift_ok.
  change (6 + 2) with 8. change (6 + 1) with 7.
  set (april_6 := weekday (mkDate yr 4 6)).
  assert (Hday : forall k, 6 <= k <= 8 ->
            dates_named "Chakri Memorial Day"
              (events (setitem_ymd yr 4 k "Chakri Memorial Day")) = [mkDate yr 4 k]
            /\ outcome (setitem_ymd yr 4 k "Chakri Memorial Day") = Ok tt).
  { intros k Hk. rewrite setitem_ymd_valid by (apply valid_ymd_fixed; lia).
    split; reflexivity. }
  match goal with
  | |- context [match _ with
                | Ok _ => dates_named _ (events ?rest)
                | Raise _ => []
                end] =>
      rewrite (dates_named_none _ rest)
        by (unfold_blocks; all_walk; other_name_leaf)
  end.
  destruct (april_6 =? 5); [|destruct (april_6 =? 6)];
    match goal with
    | |- context [setitem_ymd yr 4 ?k _] =>
        destruct (Hday k ltac:(lia)) as [-> ->]
    end; reflexivity.
Qed.

(** ** Holidays of several Hijri days *)

Ltac hijri_day_at i :=
  exists i; split; [lia|]; eexists _, _; repeat split;
  [ eassumption | eassumption | eassumption ].

Ltac multi_day_leaf :=
  lazymatch goal with
  | |- named _ _ (Warn _) => exact I
  | |- named _ _ (SetItem _ _) =>
      simpl; intros Hname;
      first [ discriminate Hname
            | match goal with
              | H : (_ =? _) = true |- _ => apply Z.eqb_eq in H; subst
              end;
              split; [reflexivity|];
              first [ hijri_day_at 0 | hijri_day_at 1 | hijri_day_at 2 ] ]
  end.

(** X10. In India and Pakistan every date assigned under a multi-day
    holiday lies in the year and is the conversion of one of the
    consecutive Hijri days of the holiday. *)
Lemma multi_day_consecutive c name anchor hm hd n obs yr key :
  In (c, name, anchor, (hm, hd), n) multi_day_holidays ->
  In (SetItem key name) (events (Populate c obs yr)) ->
  consecutive_hijri_day from_gregorian to_gregorian yr anchor hm hd n key.
Proof.
  intros Hc Hin.
  cut (all_events
         (named name (consecutive_hijri_day from_gregorian to_gregorian
                        yr anchor hm hd n))
         (Populate c obs yr)).
  { intros H. exact (all_events_In _ _ _ H Hin eq_refl). }
  clear Hin. simpl in Hc.
  repeat (destruct Hc as [Hc|Hc];
          [inversion Hc; subst c name anchor hm hd n; clear Hc|]);
    [..|destruct Hc];
    unfold populate, India_populate, Pakistan_populate;
    unfold_blocks; all_walk; unfold outcome, lift, snd in *; multi_day_leaf.
Qed.

Ltac Indonesia_Eid_leaf :=
  lazymatch goal with
  | |- named _ _ (Warn _) => exact I
  | |- named _ _ (SetItem _ _) =>
      simpl; intros Hname;
      first [ discriminate Hname
            | match goal with
              | H : (_ =? _) = true |- _ => apply Z.eqb_eq in H
              end;
              do 8 eexists;
              split; [eassumption|]; split; [eassumption|];
              split; [eassumption|]; split; [eassumption|];
              split; [first [left; eassumption | right; eassumption]|];
              subst; reflexivity ]
  end.

(** C1, on Indonesia's loop (source lines 117-125). Every date assigned
    under "Eid al-Fitr" carries the month and day of 2 Shawwal, also when
    it is assigned because 1 Shawwal lies in the year: the first day of
    the holiday is never assigned from its own conversion. *)
Theorem Indonesia_Eid_al_Fitr_second_day obs yr key :
  In (SetItem key "Eid al-Fitr") (events (Populate Indonesia obs yr)) ->
  exists k g y1 m1 d1 y2 m2 d2,
    In k [-1; 0; 1] /\
    from_gregorian (yr + k) 6 15 = Ok g /\
    to_gregorian g.1.1 10 1 = Ok (y1, m1, d1) /\
    to_gregorian g.1.1 10 2 = Ok (y2, m2, d2) /\
    (y1 = yr \/ y2 = yr) /\
    key = mkDate yr m2 d2.
Proof.
  intros Hin. change (Indonesia_Eid_entry from_gregorian to_gregorian yr key).
  cut (all_events
         (named "Eid al-Fitr" (Indonesia_Eid_entry from_gregorian to_gregorian yr))
         (Populate Indonesia obs yr)).
  { intros H. exact (all_events_In _ _ _ H Hin eq_refl). }
  clear Hin. unfold populate, Indonesia_populate.
  unfold_blocks; all_walk; unfold outcome, lift, snd in *; Indonesia_Eid_leaf.
Qed.

End Methods.

(** * Concrete runs with the reference routines *)

Ltac in_list := repeat (first [ left; reflexivity | right ]).

Example Indonesia_2019_returns : outcome (Reference.populate Indonesia true 2019) = Ok tt.
Proof. vm_compute. reflexivity. Qed.

Example April_6_2019_is_a_Saturday : weekday (mkDate 2019 4 6) = 5.
Proof. reflexivity. Qed.

Example January_1_2017_is_a_Sunday : weekday (mkDate 2017 1 1) = 6.
Proof. reflexivity. Qed.

(** Orthodox Easter 2024 is May 5, Western Easter March 31: Commemoration
    Day 2024 is May 14, not April 9. *)
Example Belarus_2024_reference :
  Reference.easter 2024 EASTER_ORTHODOX = Ok (mkDate 2024 5 5) /\
  Reference.easter 2024 EASTER_WESTERN = Ok (mkDate 2024 3 31) /\
  dates_named "Commemoration Day" (events (Reference.populate Belarus true 2024))
  = [mkDate 2024 5 14].
Proof. repeat split; vm_compute; reflexivity. Qed.

(** C6, evaluated for 2019. With 1 Shawwal 1440 on 2019-06-05 and 2 Shawwal
    on 2019-06-06, India's loop assigns both dates; Indonesia's loop
    (source lines 117-125) assigns 2019-06-06 twice and never 2019-06-05,
    so its dictionary has one "Eid al-Fitr" date and none on June 5. *)
Theorem Eid_al_Fitr_2019 :
  Reference.to_gregorian 1440 10 1 = Ok (2019, 6, 5) /\
  Reference.to_gregorian 1440 10 2 = Ok (2019, 6, 6) /\
  dates_named "Eid al-Fitr" (events (Reference.populate India true 2019))
  = [mkDate 2019 6 5; mkDate 2019 6 6] /\
  dates_named "Eid al-Fitr" (events (Reference.populate Indonesia true 2019))
  = [mkDate 2019 6 6; mkDate 2019 6 6] /\
  apply_events ∅ (events (Reference.populate Indonesia true 2019)) !! mkDate 2019 6 5
  = None.
Proof. repeat split; vm_compute; reflexivity. Qed.

(** ** Instances of the theorems *)

Lemma Indonesia_Eid_al_Fitr_second_day_witness :
  In (SetItem (mkDate 2019 6 6) "Eid al-Fitr")
     (events (Reference.populate Indonesia true 2019)) /\
  exists k g y1 m1 d1 y2 m2 d2,
    In k [-1; 0; 1] /\
    Reference.from_gregorian (2019 + k) 6 15 = Ok g /\
    Reference.to_gregorian g.1.1 10 1 = Ok (y1, m1, d1) /\
    Reference.to_gregorian g.1.1 10 2 = Ok (y2, m2, d2) /\
    (y1 = 2019 \/ y2 = 2019) /\
    mkDate 2019 6 6 = mkDate 2019 m2 d2.
Proof.
  assert (H : In (SetItem (mkDate 2019 6 6) "Eid al-Fitr")
                 (events (Reference.populate Indonesia true 2019)))
    by (vm_compute; in_list).
  split; [exact H|].
  exact (Indonesia_Eid_al_Fitr_second_day Reference.easter Reference.from_gregorian
           Reference.to_gregorian Reference.Lunar2Solar true 2019 _ H).
Defined.

Lemma foreign_calendar_dates_in_year_witness :
  In (India, "Eid al-Fitr") foreign_calendar_holidays /\
  (In (SetItem (mkDate 2019 6 5) "Eid al-Fitr")
      (events (Reference.populate India true 2019)) /\
   year (mkDate 2019 6 5) = 2019) /\
  (year (mkDate 2020 5 24) <> 2019 /\
   apply_events ∅ (events (Reference.populate India true 2019)) !! mkDate 2020 5 24
   = (∅ : gmap date string) !! mkDate 2020 5 24).
Proof.
  assert (H1 : In (India, "Eid al-Fitr") foreign_calendar_holidays)
    by (unfold foreign_calendar_holidays; in_list).
  assert (H2 : In (SetItem (mkDate 2019 6 5) "Eid al-Fitr")
                  (events (Reference.populate India true 2019)))
    by (vm_compute; in_list).
  assert (H3 : year (mkDate 2020 5 24) <> 2019) by (simpl; lia).
  destruct (foreign_calendar_dates_in_year Reference.easter Reference.from_gregorian
              Reference.to_gregorian Reference.Lunar2Solar India _ true 2019 H1)
    as [Hin Hframe].
  split; [exact H1|]. split.
  - split; [exact H2|]. exact (Hin _ H2).
  - split; [exact H3|]. exact (Hframe ∅ _ H3).
Defined.

Lemma western_easter_offsets_witness :
  In (India, "Feast of Pentecost", 49) western_easter_holidays /\
  In (SetItem (mkDate 2019 6 9) "Feast of Pentecost")
     (events (Reference.populate India true 2019)) /\
  year (mkDate 2019 6 9) = 2019 /\
  exists k e,
    In k [-1; 0; 1] /\
    Reference.easter (2019 + k) EASTER_WESTERN = Ok e /\
    offset_date e 49 = Ok (mkDate 2019 6 9) /\
    (valid_date e = true -> offset_date (mkDate 2019 6 9) (- 49) = Ok e).
Proof.
  assert (H1 : In (India, "Feast of Pentecost", 49) western_easter_holidays)
    by (unfold western_easter_holidays; in_list).
  assert (H2 : In (SetItem (mkDate 2019 6 9) "Feast of Pentecost")
                  (events (Reference.populate India true 2019)))
    by (vm_compute; in_list).
  split; [exact H1|]. split; [exact H2|].
  exact (western_easter_offsets Reference.easter Reference.from_gregorian
           Reference.to_gregorian Reference.Lunar2Solar India _ 49 true 2019 _ H1 H2).
Defined.

Lemma table_warning_on_every_call_witness :
  outcome (Reference.populate Indonesia true 2020) = Ok tt /\
  warnings_of (events (Reference.populate Indonesia true 2020))
  = country_warnings Indonesia.
Proof.
  assert (H : outcome (Reference.populate Indonesia true 2020) = Ok tt)
    by (vm_compute; reflexivity).
  split; [exact H|].
  exact (proj2 (proj2 (table_warning_on_every_call Reference.easter
                         Reference.from_gregorian Reference.to_gregorian
                         Reference.Lunar2Solar))
           Indonesia true 2020 H).
Defined.

(** C5 as stated fails: a lookup for a year inside the range warns, and a
    second lookup for a year outside the range warns again. *)
Lemma warning_for_year_in_range :
  in_range Nyepi_table 2015 = true /\
  dates_named "Day of Silence/ Nyepi" (events (Indonesia_Nyepi 2015))
  = [mkDate 2015 3 21] /\
  warnings_of (events (Indonesia_Nyepi 2015))
  = ["We only support Nyepi holiday from 2009 to 2019"] /\
  warnings_of (events (Indonesia_Nyepi 2020 ;; Indonesia_Nyepi 2020))
  = ["We only support Nyepi holiday from 2009 to 2019";
     "We only support Nyepi holiday from 2009 to 2019"].
Proof. repeat split; reflexivity. Qed.

(** C9 as stated fails: in 2060 January 1 is a Thursday, "New Year's Day"
    is assigned, and 27 Rajab 1482 is January 1 as well, so that
    "Ascension of the Prophet", assigned later, is what the date maps to. *)
Lemma New_Years_Day_2060_overwritten :
  weekday (mkDate 2060 1 1) = 3 /\
  outcome (Reference.populate Indonesia true 2060) = Ok tt /\
  dates_named "New Year's Day" (events (Reference.populate Indonesia true 2060))
  = [mkDate 2060 1 1] /\
  Reference.from_gregorian 2060 3 17 = Ok (1482, 10, 14) /\
  Reference.to_gregorian 1482 7 27 = Ok (2060, 1, 1) /\
  dates_named "Ascension of the Prophet"
    (events (Reference.populate Indonesia true 2060))
  = [mkDate 2060 1 1; mkDate 2060 12 20] /\
  apply_events ∅ (events (Reference.populate Indonesia true 2060)) !! mkDate 2060 1 1
  = Some "Ascension of the Prophet" /\
  apply_events ∅ (events (Reference.populate Indonesia true 2060)) !! mkDate 2060 1 1
  <> Some "New Year's Day".
Proof. repeat split; try (vm_compute; reflexivity). vm_compute. discriminate. Qed.

Lemma Indonesia_New_Years_Day_witness :
  MINYEAR <= 2017 <= MAXYEAR /\
  dates_named "New Year's Day" (events (Reference.populate Indonesia false 2017)) = [] /\
  dates_named "New Year's Day" (events (Reference.populate Indonesia true 2017))
  = [mkDate 2017 1 1].
Proof.
  assert (H : MINYEAR <= 2017 <= MAXYEAR) by (unfold MINYEAR, MAXYEAR; lia).
  split; [exact H|].
  destruct (Indonesia_New_Years_Day Reference.easter Reference.from_gregorian
              Reference.to_gregorian Reference.Lunar2Solar 2017 H)
    as (rest & _ & Hobs).
  split.
  - destruct (Hobs false) as (_ & _ & D & _). exact D.
  - destruct (Hobs true) as (_ & _ & D & _). exact D.
Defined.

Lemma Chakri_Memorial_Day_witness :
  MINYEAR <= 2019 <= MAXYEAR /\
  dates_named "Chakri Memorial Day" (events (Reference.populate Thailand true 2019))
  = [mkDate 2019 4 8].
Proof.
  assert (H : MINYEAR <= 2019 <= MAXYEAR) by (unfold MINYEAR, MAXYEAR; lia).
  split; [exact H|].
  exact (proj1 (Chakri_Memorial_Day Reference.easter Reference.from_gregorian
                  Reference.to_gregorian Reference.Lunar2Solar true 2019 H)).
Defined.

(** * Further properties of the methods *)

(** ** Dates *)

Lemma valid_ymd_month y m d :
  MINYEAR <= y <= MAXYEAR -> 1 <= m <= 12 -> 1 <= d <= DAYS_IN_MONTH m ->
  valid_ymd y m d = true.
Proof.
  intros Hy Hm Hd. apply valid_ymd_spec. repeat split; try lia.
  apply month_cases in Hm. unfold days_in_month.
  split_months Hm m; destruct (is_leap y); revert Hd; calm; lia.
Qed.

Ltac valid_fixed :=
  apply valid_ymd_month;
  [ assumption | lia | cbn [DAYS_IN_MONTH]; lia ].

Lemma date_new_invalid_year y m d :
  y < MINYEAR \/ MAXYEAR < y -> date_new y m d = Raise ValueError.
Proof.
  intros H. unfold date_new, valid_ymd.
  replace ((MINYEAR <=? y) && (y <=? MAXYEAR)) with false; [reflexivity|].
  symmetry. apply andb_false_iff. rewrite !Z.leb_gt. lia.
Qed.

Lemma setitem_ymd_invalid_year y m d name :
  y < MINYEAR \/ MAXYEAR < y -> setitem_ymd y m d name = ([], Raise ValueError).
Proof.
  intros H. unfold setitem_ymd. rewrite date_new_invalid_year by exact H.
  reflexivity.
Qed.

Lemma date_add_days_ordinal dt n dt' :
  date_add_days dt n = Ok dt' -> toordinal dt' = toordinal dt + n.
Proof.
  unfold date_add_days. cbv zeta.
  destruct ((0 <? toordinal dt + n) && (toordinal dt + n <=? MAXORDINAL));
    intros H; inversion H. apply toordinal_fromordinal.
Qed.

Lemma weekday_add_days dt n dt' :
  date_add_days dt n = Ok dt' -> weekday dt' = (weekday dt + n) mod 7.
Proof.
  intros H. unfold weekday. rewrite (date_add_days_ordinal dt n dt' H).
  rewrite Zplus_mod_idemp_l. f_equal. lia.
Qed.

(** ** Statements of a method that returns *)

Lemma part_of_refl {A} (c : M A) : part_of c c.
Proof. intros b H. split; [exists b; exact H | auto]. Qed.

Lemma part_of_bind_l {A B} (c : M A) (f : A -> M B) : part_of c (bind c f).
Proof.
  intros b H. apply bind_returns in H as (a & Ha & _ & E). split; [eauto|].
  intros e He. rewrite E. apply in_or_app. left. exact He.
Qed.

Lemma part_of_bind_r {A B C} (c : M C) (c' : M A) (f : A -> M B) :
  (forall a, part_of c (f a)) -> part_of c (bind c' f).
Proof.
  intros Hf b H. apply bind_returns in H as (a & Ha & Hb & E).
  destruct (Hf a b Hb) as [Hc Hin]. split; [exact Hc|].
  intros e He. rewrite E. apply in_or_app. right. apply Hin. exact He.
Qed.

Lemma for_returns {A} (l : list A) (body : A -> M unit) x :
  In x l -> part_of (body x) (for_ l body).
Proof.
  induction l as [|y l IH]; intros Hin; [destruct Hin|].
  destruct Hin as [->|Hin]; simpl.
  - apply part_of_bind_l.
  - apply part_of_bind_r. intros _. apply IH. exact Hin.
Qed.

(** Find a statement in a method body. *)
Ltac find_part :=
  cbv zeta;
  repeat first [ apply part_of_bind_l
               | apply part_of_refl
               | apply part_of_bind_r; intros ? ].

(** ** The loops when they return *)

Lemma direct_loop_returns f name yr k :
  outcome (direct_loop f name yr) = Ok tt ->
  In k [-1; 0; 1] ->
  exists ds, f (yr + k) = Ok ds /\
             (year ds = yr -> In (SetItem ds name) (events (direct_loop f name yr))).
Proof.
  intros H Hk. unfold direct_loop in *.
  destruct (for_returns _ _ k Hk tt H) as [[a Ha] Hin]. cbv beta in Ha, Hin.
  destruct (f (yr + k)) as [ds|x]; [|discriminate Ha].
  exists ds. split; [reflexivity|]. intros Hy. apply Hin.
  rewrite bind_lift_ok. apply Z.eqb_eq in Hy. rewrite Hy. left. reflexivity.
Qed.

Lemma shifted_loop_returns f o name yr k :
  outcome (shifted_loop f o name yr) = Ok tt ->
  In k [-1; 0; 1] ->
  exists e ds, f (yr + k) = Ok e /\ date_add_days e o = Ok ds /\
               (year ds = yr ->
                In (SetItem ds name) (events (shifted_loop f o name yr))).
Proof.
  intros H Hk. unfold shifted_loop in *.
  destruct (for_returns _ _ k Hk tt H) as [[a Ha] Hin]. cbv beta in Ha, Hin.
  destruct (f (yr + k)) as [e|x]; [|discriminate Ha].
  rewrite bind_lift_ok in Ha, Hin.
  destruct (date_add_days e o) as [ds|x] eqn:Hds; [|discriminate Ha].
  exists e, ds. split; [reflexivity|]. split; [exact Hds|]. intros Hy. apply Hin.
  rewrite bind_lift_ok. apply Z.eqb_eq in Hy. rewrite Hy. left. reflexivity.
Qed.

Lemma guarded_setitem_returns y m d yr name :
  outcome (if y =? yr then setitem_ymd y m d name else pass) = Ok tt ->
  day_assigned yr y m d name
    (events (if y =? yr then setitem_ymd y m d name else pass)).
Proof.
  intros H Hy. apply Z.eqb_eq in Hy. rewrite Hy in *.
  unfold setitem_ymd, date_new in *.
  destruct (valid_ymd y m d); [|discriminate H].
  split; [reflexivity|]. left. reflexivity.
Qed.

Lemma day_assigned_incl yr y m d name (t t' : list event) :
  (forall e, In e t -> In e t') ->
  day_assigned yr y m d name t -> day_assigned yr y m d name t'.
Proof. intros Hin H Hy. destruct (H Hy). split; auto. Qed.

Lemma hijri_loop_returns fg tg anchor hy hd name yr k :
  outcome (hijri_loop fg tg anchor hy hd name yr) = Ok tt ->
  In k [-1; 0; 1] ->
  exists g y m d,
    fg (yr + k) (fst anchor) (snd anchor) = Ok g /\
    tg (hy g.1.1) (fst hd) (snd hd) = Ok (y, m, d) /\
    day_assigned yr y m d name (events (hijri_loop fg tg anchor hy hd name yr)).
Proof.
  intros H Hk. unfold hijri_loop in *.
  destruct (for_returns _ _ k Hk tt H) as [[a Ha] Hin]. cbv beta in Ha, Hin.
  destruct (fg (yr + k) (fst anchor) (snd anchor)) as [g|x]; [|discriminate Ha].
  rewrite bind_lift_ok in Ha, Hin.
  destruct (tg (hy g.1.1) (fst hd) (snd hd)) as [[[y m] d]|x] eqn:Ht;
    [|discriminate Ha].
  rewrite bind_lift_ok in Ha, Hin.
  exists g, y, m, d. split; [reflexivity|]. split; [exact Ht|].
  eapply day_assigned_incl; [exact Hin|].
  apply guarded_setitem_returns. destruct a. exact Ha.
Qed.

Lemma two_day_loop_returns fg tg anchor hm hd1 hd2 name yr k :
  outcome (two_day_loop fg tg anchor hm hd1 hd2 name yr) = Ok tt ->
  In k [-1; 0; 1] ->
  exists g y1 m1 d1 y2 m2 d2,
    fg (yr + k) (fst anchor) (snd anchor) = Ok g /\
    tg g.1.1 hm hd1 = Ok (y1, m1, d1) /\
    tg g.1.1 hm hd2 = Ok (y2, m2, d2) /\
    day_assigned yr y1 m1 d1 name
      (events (two_day_loop fg tg anchor hm hd1 hd2 name yr)) /\
    day_assigned yr y2 m2 d2 name
      (events (two_day_loop fg tg anchor hm hd1 hd2 name yr)).
Proof.
  intros H Hk. unfold two_day_loop in *. cbv zeta in *.
  destruct (for_returns _ _ k Hk tt H) as [[a Ha] Hin]. cbv beta in Ha, Hin.
  destruct (fg (yr + k) (fst anchor) (snd anchor)) as [g|x]; [|discriminate Ha].
  rewrite bind_lift_ok in Ha, Hin.
  destruct (tg g.1.1 hm hd1) as [[[y1 m1] d1]|x] eqn:H1; [|discriminate Ha].
  rewrite bind_lift_ok in Ha, Hin.
  destruct (tg g.1.1 hm hd2) as [[[y2 m2] d2]|x] eqn:H2; [|discriminate Ha].
  rewrite bind_lift_ok in Ha, Hin.
  exists g, y1, m1, d1, y2, m2, d2.
  split; [reflexivity|]. split; [exact H1|]. split; [exact H2|].
  apply bind_returns in Ha as ([] & Ha1 & Ha2 & E).
  split.
  - eapply day_assigned_incl; [|apply guarded_setitem_returns; exact Ha1].
    intros e He. apply Hin. rewrite E. apply in_or_app. left. exact He.
  - eapply day_assigned_incl;
      [|apply guarded_setitem_returns; destruct a; exact Ha2].
    intros e He. apply Hin. rewrite E. apply in_or_app. right. exact He.
Qed.

Lemma three_day_loop_returns fg tg anchor hm hd1 hd2 hd3 name yr k :
  outcome (three_day_loop fg tg anchor hm hd1 hd2 hd3 name yr) = Ok tt ->
  In k [-1; 0; 1] ->
  exists g y1 m1 d1 y2 m2 d2 y3 m3 d3,
    fg (yr + k) (fst anchor) (snd anchor) = Ok g /\
    tg g.1.1 hm hd1 = Ok (y1, m1, d1) /\
    tg g.1.1 hm hd2 = Ok (y2, m2, d2) /\
    tg g.1.1 hm hd3 = Ok (y3, m3, d3) /\
    day_assigned yr y1 m1 d1 name
      (events (three_day_loop fg tg anchor hm hd1 hd2 hd3 name yr)) /\
    day_assigned yr y2 m2 d2 name
      (events (three_day_loop fg tg anchor hm hd1 hd2 hd3 name yr)) /\
    day_assigned yr y3 m3 d3 name
      (events (three_day_loop fg tg anchor hm hd1 hd2 hd3 name yr)).
Proof.
  intros H Hk. unfold three_day_loop in *. cbv zeta in *.
  destruct (for_returns _ _ k Hk tt H) as [[a Ha] Hin]. cbv beta in Ha, Hin.
  destruct (fg (yr + k) (fst anchor) (snd anchor)) as [g|x]; [|discriminate Ha].
  rewrite bind_lift_ok in Ha, Hin.
  destruct (tg g.1.1 hm hd1) as [[[y1 m1] d1]|x] eqn:H1; [|discriminate Ha].
  rewrite bind_lift_ok in Ha, Hin.
  destruct (tg g.1.1 hm hd2) as [[[y2 m2] d2]|x] eqn:H2; [|discriminate Ha].
  rewrite bind_lift_ok in Ha, Hin.
  destruct (tg g.1.1 hm hd3) as [[[y3 m3] d3]|x] eqn:H3; [|discriminate Ha].
  rewrite bind_lift_ok in Ha, Hin.
  exists g, y1, m1, d1, y2, m2, d2, y3, m3, d3.
  split; [reflexivity|]. split; [exact H1|]. split; [exact H2|].
  split; [exact H3|].
  apply bind_returns in Ha as ([] & Ha1 & Ha2 & E).
  apply bind_returns in Ha2 as ([] & Ha2 & Ha3 & E').
  split; [|split].
  - eapply day_assigned_incl; [|apply guarded_setitem_returns; exact Ha1].
    intros e He. apply Hin. rewrite E. apply in_or_app. left. exact He.
  - eapply day_assigned_incl; [|apply guarded_setitem_returns; exact Ha2].
    intros e He. apply Hin. rewrite E. apply in_or_app. right.
    rewrite E'. apply in_or_app. left. exact He.
  - eapply day_assigned_incl;
      [|apply guarded_setitem_returns; destruct a; exact Ha3].
    intros e He. apply Hin. rewrite E. apply in_or_app. right.
    rewrite E'. apply in_or_app. right. exact He.
Qed.

(** ** Warnings, whether or not the call returns *)

Lemma prefix_nil_warnings {A} (c : M A) L :
  all_events not_warn c -> warnings_of (events c) `prefix_of` L.
Proof. intros H. rewrite (warnings_of_none c H). apply prefix_nil. Qed.

Lemma prefix_bind_quiet {A B} (c : M A) (f : A -> M B) L :
  all_events not_warn c ->
  (forall a, warnings_of (events (f a)) `prefix_of` L) ->
  warnings_of (events (bind c f)) `prefix_of` L.
Proof.
  intros Hc Hf. rewrite events_bind, warnings_of_app, (warnings_of_none c Hc).
  destruct (outcome c) as [a|x]; [apply Hf | apply prefix_nil].
Qed.

Lemma prefix_bind_warns {A B} (c : M A) (f : A -> M B) w L :
  warnings_of (events c) = [w] ->
  (forall a, warnings_of (events (f a)) `prefix_of` L) ->
  warnings_of (events (bind c f)) `prefix_of` (w :: L).
Proof.
  intros Hc Hf. rewrite events_bind, warnings_of_app, Hc.
  destruct (outcome c) as [a|x]; simpl.
  - apply prefix_cons. apply Hf.
  - apply prefix_cons. apply prefix_nil.
Qed.

(** ** The methods *)

Section Further.

Variable easter : Z -> easter_method -> result date.
Variable from_gregorian : Z -> Z -> Z -> result (Z * Z * Z).
Variable to_gregorian : Z -> Z -> Z -> result (Z * Z * Z).
Variable Lunar2Solar : Z -> Z -> Z -> result date.

Abbreviation Populate := (populate easter from_gregorian to_gregorian Lunar2Solar).

Ltac unfold_methods :=
  unfold populate, Indonesia_populate, India_populate, Thailand_populate,
    Philippines_populate, Pakistan_populate.

(** *** Years that [datetime.date] rejects *)

(** X1. For a year below 1 or above 9999 every method raises [ValueError]
    at its first date and assigns nothing, whatever the flag and the
    imported routines.  The year is one that fits a C [int]: beyond that
    range the constructor of CPython's C implementation raises
    [OverflowError] before it checks the range. *)
Theorem year_out_of_range c obs yr :
  - 2 ^ 31 <= yr < 2 ^ 31 ->
  yr < MINYEAR \/ MAXYEAR < yr ->
  Populate c obs yr = ([], Raise ValueError).
Proof.
  intros _ H.
  destruct c; unfold populate;
    [ unfold Indonesia_populate | unfold India_populate
    | unfold Kyrgyzstan_populate | unfold Thailand_populate
    | unfold Philippines_populate | unfold Pakistan_populate
    | unfold Russia_populate | unfold Belarus_populate
    | unfold Georgia_populate ];
    try (rewrite setitem_ymd_invalid_year by exact H; reflexivity).
  rewrite date_new_invalid_year by exact H.
  destruct obs; cbn [negb].
  - rewrite bind_ret. rewrite setitem_ymd_invalid_year by exact H. reflexivity.
  - reflexivity.
Qed.

(** *** Classes with fixed dates only *)

Lemma fixed_class_events c obs yr :
  c = Kyrgyzstan \/ c = Russia ->
  MINYEAR <= yr <= MAXYEAR ->
  Populate c obs yr = (List.map (assign_fixed yr) (fixed_dates c), Ok tt).
Proof.
  intros [-> | ->] Hy; unfold populate, Kyrgyzstan_populate, Russia_populate;
    rewrite !setitem_ymd_valid by valid_fixed; reflexivity.
Qed.

(** X2. For every year from 1 to 9999 the methods of Kyrgyzstan and Russia
    return normally; afterwards the dictionary maps each of the class's
    dates to the name the method gives it, and every other date keeps the
    entry it had. *)
Theorem fixed_class_dictionary c obs yr (m0 : gmap date string) :
  c = Kyrgyzstan \/ c = Russia ->
  MINYEAR <= yr <= MAXYEAR ->
  outcome (Populate c obs yr) = Ok tt /\
  (forall mo d name,
      In (mo, d, name) (fixed_dates c) ->
      apply_events m0 (events (Populate c obs yr)) !! mkDate yr mo d = Some name) /\
  (forall key,
      (forall mo d name, In (mo, d, name) (fixed_dates c) -> key <> mkDate yr mo d) ->
      apply_events m0 (events (Populate c obs yr)) !! key = m0 !! key).
Proof.
  intros Hc Hy. rewrite (fixed_class_events c obs yr Hc Hy).
  split; [reflexivity|]. cbn [events fst]. split.
  - intros mo d name Hin. apply apply_events_lookup.
    + apply in_map_iff. exists (mo, d, name). split; [reflexivity|exact Hin].
    + intros n Hn. apply in_map_iff in Hn as ([[mo' d'] n'] & E & Hin').
      unfold assign_fixed in E. simpl in E. inversion E; subst mo' d' n'.
      clear E. destruct Hc as [-> | ->]; simpl in Hin, Hin';
        repeat (destruct Hin as [Hin|Hin]; [inversion Hin; subst; clear Hin|]);
        try (destruct Hin);
        repeat (destruct Hin' as [Hin'|Hin'];
                [inversion Hin'; subst; try reflexivity|]);
        try (destruct Hin').
  - intros key Hkey. apply apply_events_frame.
    intros k n Hin. apply in_map_iff in Hin as ([[mo d] n'] & E & Hin).
    unfold assign_fixed in E. simpl in E. inversion E; subst k n.
    intros <-. exact (Hkey mo d n' Hin eq_refl).
Qed.

(** *** Orthodox Easter *)

(** X3. When Georgia's method returns for a year from 1 to 9999, it has
    assigned exactly one date under each of "Good Friday", "Great
    Saturday", "Easter Sunday" and "Easter Monday": Orthodox Easter and the
    days 2 before, 1 before and 1 after it, four consecutive days; if
    Easter is a Sunday they are a Friday, a Saturday and a Monday. *)
Theorem Georgia_Easter_days obs yr :
  MINYEAR <= yr <= MAXYEAR ->
  outcome (Populate Georgia obs yr) = Ok tt ->
  exists e friday saturday monday,
    easter yr EASTER_ORTHODOX = Ok e /\
    dates_named "Good Friday" (events (Populate Georgia obs yr)) = [friday] /\
    dates_named "Great Saturday" (events (Populate Georgia obs yr)) = [saturday] /\
    dates_named "Easter Sunday" (events (Populate Georgia obs yr)) = [e] /\
    dates_named "Easter Monday" (events (Populate Georgia obs yr)) = [monday] /\
    toordinal friday = toordinal e - 2 /\
    toordinal saturday = toordinal e - 1 /\
    toordinal monday = toordinal e + 1 /\
    (weekday e = 6 ->
     weekday friday = 4 /\ weekday saturday = 5 /\ weekday monday = 0).
Proof.
  intros Hy. unfold populate, Georgia_populate, setitem_orthodox.
  rewrite !setitem_ymd_valid by valid_fixed.
  destruct (easter yr EASTER_ORTHODOX) as [e|x]; [|intros H; discriminate H].
  cbv beta iota delta [bind lift].
  destruct (date_add_days e (-2)) as [fr|x] eqn:Hfr; [|intros H; discriminate H].
  destruct (date_add_days e (-1)) as [sa|x] eqn:Hsa; [|intros H; discriminate H].
  destruct (date_add_days e 1) as [mo|x] eqn:Hmo; [|intros H; discriminate H].
  intros _. exists e, fr, sa, mo.
  split; [reflexivity|]. do 4 (split; [reflexivity|]).
  pose proof (date_add_days_ordinal _ _ _ Hfr).
  pose proof (date_add_days_ordinal _ _ _ Hsa).
  pose proof (date_add_days_ordinal _ _ _ Hmo).
  split; [lia|]. split; [lia|]. split; [lia|].
  intros Hw.
  rewrite (weekday_add_days _ _ _ Hfr), (weekday_add_days _ _ _ Hsa),
    (weekday_add_days _ _ _ Hmo), Hw.
  repeat split; reflexivity.
Qed.

(** X4. In Belarus, for a year from 1 to 9999 in which Orthodox Easter plus
    nine days is the date [key], the method returns, and afterwards the
    dictionary maps [key] to the name of the fixed holiday assigned later
    in the method (May 1, May 9, July 3, November 7, December 25) when
    [key] is one of these dates, and to "Commemoration Day" otherwise. *)
Theorem Belarus_Commemoration_Day_overlap obs yr e key (m0 : gmap date string) :
  MINYEAR <= yr <= MAXYEAR ->
  easter yr EASTER_ORTHODOX = Ok e ->
  date_add_days e 9 = Ok key ->
  outcome (Populate Belarus obs yr) = Ok tt /\
  (forall mo d name,
      In (mo, d, name) Belarus_later_dates -> key = mkDate yr mo d ->
      apply_events m0 (events (Populate Belarus obs yr)) !! key = Some name) /\
  ((forall mo d name,
       In (mo, d, name) Belarus_later_dates -> key <> mkDate yr mo d) ->
   apply_events m0 (events (Populate Belarus obs yr)) !! key
   = Some "Commemoration Day").
Proof.
  intros Hy He Hk. unfold populate, Belarus_populate, setitem_orthodox.
  rewrite !setitem_ymd_valid by valid_fixed.
  rewrite He. cbv beta iota delta [bind lift]. rewrite Hk.
  cbv beta iota zeta delta [setitem events outcome fst snd app apply_events
                            fold_left apply_event].
  split; [reflexivity|]. split.
  - intros mo d name Hin ->. simpl in Hin.
    repeat (destruct Hin as [Hin|Hin];
            [inversion Hin; subst mo d name; clear Hin|]);
      [..|destruct Hin];
      repeat first [ rewrite lookup_insert_eq; reflexivity
                   | rewrite lookup_insert_ne by (intros E; inversion E) ].
  - intros Hne.
    rewrite !lookup_insert_ne
      by (intros E; symmetry in E; revert E; eapply Hne; simpl; eauto 10).
    apply lookup_insert_eq.
Qed.

(** *** The day before 1 Shawwal *)

Ltac Philippines_leaf :=
  lazymatch goal with
  | |- named _ _ (Warn _) => exact I
  | |- named _ _ (SetItem _ _) =>
      simpl; intros Hname;
      first [ discriminate Hname
            | let Hv := fresh "Hv" in
              let Hback := fresh "Hback" in
              let Hord := fresh "Hord" in
              match goal with
              | H : date_new _ _ _ = Ok _ |- _ =>
                  apply date_new_ok in H as [-> Hv]
              end;
              match goal with
              | H : date_add_days ?dt (-1) = Ok ?k |- _ =>
                  destruct (date_add_days_inverse dt (-1) k Hv H) as [Hback Hord]
              end;
              split; [apply Z.eqb_eq; assumption|];
              do 5 eexists;
              split; [eassumption|]; split; [eassumption|];
              split; [eassumption|]; split; [exact Hv|];
              split; [exact Hord | exact Hback] ]
  end.

(** X5. In the Philippines every date assigned under "Eid al-Fitr" lies in
    the year and is the day before the conversion of 1 Shawwal: the
    conversion is a date, one day after the assigned one. *)
Theorem Philippines_Eid_al_Fitr obs yr key :
  In (SetItem key "Eid al-Fitr") (events (Populate Philippines obs yr)) ->
  year key = yr /\
  exists k g y m d,
    In k [-1; 0; 1] /\
    from_gregorian (yr + k) 6 15 = Ok g /\
    to_gregorian g.1.1 10 1 = Ok (y, m, d) /\
    valid_ymd y m d = true /\
    toordinal key = ymd2ord y m d - 1 /\
    date_add_days key 1 = Ok (mkDate y m d).
Proof.
  intros Hin. change (day_before_Shawwal from_gregorian to_gregorian yr key).
  cut (all_events
         (named "Eid al-Fitr" (day_before_Shawwal from_gregorian to_gregorian yr))
         (Populate Philippines obs yr)).
  { intros H. exact (all_events_In _ _ _ H Hin eq_refl). }
  clear Hin. unfold populate, Philippines_populate.
  all_walk; unfold outcome, lift, snd in *; Philippines_leaf.
Qed.

(** *** Holidays of one Hijri day *)

Ltac single_leaf :=
  lazymatch goal with
  | |- named _ _ (Warn _) => exact I
  | |- named _ _ (SetItem _ _) =>
      simpl; intros Hname;
      first [ discriminate Hname
            | match goal with
              | H : (_ =? _) = true |- _ => apply Z.eqb_eq in H; subst
              end;
              split; [reflexivity|]; split; [assumption|];
              eexists _, _; split; [eassumption|]; split; [eassumption|];
              cbn [year month day fst snd];
              first [ eassumption | rewrite Z.add_0_r; eassumption ] ]
  end.

(** X6. For every holiday of one Hijri day, every date assigned under its
    name is a date of the year and is the conversion of the holiday's
    Hijri month and day, in the Hijri year found at the anchor date of the
    year before, the year or the year after (the following Hijri year for
    Indonesia's "Islamic New Year" and "Birth of the Prophet"). *)
Theorem single_day_resolution c name anchor delta hd obs yr key :
  In (c, name, anchor, delta, hd) single_day_holidays ->
  In (SetItem key name) (events (Populate c obs yr)) ->
  year key = yr /\ valid_date key = true /\
  exists k g,
    In k [-1; 0; 1] /\
    from_gregorian (yr + k) (fst anchor) (snd anchor) = Ok g /\
    to_gregorian (g.1.1 + delta) (fst hd) (snd hd)
    = Ok (year key, month key, day key).
Proof.
  intros Hc Hin.
  change (hijri_single from_gregorian to_gregorian yr anchor delta hd key).
  cut (all_events
         (named name (hijri_single from_gregorian to_gregorian yr anchor delta hd))
         (Populate c obs yr)).
  { intros H. exact (all_events_In _ _ _ H Hin eq_refl). }
  clear Hin. simpl in Hc.
  repeat (destruct Hc as [Hc|Hc];
          [inversion Hc; subst c name anchor delta hd; clear Hc|]);
    [..|destruct Hc];
    unfold_methods; unfold_blocks; all_walk;
    unfold outcome, lift, snd in *; single_leaf.
Qed.

Lemma single_day_loop_part c name anchor delta hd obs yr :
  In (c, name, anchor, delta, hd) single_day_holidays ->
  exists hy, (forall z, hy z = z + delta) /\
    part_of (hijri_loop from_gregorian to_gregorian anchor hy hd name yr)
            (Populate c obs yr).
Proof.
  intros Hc. simpl in Hc.
  repeat (destruct Hc as [Hc|Hc];
          [inversion Hc; subst c name anchor delta hd; clear Hc|]);
    [..|destruct Hc];
    first [ exists (fun z => z); split; [intros z; lia|]
          | exists (fun z => z + 1); split; [intros z; reflexivity|] ];
    unfold_methods; unfold hijri_loop; cbn [fst snd]; find_part.
Qed.

(** X7. When the method returns, then for every holiday of one Hijri day
    and each of the three years searched, both conversions have succeeded,
    and if the converted day lies in the year it is a date and it has been
    assigned under the holiday's name: a failing conversion is never passed
    over in silence, and no conversion that lands in the year is dropped. *)
Theorem single_day_completeness c name anchor delta hd obs yr k :
  In (c, name, anchor, delta, hd) single_day_holidays ->
  outcome (Populate c obs yr) = Ok tt ->
  In k [-1; 0; 1] ->
  exists g y m d,
    from_gregorian (yr + k) (fst anchor) (snd anchor) = Ok g /\
    to_gregorian (g.1.1 + delta) (fst hd) (snd hd) = Ok (y, m, d) /\
    (y = yr ->
     valid_ymd y m d = true /\
     In (SetItem (mkDate y m d) name) (events (Populate c obs yr))).
Proof.
  intros Hc H Hk.
  destruct (single_day_loop_part c name anchor delta hd obs yr Hc)
    as (hy & Hhy & Hp).
  destruct (Hp tt H) as [[[] Ha] Hin].
  destruct (hijri_loop_returns _ _ _ _ _ _ _ k Ha Hk)
    as (g & y & m & d & Hg & Ht & Hy).
  exists g, y, m, d. split; [exact Hg|]. rewrite <- Hhy. split; [exact Ht|].
  exact (day_assigned_incl _ _ _ _ _ _ _ Hin Hy).
Qed.

(** *** Lunar holidays *)

Ltac lunar_leaf :=
  lazymatch goal with
  | |- named _ _ (Warn _) => exact I
  | |- named _ _ (SetItem _ _) =>
      simpl; intros Hname;
      first [ discriminate Hname
            | split; [apply Z.eqb_eq; assumption|];
              eexists; split; eassumption ]
  end.

(** X8. For "Chinese New Year" and "Buddha's Birthday" (Indonesia) and
    "Buddha's Birthday" (Thailand), every date assigned under the name lies
    in the year and is what the lunar converter returns for the holiday's
    lunar month and day of the year before, the year or the year after. *)
Theorem lunar_resolution c name ld obs yr key :
  In (c, name, ld) lunar_holidays ->
  In (SetItem key name) (events (Populate c obs yr)) ->
  year key = yr /\
  exists k, In k [-1; 0; 1] /\ Lunar2Solar (yr + k) (fst ld) (snd ld) = Ok key.
Proof.
  intros Hc Hin. change (lunar_day Lunar2Solar yr ld key).
  cut (all_events (named name (lunar_day Lunar2Solar yr ld)) (Populate c obs yr)).
  { intros H. exact (all_events_In _ _ _ H Hin eq_refl). }
  clear Hin. simpl in Hc.
  repeat (destruct Hc as [Hc|Hc];
          [inversion Hc; subst c name ld; clear Hc|]);
    [..|destruct Hc];
    unfold_methods; unfold_blocks; all_walk;
    unfold outcome, lift, snd in *; lunar_leaf.
Qed.

Lemma lunar_loop_part c name ld obs yr :
  In (c, name, ld) lunar_holidays ->
  part_of (direct_loop (fun y => Lunar2Solar y (fst ld) (snd ld)) name yr)
          (Populate c obs yr).
Proof.
  intros Hc. simpl in Hc.
  repeat (destruct Hc as [Hc|Hc];
          [inversion Hc; subst c name ld; clear Hc|]);
    [..|destruct Hc];
    unfold_methods; unfold direct_loop; cbn [fst snd]; find_part.
Qed.

(** X9. When the method returns, then for every lunar holiday and each of
    the three years searched the lunar converter has returned a date, and
    that date has been assigned under the holiday's name if it lies in the
    year. *)
Theorem lunar_completeness c name ld obs yr k :
  In (c, name, ld) lunar_holidays ->
  outcome (Populate c obs yr) = Ok tt ->
  In k [-1; 0; 1] ->
  exists ds,
    Lunar2Solar (yr + k) (fst ld) (snd ld) = Ok ds /\
    (year ds = yr -> In (SetItem ds name) (events (Populate c obs yr))).
Proof.
  intros Hc H Hk.
  destruct (lunar_loop_part c name ld obs yr Hc tt H) as [[[] Ha] Hin].
  destruct (direct_loop_returns _ _ _ k Ha Hk) as (ds & Hds & Hy).
  exists ds. split; [exact Hds|]. intros E. apply Hin. exact (Hy E).
Qed.

(** *** Holidays of several Hijri days, when the method returns *)

Lemma multi_day_loop_part c name anchor hm hd n obs yr :
  In (c, name, anchor, (hm, hd), n) multi_day_holidays ->
  part_of (if n =? 2
           then two_day_loop from_gregorian to_gregorian anchor hm hd (hd + 1)
                  name yr
           else three_day_loop from_gregorian to_gregorian anchor hm hd (hd + 1)
                  (hd + 2) name yr)
          (Populate c obs yr) /\ (n = 2 \/ n = 3).
Proof.
  intros Hc. simpl in Hc.
  repeat (destruct Hc as [Hc|Hc];
          [inversion Hc; subst c name anchor hm hd n; clear Hc|]);
    [..|destruct Hc];
    (split; [|lia]);
    unfold_methods; unfold two_day_loop, three_day_loop;
    cbn [Z.eqb Pos.eqb fst snd Z.add Pos.add Pos.succ]; find_part.
Qed.

(** X11. When the method of India or Pakistan returns, then for every
    holiday of several Hijri days, each of the three years searched and
    each day of the holiday, the conversion has succeeded, and if the
    converted day lies in the year it is a date and it has been assigned
    under the holiday's name. *)
Theorem multi_day_completeness c name anchor hm hd n obs yr k i :
  In (c, name, anchor, (hm, hd), n) multi_day_holidays ->
  outcome (Populate c obs yr) = Ok tt ->
  In k [-1; 0; 1] ->
  0 <= i < n ->
  exists g y m d,
    from_gregorian (yr + k) (fst anchor) (snd anchor) = Ok g /\
    to_gregorian g.1.1 hm (hd + i) = Ok (y, m, d) /\
    (y = yr ->
     valid_ymd y m d = true /\
     In (SetItem (mkDate y m d) name) (events (Populate c obs yr))).
Proof.
  intros Hc H Hk Hi.
  destruct (multi_day_loop_part c name anchor hm hd n obs yr Hc) as [Hp Hn].
  destruct (Hp tt H) as [[[] Ha] Hin].
  destruct Hn as [-> | ->]; cbn [Z.eqb Pos.eqb] in Ha, Hin.
  - destruct (two_day_loop_returns _ _ _ _ _ _ _ _ k Ha Hk)
      as (g & y1 & m1 & d1 & y2 & m2 & d2 & Hg & H1 & H2 & A1 & A2).
    assert (i = 0 \/ i = 1) as [-> | ->] by lia.
    + exists g, y1, m1, d1. rewrite Z.add_0_r.
      split; [exact Hg|]. split; [exact H1|].
      exact (day_assigned_incl _ _ _ _ _ _ _ Hin A1).
    + exists g, y2, m2, d2. split; [exact Hg|]. split; [exact H2|].
      exact (day_assigned_incl _ _ _ _ _ _ _ Hin A2).
  - destruct (three_day_loop_returns _ _ _ _ _ _ _ _ _ k Ha Hk)
      as (g & y1 & m1 & d1 & y2 & m2 & d2 & y3 & m3 & d3
          & Hg & H1 & H2 & H3 & A1 & A2 & A3).
    assert (i = 0 \/ i = 1 \/ i = 2) as [-> | [-> | ->]] by lia.
    + exists g, y1, m1, d1. rewrite Z.add_0_r.
      split; [exact Hg|]. split; [exact H1|].
      exact (day_assigned_incl _ _ _ _ _ _ _ Hin A1).
    + exists g, y2, m2, d2. split; [exact Hg|]. split; [exact H2|].
      exact (day_assigned_incl _ _ _ _ _ _ _ Hin A2).
    + exists g, y3, m3, d3. split; [exact Hg|]. split; [exact H3|].
      exact (day_assigned_incl _ _ _ _ _ _ _ Hin A3).
Qed.

(** *** Western Easter, when the method returns *)

Lemma easter_loop_part c name o obs yr :
  In (c, name, o) western_easter_holidays ->
  part_of (if o =? 0
           then direct_loop (fun y => easter y EASTER_WESTERN) name yr
           else shifted_loop (fun y => easter y EASTER_WESTERN) o name yr)
          (Populate c obs yr).
Proof.
  intros Hc. simpl in Hc.
  repeat (destruct Hc as [Hc|Hc];
          [inversion Hc; subst c name o; clear Hc|]);
    [..|destruct Hc];
    unfold_methods; unfold direct_loop, shifted_loop; cbn [Z.eqb]; find_part.
Qed.

(** X12. When the method returns, then for every holiday at [o] days from
    Western Easter and each of the three years searched, the Easter routine
    and the date addition have succeeded, and the resulting date has been
    assigned under the holiday's name if it lies in the year. *)
Theorem western_easter_completeness c name o obs yr k :
  In (c, name, o) western_easter_holidays ->
  outcome (Populate c obs yr) = Ok tt ->
  In k [-1; 0; 1] ->
  exists e ds,
    easter (yr + k) EASTER_WESTERN = Ok e /\
    offset_date e o = Ok ds /\
    (year ds = yr -> In (SetItem ds name) (events (Populate c obs yr))).
Proof.
  intros Hc H Hk.
  destruct (easter_loop_part c name o obs yr Hc tt H) as [[[] Ha] Hin].
  unfold offset_date. destruct (o =? 0).
  - destruct (direct_loop_returns _ _ _ k Ha Hk) as (ds & Hds & Hy).
    exists ds, ds. split; [exact Hds|]. split; [reflexivity|].
    intros E. apply Hin. exact (Hy E).
  - destruct (shifted_loop_returns _ _ _ _ k Ha Hk) as (e & ds & He & Hds & Hy).
    exists e, ds. split; [exact He|]. split; [exact Hds|].
    intros E. apply Hin. exact (Hy E).
Qed.

(** *** Warnings *)

Ltac prefix_walk :=
  repeat first
    [ apply prefix_bind_warns;
      [ first [ exact (proj1 (block_warnings _))
              | exact (proj1 (proj2 (block_warnings _)))
              | exact (proj1 (proj2 (proj2 (block_warnings _))))
              | exact (proj1 (proj2 (proj2 (proj2 (block_warnings _))))) ]
      | intros ? ]
    | apply prefix_bind_quiet;
      [ all_walk; unfold_blocks; all_walk; exact I | intros ? ]
    | apply prefix_nil_warnings; all_walk; exact I ].

(** X13. Whether a call returns or raises, the warnings it has given are an
    initial part of the warnings of its class's tables, in the order of the
    method: no warning is given twice in a call, and the classes without a
    warning table (Kyrgyzstan, Philippines, Pakistan, Russia, Belarus,
    Georgia) never warn. *)
Theorem warnings_prefix c obs yr :
  warnings_of (events (Populate c obs yr)) `prefix_of` country_warnings c.
Proof.
  destruct c; unfold populate;
    [ unfold Indonesia_populate | unfold India_populate
    | unfold Kyrgyzstan_populate | unfold Thailand_populate
    | unfold Philippines_populate | unfold Pakistan_populate
    | unfold Russia_populate | unfold Belarus_populate
    | unfold Georgia_populate ];
    unfold setitem_orthodox, country_warnings; cbv zeta; prefix_walk.
Qed.

(** *** Chakri Memorial Day *)

Ltac weekday_leaf :=
  lazymatch goal with
  | |- named _ _ (Warn _) => exact I
  | |- named _ _ (SetItem _ _) =>
      simpl; intros Hname;
      first [ discriminate Hname
            | repeat match goal with
                     | H : outcome (lift (date_new _ _ _)) = Ok _ |- _ =>
                         apply date_new_ok in H as [-> _]
                     | H : (_ =? _) = true |- _ => apply Z.eqb_eq in H
                     | H : (_ =? _) = false |- _ => apply Z.eqb_neq in H
                     end;
              unfold weekday, toordinal, ymd2ord, days_before_month in *;
              cbn [year month day DAYS_BEFORE_MONTH Z.ltb Z.compare Pos.compare
                   Pos.compare_cont andb] in *;
              change (6 + 2) with 8; change (6 + 1) with 7;
              Z.div_mod_to_equations; lia ]
  end.

(** X14. Every date Thailand's method assigns under "Chakri Memorial Day"
    is a Monday to Friday ([weekday] 0 to 4), for every year: the shift
    from a Saturday or a Sunday always reaches the Monday. *)
Theorem Chakri_Memorial_Day_on_weekday obs yr key :
  In (SetItem key "Chakri Memorial Day") (events (Populate Thailand obs yr)) ->
  0 <= weekday key <= 4.
Proof.
  intros Hin.
  cut (all_events (named "Chakri Memorial Day" (fun k => 0 <= weekday k <= 4))
         (Populate Thailand obs yr)).
  { intros H. exact (all_events_In _ _ _ H Hin eq_refl). }
  clear Hin. unfold populate, Thailand_populate.
  unfold_blocks; all_walk; weekday_leaf.
Qed.


(** *** Holidays of some years only *)

Lemma setitem_ymd_returns y m d name :
  outcome (setitem_ymd y m d name) = Ok tt ->
  In (SetItem (mkDate y m d) name) (events (setitem_ymd y m d name)).
Proof.
  unfold setitem_ymd, date_new.
  destruct (valid_ymd y m d); intros H; [left; reflexivity | discriminate H].
Qed.

Ltac gated_leaf :=
  lazymatch goal with
  | |- named _ _ (Warn _) => exact I
  | |- named _ _ (SetItem _ _) =>
      simpl; intros Hname;
      first [ discriminate Hname
            | split; [lia | reflexivity] ]
  end.

(** X15. When Indonesia's method returns, "Pancasila Day" is assigned to
    June 1 of the year if the year is 2017 or later, and to no date
    otherwise. *)
Theorem Pancasila_Day_since_2017 obs yr key :
  outcome (Populate Indonesia obs yr) = Ok tt ->
  In (SetItem key "Pancasila Day") (events (Populate Indonesia obs yr)) <->
  2017 <= yr /\ key = mkDate yr 6 1.
Proof.
  intros H. split.
  - intros Hin.
    cut (all_events
           (named "Pancasila Day" (fun key => 2017 <= yr /\ key = mkDate yr 6 1))
           (Populate Indonesia obs yr)).
    { intros Ha. exact (all_events_In _ _ _ Ha Hin eq_refl). }
    clear Hin H. unfold populate, Indonesia_populate.
    unfold_blocks; all_walk; gated_leaf.
  - intros [Hy ->].
    assert (Hp : part_of (if yr >=? 2017
                          then setitem_ymd yr 6 1 "Pancasila Day" else pass)
                         (Populate Indonesia obs yr)).
    { unfold populate, Indonesia_populate. find_part. }
    destruct (Hp tt H) as [[[] Ha] Hin]. apply Hin.
    replace (yr >=? 2017) with true in * by (symmetry; apply Z.geb_le; lia).
    apply setitem_ymd_returns. exact Ha.
Qed.

(** X16. When Thailand's method returns, "Coronation Day" is assigned to
    May 5 of the year if the year is before 2017, and to no date
    otherwise. *)
Theorem Coronation_Day_before_2017 obs yr key :
  outcome (Populate Thailand obs yr) = Ok tt ->
  In (SetItem key "Coronation Day") (events (Populate Thailand obs yr)) <->
  yr < 2017 /\ key = mkDate yr 5 5.
Proof.
  intros H. split.
  - intros Hin.
    cut (all_events
           (named "Coronation Day" (fun key => yr < 2017 /\ key = mkDate yr 5 5))
           (Populate Thailand obs yr)).
    { intros Ha. exact (all_events_In _ _ _ Ha Hin eq_refl). }
    clear Hin H. unfold populate, Thailand_populate.
    unfold_blocks; all_walk; gated_leaf.
  - intros [Hy ->].
    assert (Hp : part_of (if yr <? 2017
                          then setitem_ymd yr 5 5 "Coronation Day" else pass)
                         (Populate Thailand obs yr)).
    { unfold populate, Thailand_populate. find_part. }
    destruct (Hp tt H) as [[[] Ha] Hin]. apply Hin.
    replace (yr <? 2017) with true in * by (symmetry; apply Z.ltb_lt; lia).
    apply setitem_ymd_returns. exact Ha.
Qed.


(** *** The [observed] flag *)

(** X17. The [observed] flag changes a call only in Indonesia, and there
    only when January 1 of the year falls on a weekend: in every other
    case two calls that differ in the flag alone do the same. *)
Theorem observed_flag_effect c obs obs' yr :
  (c = Indonesia -> in_ (weekday (mkDate yr 1 1)) WEEKEND = false) ->
  Populate c obs yr = Populate c obs' yr.
Proof.
  intros H. destruct c; try reflexivity.
  specialize (H eq_refl). unfold populate, Indonesia_populate.
  destruct (Z_le_dec MINYEAR yr) as [Hlo|Hlo];
    [destruct (Z_le_dec yr MAXYEAR) as [Hhi|Hhi]|].
  - assert (Hy : MINYEAR <= yr <= MAXYEAR) by lia.
    rewrite (date_new_valid yr 1 1) by valid_fixed.
    destruct obs, obs'; cbn [negb]; rewrite ?bind_lift_ok, ?H; reflexivity.
  - rewrite date_new_invalid_year by lia.
    destruct obs, obs'; cbn [negb];
      rewrite ?bind_ret, ?setitem_ymd_invalid_year by lia; reflexivity.
  - rewrite date_new_invalid_year by lia.
    destruct obs, obs'; cbn [negb];
      rewrite ?bind_ret, ?setitem_ymd_invalid_year by lia; reflexivity.
Qed.

End Further.

(** ** The years at which the routines are called *)

Lemma bind_ext {A B} (c c' : M A) (f f' : A -> M B) :
  c = c' -> (forall a, outcome c = Ok a -> f a = f' a) -> bind c f = bind c' f'.
Proof.
  intros <- H. destruct c as [t [a|x]]; [|reflexivity].
  unfold bind. rewrite (H a eq_refl). reflexivity.
Qed.

Lemma for_ext {A} (l : list A) (f f' : A -> M unit) :
  (forall x, In x l -> f x = f' x) -> for_ l f = for_ l f'.
Proof.
  induction l as [|x l IH]; intros H; [reflexivity|].
  cbn [for_]. apply bind_ext.
  - apply H. left. reflexivity.
  - intros _ _. apply IH. intros z Hz. apply H. right. exact Hz.
Qed.

Lemma range_adjacent x : In x (range (-1) 2) -> In x [-1; 0; 1].
Proof. intros H. exact H. Qed.

Ltac same_step He Hg Hl :=
  lazymatch goal with
  | |- for_ _ _ = for_ _ _ => apply for_ext; intros ? ?
  | |- bind _ _ = bind _ _ => apply bind_ext; [ | intros ? _ ]
  | |- lift _ = lift _ =>
      first [ reflexivity
            | apply (f_equal lift);
              first [ apply He; assumption | apply Hg; assumption
                    | apply Hl; assumption ] ]
  | |- _ => reflexivity
  end.

Ltac same_walk He Hg Hl := cbv zeta; repeat same_step He Hg Hl.

(** X18. A call for year [yr] reads the Easter routine, the Gregorian to
    Hijri conversion and the lunar converter at the years [yr - 1], [yr]
    and [yr + 1] only: with routines that agree at these three years (and
    the same Hijri to Gregorian conversion) the call does the same. *)
Theorem routines_read_at_adjacent_years
    (easter easter' : Z -> easter_method -> result date)
    (from_gregorian from_gregorian' to_gregorian : Z -> Z -> Z -> result (Z * Z * Z))
    (Lunar2Solar Lunar2Solar' : Z -> Z -> Z -> result date)
    c obs yr :
  (forall y me, yr - 1 <= y <= yr + 1 -> easter y me = easter' y me) ->
  (forall y m d, yr - 1 <= y <= yr + 1 ->
                 from_gregorian y m d = from_gregorian' y m d) ->
  (forall y m d, yr - 1 <= y <= yr + 1 -> Lunar2Solar y m d = Lunar2Solar' y m d) ->
  populate easter from_gregorian to_gregorian Lunar2Solar c obs yr
  = populate easter' from_gregorian' to_gregorian Lunar2Solar' c obs yr.
Proof.
  intros He Hg Hl.
  assert (He' : forall x me, In x (range (-1) 2) ->
                             easter (yr + x) me = easter' (yr + x) me).
  { intros x me Hx. apply He. apply range_adjacent in Hx. simpl in Hx. lia. }
  assert (Hg' : forall x m d, In x (range (-1) 2) ->
                  from_gregorian (yr + x) m d = from_gregorian' (yr + x) m d).
  { intros x m d Hx. apply Hg. apply range_adjacent in Hx. simpl in Hx. lia. }
  assert (Hl' : forall x m d, In x (range (-1) 2) ->
                  Lunar2Solar (yr + x) m d = Lunar2Solar' (yr + x) m d).
  { intros x m d Hx. apply Hl. apply range_adjacent in Hx. simpl in Hx. lia. }
  assert (Ho : easter yr EASTER_ORTHODOX = easter' yr EASTER_ORTHODOX).
  { apply He. lia. }
  destruct c; unfold populate;
    [ unfold Indonesia_populate | unfold India_populate
    | unfold Kyrgyzstan_populate | unfold Thailand_populate
    | unfold Philippines_populate | unfold Pakistan_populate
    | unfold Russia_populate | unfold Belarus_populate
    | unfold Georgia_populate ];
    unfold setitem_orthodox; rewrite <- ?Ho;
    same_walk He' Hg' Hl'.
Qed.

(** ** Instances of the further properties *)

Lemma year_out_of_range_witness :
  - 2 ^ 31 <= 10000 < 2 ^ 31 /\
  (10000 < MINYEAR \/ MAXYEAR < 10000) /\
  Reference.populate Indonesia false 10000 = ([], Raise ValueError).
Proof.
  assert (Hc : - 2 ^ 31 <= 10000 < 2 ^ 31) by lia.
  assert (H : 10000 < MINYEAR \/ MAXYEAR < 10000)
    by (right; unfold MAXYEAR; lia).
  split; [exact Hc|]. split; [exact H|].
  exact (year_out_of_range Reference.easter Reference.from_gregorian
           Reference.to_gregorian Reference.Lunar2Solar Indonesia false 10000
           Hc H).
Defined.

Lemma fixed_class_dictionary_witness :
  (Russia = Kyrgyzstan \/ Russia = Russia) /\
  MINYEAR <= 2019 <= MAXYEAR /\
  apply_events {[ mkDate 2019 6 12 := "Stale"; mkDate 2019 6 13 := "Kept" ]}
    (events (Reference.populate Russia true 2019)) !! mkDate 2019 6 12
  = Some "Russia Day".
Proof.
  assert (Hc : Russia = Kyrgyzstan \/ Russia = Russia) by (right; reflexivity).
  assert (H : MINYEAR <= 2019 <= MAXYEAR) by (unfold MINYEAR, MAXYEAR; lia).
  assert (Hin : In (6, 12, "Russia Day") (fixed_dates Russia))
    by (unfold fixed_dates; in_list).
  split; [exact Hc|]. split; [exact H|].
  exact (proj1 (proj2 (fixed_class_dictionary Reference.easter
                         Reference.from_gregorian Reference.to_gregorian
                         Reference.Lunar2Solar Russia true 2019 _ Hc H))
           6 12 "Russia Day" Hin).
Defined.

Lemma Georgia_Easter_days_witness :
  MINYEAR <= 2019 <= MAXYEAR /\
  outcome (Reference.populate Georgia true 2019) = Ok tt /\
  exists e friday saturday monday,
    Reference.easter 2019 EASTER_ORTHODOX = Ok e /\
    dates_named "Good Friday" (events (Reference.populate Georgia true 2019))
    = [friday] /\
    dates_named "Great Saturday" (events (Reference.populate Georgia true 2019))
    = [saturday] /\
    dates_named "Easter Sunday" (events (Reference.populate Georgia true 2019))
    = [e] /\
    dates_named "Easter Monday" (events (Reference.populate Georgia true 2019))
    = [monday] /\
    toordinal friday = toordinal e - 2 /\
    toordinal saturday = toordinal e - 1 /\
    toordinal monday = toordinal e + 1 /\
    (weekday e = 6 ->
     weekday friday = 4 /\ weekday saturday = 5 /\ weekday monday = 0).
Proof.
  assert (H : MINYEAR <= 2019 <= MAXYEAR) by (unfold MINYEAR, MAXYEAR; lia).
  assert (O : outcome (Reference.populate Georgia true 2019) = Ok tt)
    by (vm_compute; reflexivity).
  split; [exact H|]. split; [exact O|].
  exact (Georgia_Easter_days Reference.easter Reference.from_gregorian
           Reference.to_gregorian Reference.Lunar2Solar true 2019 H O).
Defined.

Lemma Belarus_Commemoration_Day_overlap_witness :
  MINYEAR <= 2000 <= MAXYEAR /\
  Reference.easter 2000 EASTER_ORTHODOX = Ok (mkDate 2000 4 30) /\
  date_add_days (mkDate 2000 4 30) 9 = Ok (mkDate 2000 5 9) /\
  apply_events ∅ (events (Reference.populate Belarus true 2000)) !! mkDate 2000 5 9
  = Some "Victory Day".
Proof.
  assert (H : MINYEAR <= 2000 <= MAXYEAR) by (unfold MINYEAR, MAXYEAR; lia).
  assert (He : Reference.easter 2000 EASTER_ORTHODOX = Ok (mkDate 2000 4 30))
    by (vm_compute; reflexivity).
  assert (Hk : date_add_days (mkDate 2000 4 30) 9 = Ok (mkDate 2000 5 9))
    by (vm_compute; reflexivity).
  assert (Hin : In (5, 9, "Victory Day") Belarus_later_dates)
    by (unfold Belarus_later_dates; in_list).
  split; [exact H|]. split; [exact He|]. split; [exact Hk|].
  exact (proj1 (proj2 (Belarus_Commemoration_Day_overlap Reference.easter
                         Reference.from_gregorian Reference.to_gregorian
                         Reference.Lunar2Solar true 2000 _ _ ∅ H He Hk))
           5 9 "Victory Day" Hin eq_refl).
Defined.

Lemma Philippines_Eid_al_Fitr_witness :
  In (SetItem (mkDate 2019 6 4) "Eid al-Fitr")
     (events (Reference.populate Philippines true 2019)) /\
  year (mkDate 2019 6 4) = 2019 /\
  exists k g y m d,
    In k [-1; 0; 1] /\
    Reference.from_gregorian (2019 + k) 6 15 = Ok g /\
    Reference.to_gregorian g.1.1 10 1 = Ok (y, m, d) /\
    valid_ymd y m d = true /\
    toordinal (mkDate 2019 6 4) = ymd2ord y m d - 1 /\
    date_add_days (mkDate 2019 6 4) 1 = Ok (mkDate y m d).
Proof.
  assert (H : In (SetItem (mkDate 2019 6 4) "Eid al-Fitr")
                 (events (Reference.populate Philippines true 2019)))
    by (vm_compute; in_list).
  split; [exact H|].
  exact (Philippines_Eid_al_Fitr Reference.easter Reference.from_gregorian
           Reference.to_gregorian Reference.Lunar2Solar true 2019 _ H).
Defined.

Lemma single_day_resolution_witness :
  In (India, "Mawlid", (11, 20), 0, (3, 12)) single_day_holidays /\
  In (SetItem (mkDate 2019 11 10) "Mawlid")
     (events (Reference.populate India true 2019)) /\
  year (mkDate 2019 11 10) = 2019 /\ valid_date (mkDate 2019 11 10) = true /\
  exists k g,
    In k [-1; 0; 1] /\
    Reference.from_gregorian (2019 + k) 11 20 = Ok g /\
    Reference.to_gregorian (g.1.1 + 0) 3 12 = Ok (2019, 11, 10).
Proof.
  assert (H1 : In (India, "Mawlid", (11, 20), 0, (3, 12)) single_day_holidays)
    by (unfold single_day_holidays; in_list).
  assert (H2 : In (SetItem (mkDate 2019 11 10) "Mawlid")
                  (events (Reference.populate India true 2019)))
    by (vm_compute; in_list).
  split; [exact H1|]. split; [exact H2|].
  exact (single_day_resolution Reference.easter Reference.from_gregorian
           Reference.to_gregorian Reference.Lunar2Solar
           India _ _ _ _ true 2019 _ H1 H2).
Defined.

Lemma single_day_completeness_witness :
  In (India, "Mawlid", (11, 20), 0, (3, 12)) single_day_holidays /\
  outcome (Reference.populate India true 2019) = Ok tt /\
  In 0 [-1; 0; 1] /\
  exists g y m d,
    Reference.from_gregorian (2019 + 0) 11 20 = Ok g /\
    Reference.to_gregorian (g.1.1 + 0) 3 12 = Ok (y, m, d) /\
    (y = 2019 ->
     valid_ymd y m d = true /\
     In (SetItem (mkDate y m d) "Mawlid")
        (events (Reference.populate India true 2019))).
Proof.
  assert (H1 : In (India, "Mawlid", (11, 20), 0, (3, 12)) single_day_holidays)
    by (unfold single_day_holidays; in_list).
  assert (H2 : outcome (Reference.populate India true 2019) = Ok tt)
    by (vm_compute; reflexivity).
  assert (H3 : In 0 [-1; 0; 1]) by in_list.
  split; [exact H1|]. split; [exact H2|]. split; [exact H3|].
  exact (single_day_completeness Reference.easter Reference.from_gregorian
           Reference.to_gregorian Reference.Lunar2Solar
           India _ _ _ _ true 2019 0 H1 H2 H3).
Defined.

Lemma lunar_resolution_witness :
  In (Indonesia, "Chinese New Year", (1, 1)) lunar_holidays /\
  In (SetItem (mkDate 2019 2 5) "Chinese New Year")
     (events (Reference.populate Indonesia true 2019)) /\
  year (mkDate 2019 2 5) = 2019 /\
  exists k, In k [-1; 0; 1] /\
            Reference.Lunar2Solar (2019 + k) 1 1 = Ok (mkDate 2019 2 5).
Proof.
  assert (H1 : In (Indonesia, "Chinese New Year", (1, 1)) lunar_holidays)
    by (unfold lunar_holidays; in_list).
  assert (H2 : In (SetItem (mkDate 2019 2 5) "Chinese New Year")
                  (events (Reference.populate Indonesia true 2019)))
    by (vm_compute; in_list).
  split; [exact H1|]. split; [exact H2|].
  exact (lunar_resolution Reference.easter Reference.from_gregorian
           Reference.to_gregorian Reference.Lunar2Solar
           Indonesia _ _ true 2019 _ H1 H2).
Defined.

Lemma lunar_completeness_witness :
  In (Thailand, "Buddha's Birthday", (4, 15)) lunar_holidays /\
  outcome (Reference.populate Thailand true 2019) = Ok tt /\
  In 0 [-1; 0; 1] /\
  exists ds,
    Reference.Lunar2Solar (2019 + 0) 4 15 = Ok ds /\
    (year ds = 2019 ->
     In (SetItem ds "Buddha's Birthday")
        (events (Reference.populate Thailand true 2019))).
Proof.
  assert (H1 : In (Thailand, "Buddha's Birthday", (4, 15)) lunar_holidays)
    by (unfold lunar_holidays; in_list).
  assert (H2 : outcome (Reference.populate Thailand true 2019) = Ok tt)
    by (vm_compute; reflexivity).
  assert (H3 : In 0 [-1; 0; 1]) by in_list.
  split; [exact H1|]. split; [exact H2|]. split; [exact H3|].
  exact (lunar_completeness Reference.easter Reference.from_gregorian
           Reference.to_gregorian Reference.Lunar2Solar
           Thailand _ _ true 2019 0 H1 H2 H3).
Defined.

Lemma multi_day_consecutive_witness :
  In (India, "Eid al-Fitr", (6, 15), (10, 1), 2) multi_day_holidays /\
  In (SetItem (mkDate 2019 6 6) "Eid al-Fitr")
     (events (Reference.populate India true 2019)) /\
  consecutive_hijri_day Reference.from_gregorian Reference.to_gregorian
    2019 (6, 15) 10 1 2 (mkDate 2019 6 6).
Proof.
  assert (H1 : In (India, "Eid al-Fitr", (6, 15), (10, 1), 2) multi_day_holidays)
    by (unfold multi_day_holidays; in_list).
  assert (H2 : In (SetItem (mkDate 2019 6 6) "Eid al-Fitr")
                  (events (Reference.populate India true 2019)))
    by (vm_compute; in_list).
  split; [exact H1|]. split; [exact H2|].
  exact (multi_day_consecutive Reference.easter Reference.from_gregorian
           Reference.to_gregorian Reference.Lunar2Solar
           India _ _ _ _ _ true 2019 _ H1 H2).
Defined.

Lemma multi_day_completeness_witness :
  In (India, "Eid al-Fitr", (6, 15), (10, 1), 2) multi_day_holidays /\
  outcome (Reference.populate India true 2019) = Ok tt /\
  In 0 [-1; 0; 1] /\
  0 <= 1 < 2 /\
  exists g y m d,
    Reference.from_gregorian (2019 + 0) 6 15 = Ok g /\
    Reference.to_gregorian g.1.1 10 (1 + 1) = Ok (y, m, d) /\
    (y = 2019 ->
     valid_ymd y m d = true /\
     In (SetItem (mkDate y m d) "Eid al-Fitr")
        (events (Reference.populate India true 2019))).
Proof.
  assert (H1 : In (India, "Eid al-Fitr", (6, 15), (10, 1), 2) multi_day_holidays)
    by (unfold multi_day_holidays; in_list).
  assert (H2 : outcome (Reference.populate India true 2019) = Ok tt)
    by (vm_compute; reflexivity).
  assert (H3 : In 0 [-1; 0; 1]) by in_list.
  assert (H4 : 0 <= 1 < 2) by lia.
  split; [exact H1|]. split; [exact H2|]. split; [exact H3|]. split; [exact H4|].
  exact (multi_day_completeness Reference.easter Reference.from_gregorian
           Reference.to_gregorian Reference.Lunar2Solar
           India _ _ _ _ _ true 2019 0 1 H1 H2 H3 H4).
Defined.

Lemma western_easter_completeness_witness :
  In (Philippines, "Good Friday", -2) western_easter_holidays /\
  outcome (Reference.populate Philippines true 2019) = Ok tt /\
  In 0 [-1; 0; 1] /\
  exists e ds,
    Reference.easter (2019 + 0) EASTER_WESTERN = Ok e /\
    offset_date e (-2) = Ok ds /\
    (year ds = 2019 ->
     In (SetItem ds "Good Friday")
        (events (Reference.populate Philippines true 2019))).
Proof.
  assert (H1 : In (Philippines, "Good Friday", -2) western_easter_holidays)
    by (unfold western_easter_holidays; in_list).
  assert (H2 : outcome (Reference.populate Philippines true 2019) = Ok tt)
    by (vm_compute; reflexivity).
  assert (H3 : In 0 [-1; 0; 1]) by in_list.
  split; [exact H1|]. split; [exact H2|]. split; [exact H3|].
  exact (western_easter_completeness Reference.easter Reference.from_gregorian
           Reference.to_gregorian Reference.Lunar2Solar
           Philippines _ _ true 2019 0 H1 H2 H3).
Defined.

Lemma Chakri_Memorial_Day_on_weekday_witness :
  In (SetItem (mkDate 2019 4 8) "Chakri Memorial Day")
     (events (Reference.populate Thailand true 2019)) /\
  0 <= weekday (mkDate 2019 4 8) <= 4.
Proof.
  assert (H : In (SetItem (mkDate 2019 4 8) "Chakri Memorial Day")
                 (events (Reference.populate Thailand true 2019)))
    by (vm_compute; in_list).
  split; [exact H|].
  exact (Chakri_Memorial_Day_on_weekday Reference.easter Reference.from_gregorian
           Reference.to_gregorian Reference.Lunar2Solar true 2019 _ H).
Defined.

Lemma Pancasila_Day_since_2017_witness :
  outcome (Reference.populate Indonesia true 2019) = Ok tt /\
  In (SetItem (mkDate 2019 6 1) "Pancasila Day")
     (events (Reference.populate Indonesia true 2019)).
Proof.
  assert (H : outcome (Reference.populate Indonesia true 2019) = Ok tt)
    by (vm_compute; reflexivity).
  split; [exact H|].
  apply (Pancasila_Day_since_2017 Reference.easter Reference.from_gregorian
           Reference.to_gregorian Reference.Lunar2Solar true 2019 _ H).
  split; [lia | reflexivity].
Defined.

Lemma Coronation_Day_before_2017_witness :
  outcome (Reference.populate Thailand true 2019) = Ok tt /\
  ~ In (SetItem (mkDate 2019 5 5) "Coronation Day")
       (events (Reference.populate Thailand true 2019)).
Proof.
  assert (H : outcome (Reference.populate Thailand true 2019) = Ok tt)
    by (vm_compute; reflexivity).
  split; [exact H|]. intros Hin.
  apply (Coronation_Day_before_2017 Reference.easter Reference.from_gregorian
           Reference.to_gregorian Reference.Lunar2Solar true 2019 _ H) in Hin.
  lia.
Defined.

Lemma observed_flag_effect_witness :
  (Indonesia = Indonesia -> in_ (weekday (mkDate 2019 1 1)) WEEKEND = false) /\
  Reference.populate Indonesia true 2019 = Reference.populate Indonesia false 2019.
Proof.
  assert (H : Indonesia = Indonesia ->
              in_ (weekday (mkDate 2019 1 1)) WEEKEND = false)
    by (intros _; reflexivity).
  split; [exact H|].
  exact (observed_flag_effect Reference.easter Reference.from_gregorian
           Reference.to_gregorian Reference.Lunar2Solar Indonesia true false 2019 H).
Defined.

Lemma routines_read_at_adjacent_years_witness :
  (forall y me, 2019 - 1 <= y <= 2019 + 1 ->
     Reference.easter y me
     = (if y <? 2000 then Raise DateNotExist else Reference.easter y me)) /\
  (forall y m d, 2019 - 1 <= y <= 2019 + 1 ->
     Reference.from_gregorian y m d
     = (if 2030 <? y then Ok (0, 0, 0) else Reference.from_gregorian y m d)) /\
  (forall y m d, 2019 - 1 <= y <= 2019 + 1 ->
     Reference.Lunar2Solar y m d
     = (if y =? 2016 then Raise ValueError else Reference.Lunar2Solar y m d)) /\
  Reference.populate Indonesia true 2019
  = populate
      (fun y me => if y <? 2000 then Raise DateNotExist else Reference.easter y me)
      (fun y m d => if 2030 <? y then Ok (0, 0, 0)
                    else Reference.from_gregorian y m d)
      Reference.to_gregorian
      (fun y m d => if y =? 2016 then Raise ValueError
                    else Reference.Lunar2Solar y m d)
      Indonesia true 2019.
Proof.
  assert (He : forall y me, 2019 - 1 <= y <= 2019 + 1 ->
     Reference.easter y me
     = (if y <? 2000 then Raise DateNotExist else Reference.easter y me)).
  { intros y me Hy. destruct (y <? 2000) eqn:E; [|reflexivity].
    apply Z.ltb_lt in E. lia. }
  assert (Hg : forall y m d, 2019 - 1 <= y <= 2019 + 1 ->
     Reference.from_gregorian y m d
     = (if 2030 <? y then Ok (0, 0, 0) else Reference.from_gregorian y m d)).
  { intros y m d Hy. destruct (2030 <? y) eqn:E; [|reflexivity].
    apply Z.ltb_lt in E. lia. }
  assert (Hl : forall y m d, 2019 - 1 <= y <= 2019 + 1 ->
     Reference.Lunar2Solar y m d
     = (if y =? 2016 then Raise ValueError else Reference.Lunar2Solar y m d)).
  { intros y m d Hy. destruct (y =? 2016) eqn:E; [|reflexivity].
    apply Z.eqb_eq in E. lia. }
  split; [exact He|]. split; [exact Hg|]. split; [exact Hl|].
  exact (routines_read_at_adjacent_years _ _ _ _ Reference.to_gregorian _ _
           Indonesia true 2019 He Hg Hl).
Defined.

(** * Repeated calls *)

(** ** The state transformers replay the events *)

Lemma replays_ret {A} obs (a : A) : replays obs (Stateful.ret a) (ret a).
Proof. intros [o m] <-. reflexivity. Qed.

Lemma replays_lift {A} obs (r : result A) : replays obs (Stateful.lift r) (lift r).
Proof. intros [o m] <-. reflexivity. Qed.

Lemma replays_setitem obs key name :
  replays obs (Stateful.setitem key name) (setitem key name).
Proof. intros [o m] <-. reflexivity. Qed.

Lemma replays_warn obs msg : replays obs (Stateful.warn msg) (warn msg).
Proof. intros [o m] <-. reflexivity. Qed.

Lemma replays_bind {A B} obs (s : Stateful.St A) (c : M A)
    (f : A -> Stateful.St B) (g : A -> M B) :
  replays obs s c ->
  (forall a, replays obs (f a) (g a)) ->
  replays obs (Stateful.bind s f) (bind c g).
Proof.
  intros Hs Hf self Hobs. unfold Stateful.bind. rewrite (Hs self Hobs).
  destruct c as [t [a|x]]; cbn [events outcome fst snd].
  - rewrite (Hf a (mkHolidayBase obs (apply_events (items self) t)) eq_refl).
    cbn [items bind].
    destruct (g a) as [t' r]. cbn [events outcome fst snd].
    rewrite apply_events_app, warnings_of_app. reflexivity.
  - reflexivity.
Qed.

Lemma replays_get_observed {B} obs (f : bool -> Stateful.St B) (c : M B) :
  replays obs (f obs) c ->
  replays obs (Stateful.bind Stateful.get_observed f) c.
Proof.
  intros Hf self Hobs. unfold Stateful.bind, Stateful.get_observed.
  rewrite Hobs, (Hf self Hobs). reflexivity.
Qed.

Lemma replays_for {A} obs (l : list A) (f : A -> Stateful.St unit) (g : A -> M unit) :
  (forall x, replays obs (f x) (g x)) ->
  replays obs (Stateful.for_ l f) (for_ l g).
Proof.
  intros H. induction l as [|x l IH]; cbn [Stateful.for_ for_].
  - apply replays_ret.
  - apply replays_bind; [apply H | intros _; exact IH].
Qed.

Lemma replays_setitem_ymd obs y m d name :
  replays obs (Stateful.setitem_ymd y m d name) (setitem_ymd y m d name).
Proof.
  unfold Stateful.setitem_ymd, setitem_ymd.
  apply replays_bind; [apply replays_lift | intros key; apply replays_setitem].
Qed.

Ltac replay_step :=
  lazymatch goal with
  | |- replays _ (Stateful.bind Stateful.get_observed _) _ =>
      apply replays_get_observed
  | |- replays _ (Stateful.bind _ _) (bind _ _) =>
      apply replays_bind; [ | intros ? ]
  | |- replays _ (Stateful.for_ _ _) (for_ _ _) => apply replays_for; intros ?
  | |- replays _ (Stateful.setitem_ymd _ _ _ _) (setitem_ymd _ _ _ _) =>
      apply replays_setitem_ymd
  | |- replays _ (Stateful.setitem _ _) (setitem _ _) => apply replays_setitem
  | |- replays _ (Stateful.warn _) (warn _) => apply replays_warn
  | |- replays _ (Stateful.lift _) (lift _) => apply replays_lift
  | |- replays _ (Stateful.ret _) (ret _) => apply replays_ret
  | |- replays _ Stateful.pass pass => apply replays_ret
  | |- replays _ (if ?b then _ else _) (if ?b then _ else _) => destruct b
  | |- replays _ (match ?t with (_, _) => _ end) (match ?t with (_, _) => _ end) =>
      destruct t
  | |- replays _ (let _ := _ in _) _ => cbv zeta
  end.

Ltac replay_walk := repeat replay_step.

Ltac unfold_stateful_blocks :=
  unfold Stateful.Indonesia_Nyepi, Stateful.India_Diwali_Holi,
    Stateful.Thailand_Magha_Pujab, Stateful.Thailand_Asalha_Puja,
    Stateful.Thailand_Vassa.

Section Repeated.

Variable easter : Z -> easter_method -> result date.
Variable from_gregorian : Z -> Z -> Z -> result (Z * Z * Z).
Variable to_gregorian : Z -> Z -> Z -> result (Z * Z * Z).
Variable Lunar2Solar : Z -> Z -> Z -> result date.

Abbreviation Populate := (populate easter from_gregorian to_gregorian Lunar2Solar).
Abbreviation Call := (Stateful.populate easter from_gregorian to_gregorian Lunar2Solar).

(** Every method, as a state transformer, makes the assignments and gives
    the warnings of its event list, in order, and does nothing else to the
    instance. *)
Lemma call_replays c obs yr : replays obs (Call c yr) (Populate c obs yr).
Proof.
  destruct c; unfold Stateful.populate, populate;
    [ unfold Stateful.Indonesia_populate, Indonesia_populate
    | unfold Stateful.India_populate, India_populate
    | unfold Stateful.Kyrgyzstan_populate, Kyrgyzstan_populate
    | unfold Stateful.Thailand_populate, Thailand_populate
    | unfold Stateful.Philippines_populate, Philippines_populate
    | unfold Stateful.Pakistan_populate, Pakistan_populate
    | unfold Stateful.Russia_populate, Russia_populate
    | unfold Stateful.Belarus_populate, Belarus_populate
    | unfold Stateful.Georgia_populate, Georgia_populate ];
    unfold Stateful.setitem_orthodox, setitem_orthodox;
    unfold_stateful_blocks; unfold_blocks; cbv zeta;
    replay_walk.
Qed.


Lemma call_is_run_populate c (self : HolidayBase) yr :
  (instance_after (Call c yr self), ended (Call c yr self))
  = run_populate easter from_gregorian to_gregorian Lunar2Solar c self yr.
Proof.
  pose proof (call_replays c (observed self) yr self eq_refl) as H.
  rewrite H. reflexivity.
Qed.

(** C4. For every class and year, a call of [_populate(yr)] leaves the
    flag of the instance as it was and its dictionary with the assignments
    of the method made in order, and a second call on the instance the
    first one left changes nothing: the instance, and with it the
    date-to-name mapping, is the same after both calls, and the second
    call warns and ends as the first did.  The imported routines are
    functions. *)
Theorem populate_idempotent c (self : HolidayBase) yr :
  let first := Call c yr self in
  let second := Call c yr (instance_after first) in
  instance_after first
  = mkHolidayBase (observed self)
      (apply_events (items self) (events (Populate c (observed self) yr))) /\
  instance_after second = instance_after first /\
  warned second = warned first /\
  ended second = ended first.
Proof.
  cbv zeta.
  pose proof (call_replays c (observed self) yr self eq_refl) as H1.
  rewrite H1. unfold instance_after, warned, ended. cbn [fst snd].
  pose proof (call_replays c (observed self) yr
                (mkHolidayBase (observed self)
                   (apply_events (items self)
                      (events (Populate c (observed self) yr))))
                eq_refl) as H2.
  rewrite H2. cbn [fst snd items].
  rewrite apply_events_twice. repeat split; reflexivity.
Qed.

End Repeated.

(** Not every state transformer can be repeated: one that removes the
    entry it finds, and stores one where it finds none, undoes itself. *)
Example a_transformer_that_is_not_idempotent :
  let flip : Stateful.St unit := fun self =>
    match items self !! mkDate 2019 1 1 with
    | Some _ => (mkHolidayBase (observed self) (delete (mkDate 2019 1 1) (items self)),
                 [], Ok tt)
    | None => Stateful.setitem (mkDate 2019 1 1) "New Year's Day" self
    end in
  let self := mkHolidayBase true ∅ in
  items (instance_after (flip self)) !! mkDate 2019 1 1 = Some "New Year's Day" /\
  items (instance_after (flip (instance_after (flip self)))) !! mkDate 2019 1 1 = None.
Proof. split; vm_compute; reflexivity. Qed.

(** * Calls that return *)

Lemma returns_bind {A B} (c : M A) (f : A -> M B) a b :
  outcome c = Ok a -> outcome (f a) = Ok b -> outcome (bind c f) = Ok b.
Proof. intros Hc Hf. rewrite outcome_bind, Hc. exact Hf. Qed.

Lemma returns_for {A} (l : list A) (body : A -> M unit) :
  (forall x, In x l -> outcome (body x) = Ok tt) -> outcome (for_ l body) = Ok tt.
Proof.
  induction l as [|x l IH]; intros H; [reflexivity|].
  cbn [for_]. apply (returns_bind _ _ tt).
  - apply H. left. reflexivity.
  - apply IH. intros z Hz. apply H. right. exact Hz.
Qed.

Lemma returns_setitem_ymd y m d name :
  valid_ymd y m d = true -> outcome (setitem_ymd y m d name) = Ok tt.
Proof. intros H. rewrite setitem_ymd_valid by exact H. reflexivity. Qed.

Ltac row := solve [ unfold western_easter_holidays, orthodox_easter_holidays,
                      lunar_holidays, single_day_holidays, multi_day_holidays;
                    in_list ].

(** The facts are in the context: a contradiction between a conversion
    that raised and the one that returns, or the date of a converted day. *)
Ltac conclude :=
  first
    [ congruence
    | match goal with
      | V : ?y' = _ -> valid_ymd ?y' ?m' ?d' = true,
        Ey : (?y =? _) = true |- valid_ymd ?y ?m ?d = true =>
          apply Z.eqb_eq in Ey;
          replace (valid_ymd y m d) with (valid_ymd y' m' d') by congruence;
          apply V; congruence
      end ].

(** The day [hd + i] of a row, as the literal of the source. *)
Ltac literal_day Et :=
  lazymatch type of Et with
  | context [?h + ?i] =>
      let v := eval cbv in (h + i) in change (h + i) with v in Et
  end.

(** The row of the Hijri holiday of a loop, from the anchor [(a, b)] and
    the Hijri day [(hm, hd)] of a conversion. *)
Ltac hijri_row Hs Hm a b hm hd :=
  let g' := fresh "g" in
  let y' := fresh "y" in
  let m' := fresh "m" in
  let d' := fresh "d" in
  let Eg' := fresh "Eg" in
  let Et' := fresh "Et" in
  let V := fresh "V" in
  first
    [ destruct (Hs _ (a, b) _ (hm, hd) ltac:(row))
        as (g' & y' & m' & d' & Eg' & Et' & V);
      cbn [fst snd] in Eg', Et'; rewrite ?Z.add_0_r in Et'; conclude
    | destruct (Hm _ (a, b) hm _ _ 0 ltac:(row) ltac:(lia))
        as (g' & y' & m' & d' & Eg' & Et' & V);
      cbn [fst snd] in Eg', Et'; literal_day Et'; conclude
    | destruct (Hm _ (a, b) hm _ _ 1 ltac:(row) ltac:(lia))
        as (g' & y' & m' & d' & Eg' & Et' & V);
      cbn [fst snd] in Eg', Et'; literal_day Et'; conclude
    | destruct (Hm _ (a, b) hm _ _ 2 ltac:(row) ltac:(lia))
        as (g' & y' & m' & d' & Eg' & Et' & V);
      cbn [fst snd] in Eg', Et'; literal_day Et'; conclude ].

(** Indonesia's and the Philippines' "Eid al-Fitr". *)
Ltac eid_row Hi Hp :=
  let V := fresh "V" in
  first
    [ destruct (Hi eq_refl) as (? & ? & ? & ? & ? & ? & ? & ? & ? & ? & V);
      first
        [ congruence
        | match goal with
          | Ey : (?y =? ?yr) = true, E2 : _ _ 10 2 = Ok (_, ?m, ?d)
            |- valid_ymd ?y ?m ?d = true =>
              apply Z.eqb_eq in Ey; rewrite Ey;
              match type of V with
              | _ -> valid_ymd _ ?m' ?d' = true =>
                  replace (valid_ymd yr m d) with (valid_ymd yr m' d')
                    by congruence
              end;
              apply V; first [ left; congruence | right; congruence ]
          end ]
    | destruct (Hp eq_refl) as (? & ? & ? & ? & ? & ? & ? & V & ?);
      first
        [ congruence
        | match goal with
          | |- valid_ymd ?y ?m ?d = true =>
              match type of V with
              | valid_ymd ?y' ?m' ?d' = true =>
                  replace (valid_ymd y m d) with (valid_ymd y' m' d')
                    by congruence
              end;
              exact V
          end
        | match goal with
          | E : date_add_days (mkDate ?y ?m ?d) _ = Raise _,
            E' : date_add_days (mkDate ?y' ?m' ?d') _ = Ok _ |- _ =>
              replace (mkDate y m d) with (mkDate y' m' d') in E by congruence;
              congruence
          end ] ].

(** In a loop: [HK] holds the conversions of the year of the loop. *)
Ltac in_loop HK :=
  let He := fresh "He" in
  let Hl := fresh "Hl" in
  let Hs := fresh "Hs" in
  let Hm := fresh "Hm" in
  let Hi := fresh "Hi" in
  let Hp := fresh "Hp" in
  destruct HK as (He & Hl & Hs & Hm & Hi & Hp);
  first
    [ (* a lunar or a Western Easter conversion raised *)
      match goal with
      | E : _ _ EASTER_WESTERN = Raise _ |- _ =>
          destruct (He _ _ ltac:(row)) as (? & ? & ? & ?); congruence
      | E : date_add_days _ ?o = Raise _ |- _ =>
          let E2 := fresh "E" in
          destruct (He _ o ltac:(row)) as (? & ? & ? & E2);
          unfold offset_date in E2; cbn [Z.eqb] in E2; congruence
      | E : _ (_ + _) ?m ?d = Raise _ |- _ =>
          let E1 := fresh "E" in
          first
            [ destruct (Hl _ (m, d) ltac:(row)) as (? & E1);
              cbn [fst snd] in E1; congruence
            | destruct (Hs _ (m, d) _ _ ltac:(row)) as (? & ? & ? & ? & E1 & _);
              cbn [fst snd] in E1; congruence
            | destruct (Hm _ (m, d) _ _ _ 0 ltac:(row) ltac:(lia))
                as (? & ? & ? & ? & E1 & _);
              cbn [fst snd] in E1; congruence ]
      end
    | (* a Hijri conversion: raised, or gave the key of an assignment *)
      match goal with
      | Eg : _ (_ + _) ?a ?b = Ok ?g, Et : _ _ ?hm ?hd = _ |- _ =>
          lazymatch type of Et with
          | context [g] => hijri_row Hs Hm a b hm hd
          end
      end
    | eid_row Hi Hp ].

(** Orthodox Easter and the addition to it have not raised. *)
Ltac orthodox Ho :=
  match goal with
  | E : _ _ EASTER_ORTHODOX = Raise _ |- _ =>
      destruct (Ho _ _ ltac:(row)) as (? & ? & ? & ?); congruence
  | E : date_add_days _ ?o = Raise _ |- _ =>
      let E2 := fresh "E" in
      destruct (Ho _ o ltac:(row)) as (? & ? & ? & E2);
      unfold offset_date in E2; cbn [Z.eqb] in E2; congruence
  end.

Ltac refute Ho HK := first [ orthodox Ho | in_loop HK ].

Ltac solve_valid Hy HK :=
  first
    [ apply valid_ymd_month;
      [ exact Hy | lia | cbn [DAYS_IN_MONTH Z.add Pos.add Pos.succ]; lia ]
    | in_loop HK ].

(** A method body returns: statement by statement. *)
Ltac solve_outcome Hy Hk Ho HK :=
  cbv beta iota zeta;
  lazymatch goal with
  | |- outcome (Indonesia_Nyepi _) = Ok tt => exact (proj1 (Nyepi_is_table _))
  | |- outcome (India_Diwali_Holi _) = Ok tt => exact (proj1 (Diwali_is_table _))
  | |- outcome (Thailand_Magha_Pujab _) = Ok tt => exact (proj1 (Magha_Pujab_is_table _))
  | |- outcome (Thailand_Asalha_Puja _) = Ok tt => exact (proj1 (Asalha_Puja_is_table _))
  | |- outcome (Thailand_Vassa _) = Ok tt => exact (proj1 (Vassa_is_table _))
  | |- outcome (setitem_ymd _ _ _ _) = Ok tt =>
      apply returns_setitem_ymd; solve_valid Hy HK
  | |- outcome (setitem _ _) = Ok tt => reflexivity
  | |- outcome pass = Ok tt => reflexivity
  | |- outcome (ret _) = Ok _ => reflexivity
  | |- outcome (for_ _ _) = Ok tt =>
      let k := fresh "k" in
      let Hin := fresh "Hin" in
      let HK' := fresh "HK" in
      apply returns_for; intros k Hin; pose proof (Hk k Hin) as HK';
      solve_outcome Hy Hk Ho HK'
  | |- outcome (if ?b then _ else _) = Ok _ =>
      let Eb := fresh "Eb" in
      destruct b eqn:Eb; solve_outcome Hy Hk Ho HK
  | |- outcome (match ?t with (_, _) => _ end) = Ok _ =>
      destruct t as [[? ?] ?]; solve_outcome Hy Hk Ho HK
  | |- outcome (bind (bind (lift (date_new _ _ _)) _) _) = Ok _ =>
      rewrite date_new_valid by solve_valid Hy HK;
      rewrite bind_lift_ok; solve_outcome Hy Hk Ho HK
  | |- outcome (bind (lift (date_new _ _ _)) _) = Ok _ =>
      rewrite date_new_valid by solve_valid Hy HK;
      rewrite bind_lift_ok; solve_outcome Hy Hk Ho HK
  | |- outcome (bind (lift ?r) _) = Ok _ =>
      let E := fresh "E" in
      destruct r eqn:E;
      [ rewrite bind_lift_ok; solve_outcome Hy Hk Ho HK
      | exfalso; refute Ho HK ]
  | |- outcome (bind (ret _) _) = Ok _ =>
      rewrite bind_ret; solve_outcome Hy Hk Ho HK
  | |- outcome (bind (if ?b then ret _ else ret _) _) = Ok _ =>
      let Eb := fresh "Eb" in
      destruct b eqn:Eb; solve_outcome Hy Hk Ho HK
  | |- outcome (bind (if ?b then bind _ _ else ret _) _) = Ok _ =>
      let Eb := fresh "Eb" in
      destruct b eqn:Eb; solve_outcome Hy Hk Ho HK
  | |- outcome (bind (bind ?c ?f) ?g) = Ok _ =>
      lazymatch type of c with
      | M unit =>
          apply (returns_bind _ _ tt);
          [ solve_outcome Hy Hk Ho HK | solve_outcome Hy Hk Ho HK ]
      | _ =>
          lazymatch type of g with
          | unit -> _ =>
              apply (returns_bind _ _ tt);
              [ solve_outcome Hy Hk Ho HK | solve_outcome Hy Hk Ho HK ]
          | _ => fail "statement with a value"
          end
      end
  | |- outcome (bind _ _) = Ok _ =>
      apply (returns_bind _ _ tt);
      [ solve_outcome Hy Hk Ho HK | solve_outcome Hy Hk Ho HK ]
  end.

Section Returning.

Variable easter : Z -> easter_method -> result date.
Variable from_gregorian : Z -> Z -> Z -> result (Z * Z * Z).
Variable to_gregorian : Z -> Z -> Z -> result (Z * Z * Z).
Variable Lunar2Solar : Z -> Z -> Z -> result date.

Abbreviation Populate := (populate easter from_gregorian to_gregorian Lunar2Solar).

(** A call for a year of the calendar returns when the conversions it
    makes succeed. *)
Lemma populate_returns c obs yr :
  MINYEAR <= yr <= MAXYEAR ->
  conversions_return easter from_gregorian to_gregorian Lunar2Solar c yr ->
  outcome (Populate c obs yr) = Ok tt.
Proof.
  intros Hy [Hk Ho].
  destruct c; unfold populate.
  - unfold Indonesia_populate. solve_outcome Hy Hk Ho Hk.
  - unfold India_populate. solve_outcome Hy Hk Ho Hk.
  - unfold Kyrgyzstan_populate. solve_outcome Hy Hk Ho Hk.
  - unfold Thailand_populate. solve_outcome Hy Hk Ho Hk.
  - unfold Philippines_populate. solve_outcome Hy Hk Ho Hk.
  - unfold Pakistan_populate. solve_outcome Hy Hk Ho Hk.
  - unfold Russia_populate. solve_outcome Hy Hk Ho Hk.
  - unfold Belarus_populate, setitem_orthodox. solve_outcome Hy Hk Ho Hk.
  - unfold Georgia_populate, setitem_orthodox. solve_outcome Hy Hk Ho Hk.
Qed.


(** C8 (as amended). For every hard-coded holiday (Nyepi, Diwali, Holi,
    Magha Pujab, Asalha Puja, Vassa) of a class: for a year outside the
    range of the table, the table resolves to nothing and the call assigns
    no date under the holiday's name, whatever else happens.  For a year
    of the calendar for which the conversions of the class succeed, the
    call returns normally, for years outside the range as for years
    inside, and has gone on to the last holiday of the method, which is
    assigned; and for a year inside the range the tabulated date, of that
    year, is assigned under the holiday's name, and no other date. *)
Theorem hardcoded_table_lookup c B T obs yr :
  In (c, B, T) hardcoded_tables ->
  (in_range T yr = false ->
   resolve_table T yr = None /\
   dates_named (holiday T) (events (Populate c obs yr)) = []) /\
  (MINYEAR <= yr <= MAXYEAR ->
   conversions_return easter from_gregorian to_gregorian Lunar2Solar c yr ->
   outcome (Populate c obs yr) = Ok tt /\
   In (SetItem (mkDate yr (last_holiday c).1.1 (last_holiday c).1.2)
               (last_holiday c).2)
      (events (Populate c obs yr)) /\
   (in_range T yr = true ->
    exists d,
      resolve_table T yr = Some d /\ year d = yr /\
      forall key,
        In (SetItem key (holiday T)) (events (Populate c obs yr)) <-> key = d)).
Proof.
  intros Hin.
  destruct (hardcoded_block_is_table c B T yr Hin) as (Hok & Hd & Hnone).
  split.
  { intros Hr. split; [apply Hnone; exact Hr|].
    apply out_of_range_omitted with (B := B); assumption. }
  intros Hy Hc.
  pose proof (populate_returns c obs yr Hy Hc) as Hret.
  split; [exact Hret|]. split.
  { assert (Hp : part_of (setitem_ymd yr (last_holiday c).1.1 (last_holiday c).1.2
                            (last_holiday c).2)
                         (Populate c obs yr)).
    { clear - Hin. simpl in Hin.
      repeat (destruct Hin as [Hin|Hin];
              [inversion Hin; subst c B T; clear Hin|]); [..|destruct Hin];
        cbn [last_holiday fst snd];
        unfold populate, Indonesia_populate, India_populate, Thailand_populate;
        find_part. }
    destruct (Hp tt Hret) as [[[] Ha] Hsub]. apply Hsub.
    apply setitem_ymd_returns. exact Ha. }
  intros Hr.
  destruct (resolve_table T yr) as [d|] eqn:Hres.
  2:{ rewrite (proj1 Hnone eq_refl) in Hr. discriminate Hr. }
  exists d. split; [reflexivity|]. split.
  { unfold resolve_table in Hres. destruct (in_range T yr); [|discriminate].
    destruct (assoc yr (mapping T)) as [[m dd]|]; inversion Hres; reflexivity. }
  intros key. split.
  - intros Hk.
    pose proof (all_events_In _ _ _
                  (assigned_is_tabulated easter from_gregorian to_gregorian
                     Lunar2Solar c B T obs yr Hin) Hk eq_refl) as Hk'.
    simpl in Hk'. rewrite Hres in Hk'. inversion Hk'. reflexivity.
  - intros ->.
    apply (block_reached easter from_gregorian to_gregorian Lunar2Solar
             c B T obs yr _ Hin Hret).
    apply dates_named_In. rewrite Hd. left. reflexivity.
Qed.

End Returning.

(** The reference routines return for the conversions of a class and a
    year: by evaluation, row by row. *)
Ltac evaluated :=
  lazymatch goal with
  | |- ?l = Ok _ => let v := eval vm_compute in l in change l with v; reflexivity
  | |- _ -> _ => intros _; vm_compute; reflexivity
  | |- _ = true => vm_compute; reflexivity
  end.

Ltac rows_of H :=
  simpl in H;
  repeat (destruct H as [H|H]; [first [discriminate H | inversion H; subst; clear H]|]);
  [..|destruct H].

Ltac reference_conversions :=
  split;
  [ let k := fresh "k" in
    let Hk := fresh "Hk" in
    intros k Hk; simpl in Hk; destruct Hk as [<- | [<- | [<- | []]]];
    repeat apply conj
  | ];
  intros;
  repeat match goal with
         | H : In _ _ |- _ => rows_of H
         | H : ?a = ?a |- _ => clear H
         | H : _ = _ :> country |- _ => discriminate H
         end;
  repeat match goal with
         | H : 0 <= ?i < _ |- _ =>
             is_var i;
             assert (i = 0 \/ i = 1 \/ i = 2) as [-> | [-> | ->]] by lia; try lia;
             clear H
         end;
  repeat eexists; evaluated.

Lemma hardcoded_table_lookup_witness :
  In (Thailand, Thailand_Vassa, Vassa_table) hardcoded_tables /\
  (in_range Vassa_table 2021 = false /\
   MINYEAR <= 2021 <= MAXYEAR /\
   conversions_return Reference.easter Reference.from_gregorian
     Reference.to_gregorian Reference.Lunar2Solar Thailand 2021 /\
   dates_named "Beginning of Vassa" (events (Reference.populate Thailand true 2021))
   = [] /\
   outcome (Reference.populate Thailand true 2021) = Ok tt /\
   In (SetItem (mkDate 2021 12 31) "New Year's Eve")
      (events (Reference.populate Thailand true 2021))) /\
  (in_range Vassa_table 2020 = true /\
   MINYEAR <= 2020 <= MAXYEAR /\
   conversions_return Reference.easter Reference.from_gregorian
     Reference.to_gregorian Reference.Lunar2Solar Thailand 2020 /\
   outcome (Reference.populate Thailand true 2020) = Ok tt /\
   exists d,
     resolve_table Vassa_table 2020 = Some d /\ year d = 2020 /\
     forall key,
       In (SetItem key "Beginning of Vassa")
          (events (Reference.populate Thailand true 2020)) <-> key = d).
Proof.
  assert (H : In (Thailand, Thailand_Vassa, Vassa_table) hardcoded_tables)
    by (unfold hardcoded_tables; in_list).
  assert (R1 : in_range Vassa_table 2021 = false) by reflexivity.
  assert (R2 : in_range Vassa_table 2020 = true) by reflexivity.
  assert (Y1 : MINYEAR <= 2021 <= MAXYEAR) by (unfold MINYEAR, MAXYEAR; lia).
  assert (Y2 : MINYEAR <= 2020 <= MAXYEAR) by (unfold MINYEAR, MAXYEAR; lia).
  assert (C1 : conversions_return Reference.easter Reference.from_gregorian
                 Reference.to_gregorian Reference.Lunar2Solar Thailand 2021)
    by reference_conversions.
  assert (C2 : conversions_return Reference.easter Reference.from_gregorian
                 Reference.to_gregorian Reference.Lunar2Solar Thailand 2020)
    by reference_conversions.
  destruct (hardcoded_table_lookup Reference.easter Reference.from_gregorian
              Reference.to_gregorian Reference.Lunar2Solar
              Thailand Thailand_Vassa Vassa_table true 2021 H) as [Hout Hret].
  destruct (Hout R1) as [_ Hnone].
  destruct (Hret Y1 C1) as (Hok & Hlast & _).
  destruct (hardcoded_table_lookup Reference.easter Reference.from_gregorian
              Reference.to_gregorian Reference.Lunar2Solar
              Thailand Thailand_Vassa Vassa_table true 2020 H) as [_ Hret'].
  destruct (Hret' Y2 C2) as (Hok' & _ & Hin).
  split; [exact H|]. split.
  - split; [exact R1|]. split; [exact Y1|]. split; [exact C1|].
    split; [exact Hnone|]. split; [exact Hok|]. exact Hlast.
  - split; [exact R2|]. split; [exact Y2|]. split; [exact C2|].
    split; [exact Hok'|]. exact (Hin R2).
Defined.

(** C8 as stated fails: 2200 is outside the range of the Magha Pujab table
    of Thailand; the call passes the table, assigns the two holidays that
    follow it and stops at "Buddha's Birthday", for which the lunar
    converter has no year 2199: the remaining holidays are not reached.
    And 10000, outside every range, is no year of [datetime.date]: the
    call stops at its first date. *)
Lemma table_miss_then_a_conversion_raises :
  in_range Magha_Pujab_table 2200 = false /\
  events (Reference.populate Thailand true 2200)
  = [ SetItem (mkDate 2200 1 1) "New Year's Day";
      SetItem (mkDate 2200 4 7) "Chakri Memorial Day";
      SetItem (mkDate 2200 4 14) "Songkran Festival" ] /\
  Reference.Lunar2Solar 2199 4 15 = Raise DateNotExist /\
  outcome (Reference.populate Thailand true 2200) = Raise DateNotExist /\
  in_range Magha_Pujab_table 10000 = false /\
  Reference.populate Thailand true 10000 = ([], Raise ValueError).
Proof. repeat split; vm_compute; reflexivity. Qed.
